(** * Knowledge organizer: ingestion pipeline, search and reclassification

    A shallow embedding of [src/agents/knowledge_agents.py] and
    [src/main.py].  The Python values handled by the code are the values that
    [json.loads] produces, so the embedding starts with those values and the
    Python operators the code applies to them ([in], [==], [len], indexing,
    truthiness, [str.join]), each with the exception it raises.  Numbers are
    integers: fractional literals are outside the modelled fragment.  A string
    is a sequence of code points, one [ascii] each, so the modelled texts are
    those over U+0000..U+00FF; white space is what [str.isspace] accepts in
    that range.

    External capabilities (the text-generation backend, [json.loads] on a
    reply, [uuid.uuid4], the text of a file, the clock, whether a [json.dump]
    goes through) are fields of an environment record; every theorem
    quantifies over the environment.  The two JSON files and the live
    [MemoryManager] object are fields of a store threaded through a
    state-and-exception monad, so that what is on disk when an exception
    escapes is part of the result.  A file is absent, holds the object that was
    dumped into it, or is cut off: [open(path, "w")] empties the file and a
    [json.dump] that breaks off (a string that cannot be encoded as UTF-8, such
    as the lone surrogate [json.loads] reads from the escape \ud800) leaves
    a text that is not JSON, on which every later [json.load] raises.  Console
    output is not modelled.

    Contents: Python values and operators; persistent data and its reload;
    the agents of knowledge_agents.py; the functions of main.py; a runnable
    reader for a fragment of JSON and the scenarios built on it; the
    properties, by function. *)

From Stdlib Require Import String Ascii List ZArith Bool Arith Lia.
From Stdlib Require Import DecimalString.
Import ListNotations.

Local Open Scope string_scope.
Local Open Scope list_scope.

Set Implicit Arguments.
Set Warnings "-register-all".

(** ** Exceptions and results *)

Inductive exn : Type :=
| KeyError
| TypeError
| IndexError
| ValueError
| OSError
| UnboundLocalError
| JSONDecodeError
| UnicodeEncodeError
| LoopFuel.   (* not a Python exception: the model's loop budget ran out *)

Inductive result (A : Type) : Type :=
| Ok (a : A)
| Raise (e : exn).

Arguments Ok {A} a.
Arguments Raise {A} e.

Definition rbind {A B : Type} (r : result A) (k : A -> result B) : result B :=
  match r with
  | Ok a => k a
  | Raise e => Raise e
  end.

Declare Scope res_scope.
Delimit Scope res_scope with res.
Notation "x <~ r ;; k" := (rbind r (fun x => k))
  (at level 61, r at next level, right associativity) : res_scope.

(** ** Strings as the code uses them *)

Definition dquote : ascii := "034"%char.

(** [str.isspace] on U+0000..U+00FF: TAB..CR, FS..US, the blank, NEL
    (U+0085) and the no-break space (U+00A0). *)
Definition isspace (c : ascii) : bool :=
  let n := nat_of_ascii c in
  ((9 <=? n)%nat && (n <=? 13)%nat) || ((28 <=? n)%nat && (n <=? 32)%nat)
  || (n =? 133)%nat || (n =? 160)%nat.

Fixpoint lstrip (s : string) : string :=
  match s with
  | EmptyString => EmptyString
  | String c r => if isspace c then lstrip r else s
  end.

Fixpoint rstrip (s : string) : string :=
  match s with
  | EmptyString => EmptyString
  | String c r =>
      match rstrip r with
      | EmptyString => if isspace c then EmptyString else String c EmptyString
      | r' => String c r'
      end
  end.

(** [s.strip()] *)
Definition strip (s : string) : string := rstrip (lstrip s).

(** [s.startswith(p)] *)
Definition startswith (p s : string) : bool := String.prefix p s.

(** [s.endswith(p)] *)
Definition endswith (p s : string) : bool :=
  (String.length p <=? String.length s)%nat &&
  String.eqb (String.substring (String.length s - String.length p) (String.length p) s) p.

(** [s[n:]] and [s[:-n]] for [n <= len(s)] *)
Definition drop_prefix (n : nat) (s : string) : string :=
  String.substring n (String.length s - n) s.

Definition drop_suffix (n : nat) (s : string) : string :=
  String.substring 0 (String.length s - n) s.

(** [needle in hay] on two strings: substring test. *)
Fixpoint contains (needle hay : string) : bool :=
  String.prefix needle hay ||
  match hay with
  | EmptyString => false
  | String _ r => contains needle r
  end.

(** [re.search(r'\{[^{}]*\}', s)]: the leftmost opening brace whose next
    brace is a closing one, with everything in between. *)
Fixpoint flat_body (s : string) : option string :=
  match s with
  | EmptyString => None
  | String c r =>
      if Ascii.eqb c "}" then Some (String c EmptyString)
      else if Ascii.eqb c "{" then None
      else option_map (String c) (flat_body r)
  end.

Fixpoint search_flat_object (s : string) : option string :=
  match s with
  | EmptyString => None
  | String c r =>
      if Ascii.eqb c "{" then
        match flat_body r with
        | Some b => Some (String c b)
        | None => search_flat_object r
        end
      else search_flat_object r
  end.

(** ** JSON values *)

Inductive json : Type :=
| JNull
| JBool (b : bool)
| JNum (n : Z)
| JStr (s : string)
| JArr (l : list json)
| JObj (d : list (string * json)).

(** A Python [dict] with string keys, in insertion order. *)
Fixpoint dict_get {V : Type} (k : string) (d : list (string * V)) : option V :=
  match d with
  | [] => None
  | (k', v) :: r => if String.eqb k k' then Some v else dict_get k r
  end.

(** [d[k] = v]: overwrite in place, or insert at the end. *)
Fixpoint dict_set {V : Type} (k : string) (v : V) (d : list (string * V)) : list (string * V) :=
  match d with
  | [] => [(k, v)]
  | (k', v') :: r => if String.eqb k k' then (k', v) :: r else (k', v') :: dict_set k v r
  end.

(** [bool(x)] *)
Definition truthy (x : json) : bool :=
  match x with
  | JNull => false
  | JBool b => b
  | JNum n => negb (n =? 0)%Z
  | JStr s => negb (String.eqb s EmptyString)
  | JArr l => match l with [] => false | _ => true end
  | JObj d => match d with [] => false | _ => true end
  end.

Definition Z_of_bool (b : bool) : Z := if b then 1%Z else 0%Z.

(** [a == b]: booleans compare as the integers 0 and 1, lists element by
    element, dicts key by key whatever the order. *)
Fixpoint py_eqb (a b : json) {struct a} : bool :=
  match a, b with
  | JNull, JNull => true
  | JBool x, JBool y => Bool.eqb x y
  | JBool x, JNum n => (Z_of_bool x =? n)%Z
  | JNum n, JBool x => (n =? Z_of_bool x)%Z
  | JNum m, JNum n => (m =? n)%Z
  | JStr s, JStr t => String.eqb s t
  | JArr l, JArr l' =>
      (fix go (l l' : list json) {struct l} : bool :=
         match l, l' with
         | [], [] => true
         | x :: xs, y :: ys => py_eqb x y && go xs ys
         | _, _ => false
         end) l l'
  | JObj d, JObj d' =>
      (List.length d =? List.length d')%nat &&
      (fix go (d : list (string * json)) {struct d} : bool :=
         match d with
         | [] => true
         | (k, v) :: r =>
             match dict_get k d' with
             | Some v' => py_eqb v v'
             | None => false
             end && go r
         end) d
  | _, _ => false
  end.

Definition chars (s : string) : list json :=
  map (fun c => JStr (String c EmptyString)) (list_ascii_of_string s).

(** [x in c] *)
Definition py_in (x c : json) : result bool :=
  match c with
  | JStr hay =>
      match x with
      | JStr needle => Ok (contains needle hay)
      | _ => Raise TypeError
      end
  | JArr l => Ok (existsb (fun e => py_eqb e x) l)
  | JObj d =>
      match x with
      | JStr k => Ok (match dict_get k d with Some _ => true | None => false end)
      | JArr _ | JObj _ => Raise TypeError
      | _ => Ok false
      end
  | _ => Raise TypeError
  end.

(** [len(c)] *)
Definition py_len (c : json) : result nat :=
  match c with
  | JStr s => Ok (String.length s)
  | JArr l => Ok (List.length l)
  | JObj d => Ok (List.length d)
  | _ => Raise TypeError
  end.

(** [iter(c)] *)
Definition py_iter (c : json) : result (list json) :=
  match c with
  | JStr s => Ok (chars s)
  | JArr l => Ok l
  | JObj d => Ok (map (fun kv => JStr (fst kv)) d)
  | _ => Raise TypeError
  end.

Definition seq_index {A : Type} (i : Z) (l : list A) : result A :=
  let n := Z.of_nat (List.length l) in
  let j := if (i <? 0)%Z then (i + n)%Z else i in
  if ((0 <=? j) && (j <? n))%Z then
    match nth_error l (Z.to_nat j) with
    | Some a => Ok a
    | None => Raise IndexError
    end
  else Raise IndexError.

(** [c[k]] *)
Definition py_getitem (c k : json) : result json :=
  match c, k with
  | JObj d, JStr s =>
      match dict_get s d with
      | Some v => Ok v
      | None => Raise KeyError
      end
  | JObj _, (JArr _ | JObj _) => Raise TypeError
  | JObj _, _ => Raise KeyError
  | JArr l, JNum i => seq_index i l
  | JArr l, JBool b => seq_index (Z_of_bool b) l
  | JStr s, JNum i => seq_index i (chars s)
  | JStr s, JBool b => seq_index (Z_of_bool b) (chars s)
  | _, _ => Raise TypeError
  end.

Fixpoint join_strs (sep : string) (l : list json) : result string :=
  match l with
  | [] => Ok EmptyString
  | JStr s :: r =>
      match r with
      | [] => Ok s
      | _ => (t <~ join_strs sep r ;; Ok (s ++ sep ++ t)%string)%res
      end
  | _ :: _ => Raise TypeError
  end.

(** [sep.join(c)] *)
Definition py_join (sep : string) (c : json) : result string :=
  (l <~ py_iter c ;; join_strs sep l)%res.

(** ** os.path and the parser's dispatch *)

(** [s[s.rfind(c)+1:]], or [None] when [c] does not occur. *)
Fixpoint after_last (c : ascii) (s : string) : option string :=
  match s with
  | EmptyString => None
  | String a r =>
      match after_last c r with
      | Some t => Some t
      | None => if Ascii.eqb a c then Some r else None
      end
  end.

Fixpoint all_dots (s : string) : bool :=
  match s with
  | EmptyString => true
  | String a r => Ascii.eqb a "." && all_dots r
  end.

(** [os.path.splitext(p)[1]] (POSIX): the last dot of the last component
    starts the extension unless only dots precede it. *)
Definition splitext_ext (p : string) : string :=
  let base := match after_last "/" p with Some b => b | None => p end in
  match after_last "." base with
  | None => EmptyString
  | Some t =>
      let stem := String.substring 0 (String.length base - String.length t - 1) base in
      if all_dots stem then EmptyString else String "." t
  end.

(** [str.lower] on U+0000..U+00FF: A..Z and the capital letters
    U+00C0..U+00DE, U+00D7 (the multiplication sign) apart. *)
Definition lower_char (c : ascii) : ascii :=
  let n := nat_of_ascii c in
  if ((65 <=? n)%nat && (n <=? 90)%nat)
     || ((192 <=? n)%nat && (n <=? 222)%nat && negb (n =? 215)%nat)
  then ascii_of_nat (n + 32) else c.

Fixpoint lower (s : string) : string :=
  match s with
  | EmptyString => EmptyString
  | String c r => String (lower_char c) (lower r)
  end.

(** [os.path.join(input_dir, filename)] for a name from [os.listdir]. *)
Definition input_dir : string := "input_docs".

Definition path_join (dir name : string) : string := (dir ++ "/" ++ name)%string.

(** ** Persistent data *)

(** Keys of the [preferred_level3] dict: the hashable JSON values. *)
Inductive pykey : Type :=
| KNull
| KBool (b : bool)
| KInt (n : Z)
| KStr (s : string).

(** Using a value as a dict key: lists and dicts are unhashable. *)
Definition as_key (x : json) : result pykey :=
  match x with
  | JNull => Ok KNull
  | JBool b => Ok (KBool b)
  | JNum n => Ok (KInt n)
  | JStr s => Ok (KStr s)
  | JArr _ | JObj _ => Raise TypeError
  end.

(** Two keys name the same dict slot when they are [==] (and then hash
    alike): [True] and [1] do, [5] and ["5"] do not. *)
Definition key_eqb (a b : pykey) : bool :=
  match a, b with
  | KNull, KNull => true
  | KBool x, KBool y => Bool.eqb x y
  | KBool x, KInt n => (Z_of_bool x =? n)%Z
  | KInt n, KBool x => (n =? Z_of_bool x)%Z
  | KInt m, KInt n => (m =? n)%Z
  | KStr s, KStr t => String.eqb s t
  | _, _ => false
  end.

(** The text [json.dump] writes for a key. *)
Definition key_text (k : pykey) : string :=
  match k with
  | KNull => "null"
  | KBool true => "true"
  | KBool false => "false"
  | KInt n => NilZero.string_of_int (Z.to_int n)
  | KStr s => s
  end.

Definition Level3Map : Type := list (pykey * list json).

Fixpoint pl3_get (k : pykey) (d : Level3Map) : option (list json) :=
  match d with
  | [] => None
  | (k', l) :: r => if key_eqb k k' then Some l else pl3_get k r
  end.

(** [k in d] *)
Definition pl3_mem (k : pykey) (d : Level3Map) : bool :=
  match pl3_get k d with
  | Some _ => true
  | None => false
  end.

(** [d[k].append(v)] for a key present in [d] *)
Fixpoint pl3_append (k : pykey) (v : json) (d : Level3Map) : Level3Map :=
  match d with
  | [] => []
  | (k', l) :: r =>
      if key_eqb k k' then (k', l ++ [v]) :: r else (k', l) :: pl3_append k v r
  end.

Record Preferences : Type := mkPreferences {
  category_hierarchy : list string;
  preferred_level3 : Level3Map
}.

Record SessionStatus : Type := mkSessionStatus {
  last_processed : string;
  total_processed : Z
}.

Record MemoryData : Type := mkMemoryData {
  user_preferences : Preferences;
  session_status : SessionStatus
}.

Record DocumentRecord : Type := mkDocumentRecord {
  doc_id : string;
  filename : string;
  path : string;
  category : json;
  core_ideas : json;
  keywords : json;
  related_docs : json;
  processed_time : string
}.

Record KnowledgeBase : Type := mkKnowledgeBase {
  documents : list DocumentRecord;
  kb_user_preferences : Preferences
}.

(** A JSON file on disk. *)
Inductive file (A : Type) : Type :=
| Absent               (* [os.path.exists] is false *)
| Holds (data : A)     (* the object of the last complete [json.dump] *)
| CutOff.              (* emptied by [open(path, "w")], the dump broke off *)

Arguments Absent {A}.
Arguments Holds {A} data.
Arguments CutOff {A}.

(** [MemoryManager._load_memory] when [memory.json] is absent. *)
Definition default_memory : MemoryData :=
  {| user_preferences :=
       {| category_hierarchy := ["Technology"; "Life"; "Work"; "Study"];
          preferred_level3 := [] |};
     session_status := {| last_processed := EmptyString; total_processed := 0 |} |}.

(** *** What [json.load] returns for what [json.dump] wrote

    A file is represented by the object that was dumped into it.  Dumping
    writes every key as text; loading builds the dict pair by pair, so of two
    pairs with the same text the first fixes the position and the last the
    value.  All other parts of the stores hold strings, integers, lists and
    string-keyed dicts and come back as they were. *)
Definition reload_level3 (d : Level3Map) : Level3Map :=
  map (fun kv => (KStr (fst kv), snd kv))
      (fold_left (fun acc kv => dict_set (key_text (fst kv)) (snd kv) acc) d []).

Definition reload_preferences (p : Preferences) : Preferences :=
  {| category_hierarchy := category_hierarchy p;
     preferred_level3 := reload_level3 (preferred_level3 p) |}.

Definition reload_memory (m : MemoryData) : MemoryData :=
  {| user_preferences := reload_preferences (user_preferences m);
     session_status := session_status m |}.

Definition reload_kb (kb : KnowledgeBase) : KnowledgeBase :=
  {| documents := documents kb;
     kb_user_preferences := reload_preferences (kb_user_preferences kb) |}.

(** ** The environment and the store *)

Record Env : Type := mkEnv {
  (** what the [k]-th call of [generate_text] returns ([None]: no completion) *)
  completion : nat -> option string;
  (** [json.loads] on a text: the value, [Raise JSONDecodeError] when the
      text is not JSON, or another exception (the [ValueError] of an integer
      literal beyond the digit limit, a recursion error) *)
  json_loads : string -> result json;
  (** [str(uuid.uuid4())[:8]] at the [k]-th draw *)
  uuid4_hex8 : nat -> string;
  (** the cleaned text [_parse_pdf] returns (it swallows its own errors) *)
  pdf_text : string -> string;
  (** the cleaned text of a .docx / .txt file ([None]: reading raises) *)
  docx_text : string -> option string;
  txt_text : string -> option string;
  (** [datetime.now().strftime(...)] at the [k]-th reading *)
  strftime_now : nat -> string;
  (** whether the [k]-th [json.dump] breaks off with [UnicodeEncodeError],
      the data holding a string that cannot be encoded *)
  dump_breaks : nat -> bool
}.

Record Store : Type := mkStore {
  memory_json : file MemoryData;       (* memory.json *)
  kb_json : file KnowledgeBase;        (* output_kb/knowledge_base.json *)
  memory : MemoryData;                 (* [data] of the live MemoryManager *)
  generate_calls : nat;
  uuid_draws : nat;
  clock_reads : nat;
  dumps : nat;                         (* [json.dump] calls so far *)
  extract_calls : nat                  (* ghost: entries into [extract] *)
}.

Definition M (A : Type) : Type := Store -> Store * result A.

Definition ret {A : Type} (a : A) : M A := fun st => (st, Ok a).

Definition raise {A : Type} (e : exn) : M A := fun st => (st, Raise e).

Definition bind {A B : Type} (m : M A) (k : A -> M B) : M B :=
  fun st =>
    match m st with
    | (st1, Ok a) => k a st1
    | (st1, Raise e) => (st1, Raise e)
    end.

(** [try: m  except Exception: h] *)
Definition try_except {A : Type} (m : M A) (h : exn -> M A) : M A :=
  fun st =>
    match m st with
    | (st1, Ok a) => (st1, Ok a)
    | (st1, Raise e) => h e st1
    end.

Definition lift {A : Type} (r : result A) : M A := fun st => (st, r).

Definition gets {A : Type} (f : Store -> A) : M A := fun st => (st, Ok (f st)).

(** A read of the store that may raise. *)
Definition reads {A : Type} (f : Store -> result A) : M A := fun st => (st, f st).

Definition modify (f : Store -> Store) : M unit := fun st => (f st, Ok tt).

Declare Scope m_scope.
Delimit Scope m_scope with M.
Notation "x <- m ;; k" := (bind m (fun x => k))
  (at level 61, m at next level, right associativity) : m_scope.
Notation "m ;;; k" := (bind m (fun _ => k))
  (at level 61, right associativity) : m_scope.

Definition set_memory (m : MemoryData) (st : Store) : Store :=
  {| memory_json := memory_json st; kb_json := kb_json st; memory := m;
     generate_calls := generate_calls st; uuid_draws := uuid_draws st;
     clock_reads := clock_reads st; dumps := dumps st;
     extract_calls := extract_calls st |}.

Definition set_memory_json (f : file MemoryData) (st : Store) : Store :=
  {| memory_json := f; kb_json := kb_json st; memory := memory st;
     generate_calls := generate_calls st; uuid_draws := uuid_draws st;
     clock_reads := clock_reads st; dumps := dumps st;
     extract_calls := extract_calls st |}.

Definition set_kb_json (f : file KnowledgeBase) (st : Store) : Store :=
  {| memory_json := memory_json st; kb_json := f; memory := memory st;
     generate_calls := generate_calls st; uuid_draws := uuid_draws st;
     clock_reads := clock_reads st; dumps := dumps st;
     extract_calls := extract_calls st |}.

Definition tick_generate (st : Store) : Store :=
  {| memory_json := memory_json st; kb_json := kb_json st; memory := memory st;
     generate_calls := S (generate_calls st); uuid_draws := uuid_draws st;
     clock_reads := clock_reads st; dumps := dumps st;
     extract_calls := extract_calls st |}.

Definition tick_uuid (st : Store) : Store :=
  {| memory_json := memory_json st; kb_json := kb_json st; memory := memory st;
     generate_calls := generate_calls st; uuid_draws := S (uuid_draws st);
     clock_reads := clock_reads st; dumps := dumps st;
     extract_calls := extract_calls st |}.

Definition tick_clock (st : Store) : Store :=
  {| memory_json := memory_json st; kb_json := kb_json st; memory := memory st;
     generate_calls := generate_calls st; uuid_draws := uuid_draws st;
     clock_reads := S (clock_reads st); dumps := dumps st;
     extract_calls := extract_calls st |}.

Definition tick_dump (st : Store) : Store :=
  {| memory_json := memory_json st; kb_json := kb_json st; memory := memory st;
     generate_calls := generate_calls st; uuid_draws := uuid_draws st;
     clock_reads := clock_reads st; dumps := S (dumps st);
     extract_calls := extract_calls st |}.

Definition tick_extract (st : Store) : Store :=
  {| memory_json := memory_json st; kb_json := kb_json st; memory := memory st;
     generate_calls := generate_calls st; uuid_draws := uuid_draws st;
     clock_reads := clock_reads st; dumps := dumps st;
     extract_calls := S (extract_calls st) |}.

(** ** knowledge_agents.py *)

Section Agents.

Variable env : Env.

(** [generate_text(prompt)]: one round trip to the backend.  The prompt is
    built from values that cannot fail to format; the completion is whatever
    the backend gives at this call. *)
Definition generate_text : M (option string) :=
  fun st => (tick_generate st, Ok (completion env (generate_calls st))).

(** *** MemoryManager *)

(** [_load_memory()]: the default when there is no file, else what
    [json.load] gives, which raises on a file that was cut off. *)
Definition load_memory (st : Store) : result MemoryData :=
  match memory_json st with
  | Absent => Ok default_memory
  | Holds m => Ok (reload_memory m)
  | CutOff => Raise JSONDecodeError
  end.

(** [MemoryManager()] *)
Definition MemoryManager : M unit :=
  (data <- reads load_memory ;;
   modify (set_memory data))%M.

(** [save_memory()]: the file is emptied, then the manager's data is
    dumped into it. *)
Definition save_memory : M unit :=
  fun st =>
    if dump_breaks env (dumps st)
    then (set_memory_json CutOff (tick_dump st), Raise UnicodeEncodeError)
    else (set_memory_json (Holds (memory st)) (tick_dump st), Ok tt).

(** [update_preferences(new_prefs)]: [dict.update] with a dict that has both
    keys of the preferences replaces both. *)
Definition update_preferences (new_prefs : Preferences) : M unit :=
  (modify (fun st =>
     set_memory {| user_preferences := new_prefs;
                   session_status := session_status (memory st) |} st) ;;;
   save_memory)%M.

Definition update_session (doc_name : string) : M unit :=
  (modify (fun st =>
     set_memory
       {| user_preferences := user_preferences (memory st);
          session_status :=
            {| last_processed := doc_name;
               total_processed := (total_processed (session_status (memory st)) + 1)%Z |} |}
       st) ;;;
   save_memory)%M.

(** *** DocumentParserAgent *)

Definition parse (file_path : string) : result string :=
  let ext := lower (splitext_ext file_path) in
  if String.eqb ext ".pdf" then Ok (pdf_text env file_path)
  else if String.eqb ext ".docx" then
    match docx_text env file_path with
    | Some t => Ok t
    | None => Raise OSError
    end
  else if String.eqb ext ".txt" then
    match txt_text env file_path with
    | Some t => Ok t
    | None => Raise OSError
    end
  else Raise ValueError.

(** *** ContentClassifierAgent *)

Definition unclassified : json :=
  JObj [("level1", JStr "Unclassified");
        ("level2", JStr "Unclassified");
        ("level3", JStr "Unclassified")].

Definition clean_response (response_text : string) : string :=
  let c := strip response_text in
  let c := if startswith "```json" c then drop_prefix 7 c else c in
  if endswith "```" c then strip (drop_suffix 3 c) else c.

Definition required_keys : list string := ["level1"; "level2"; "level3"].

(** Lines 209-211: every required key present and truthy, else
    [ValueError]. *)
Fixpoint check_required (keys : list string) (category : json) : result unit :=
  match keys with
  | [] => Ok tt
  | key :: rest =>
      (present <~ py_in (JStr key) category ;;
       if negb present then Raise ValueError
       else
         v <~ py_getitem category (JStr key) ;;
         if negb (truthy v) then Raise ValueError
         else check_required rest category)%res
  end.

(** Lines 213-214: [if k not in d: d[k] = []]. *)
Definition ensure_key (k : pykey) (d : Level3Map) : Level3Map :=
  if pl3_mem k d then d else d ++ [(k, [])].

(** Lines 215-216: [if v not in d[k]: d[k].append(v)]. *)
Definition add_once (k : pykey) (v : json) (d : Level3Map) : result Level3Map :=
  match pl3_get k d with
  | Some seen =>
      if existsb (fun e => py_eqb e v) seen then Ok d
      else Ok (pl3_append k v d)
  | None => Raise KeyError
  end.

Definition set_level3 (d : Level3Map) (st : Store) : Store :=
  set_memory
    {| user_preferences :=
         {| category_hierarchy := category_hierarchy (user_preferences (memory st));
            preferred_level3 := d |};
       session_status := session_status (memory st) |} st.

Definition live_level3 (st : Store) : Level3Map :=
  preferred_level3 (user_preferences (memory st)).

(** Lines 213-217.  [prefs] is the live preferences object of the manager,
    so the updates are made in the store and [update_preferences] then
    merges the object into itself and saves. *)
Definition register_level3 (category : json) : M unit :=
  (level2 <- lift (py_getitem category (JStr "level2")) ;;
   k <- lift (as_key level2) ;;
   modify (fun st => set_level3 (ensure_key k (live_level3 st)) st) ;;;
   level3 <- lift (py_getitem category (JStr "level3")) ;;
   d <- gets live_level3 ;;
   d' <- lift (add_once k level3 d) ;;
   modify (set_level3 d') ;;;
   prefs <- gets (fun st => user_preferences (memory st)) ;;
   update_preferences prefs)%M.

Definition classify (text filename : string) : M json :=
  (response <- generate_text ;;
   match response with
   | None => ret unclassified
   | Some response_text =>
       if String.eqb response_text EmptyString then ret unclassified
       else
         let cleaned_response := clean_response response_text in
         match json_loads env cleaned_response with
         | Ok category =>
             (* lines 208-219, under [except Exception] of line 233 *)
             try_except
               (lift (check_required required_keys category) ;;;
                register_level3 category ;;;
                ret category)
               (fun _ => ret unclassified)
         | Raise JSONDecodeError =>
             (* lines 220-232 *)
             match search_flat_object cleaned_response with
             | Some fragment =>
                 match json_loads env fragment with
                 | Ok category => ret category
                 | Raise _ => ret unclassified
                 end
             | None => ret unclassified
             end
         | Raise _ => ret unclassified   (* line 233 *)
         end
   end)%M.

(** *** RelationExtractorAgent *)

Record Extracted : Type := mkExtracted {
  ex_core_ideas : json;
  ex_keywords : json;
  ex_related_docs : json
}.

Definition no_core_ideas : string := "No core ideas extracted".
Definition no_keywords : string := "No keywords extracted".

Definition extraction_fallback : json :=
  JObj [("core_ideas", JArr [JStr no_core_ideas]);
        ("keywords", JArr [JStr no_keywords])].

(** [try: json.loads(r)  except: dflt], where [r] may be [None]. *)
Definition loads_or (r : option string) (dflt : json) : json :=
  match r with
  | Some s =>
      match json_loads env s with
      | Ok j => j
      | Raise _ => dflt
      end
  | None => dflt
  end.

Definition newline : string := String "010"%char EmptyString.

Definition doc_summary (doc : DocumentRecord) : result string :=
  (kw <~ py_join "," (keywords doc) ;;
   Ok ("Document ID: " ++ doc_id doc ++ ", Title: " ++ filename doc
       ++ ", Keywords: " ++ kw)%string)%res.

Fixpoint doc_summaries (all_docs : list DocumentRecord) : result string :=
  match all_docs with
  | [] => Ok EmptyString
  | doc :: rest =>
      (s <~ doc_summary doc ;;
       match rest with
       | [] => Ok s
       | _ => t <~ doc_summaries rest ;; Ok (s ++ newline ++ t)%string
       end)%res
  end.

(** Lines 240-280 *)
Definition extract_body (text : string) (all_docs : list DocumentRecord) : M Extracted :=
  (response_text <- generate_text ;;
   let result := loads_or response_text extraction_fallback in
   related_docs <-
     match all_docs with
     | [] => ret (JArr [])
     | _ :: _ =>
         _ <- lift (doc_summaries all_docs) ;;
         kws <- lift (py_getitem result (JStr "keywords")) ;;
         _ <- lift (py_join "," kws) ;;
         relation_response_text <- generate_text ;;
         ret (loads_or relation_response_text (JArr []))
     end ;;
   ci <- lift (py_getitem result (JStr "core_ideas")) ;;
   kw <- lift (py_getitem result (JStr "keywords")) ;;
   ret {| ex_core_ideas := ci; ex_keywords := kw; ex_related_docs := related_docs |})%M.

(** [extract(text, all_docs)], counting the call. *)
Definition extract (text : string) (all_docs : list DocumentRecord) : M Extracted :=
  (modify tick_extract ;;; extract_body text all_docs)%M.

End Agents.

(** ** main.py *)

Section Main.

Variable env : Env.

Definition max_retries : nat := 3.

(** Lines 65-67, with the short-circuit of [or]. *)
Definition is_category_invalid (category : json) : result bool :=
  (l1 <~ py_getitem category (JStr "level1") ;;
   if py_eqb l1 (JStr "Unclassified") then Ok true
   else
     l2 <~ py_getitem category (JStr "level2") ;;
     if py_eqb l2 (JStr "Unclassified") then Ok true
     else
       l3 <~ py_getitem category (JStr "level3") ;;
       Ok (py_eqb l3 (JStr "Unclassified")))%res.

(** Lines 69-71: [len(x) == 1 and phrase in x[0]]. *)
Definition only_sentinel (phrase : string) (x : json) : result bool :=
  (n <~ py_len x ;;
   if (n =? 1)%nat then
     first <~ py_getitem x (JNum 0) ;;
     py_in (JStr phrase) first
   else Ok false)%res.

(** Lines 63-73: what one pass of the loop computes after the extraction. *)
Definition needs_retry (category : json) (extracted : Extracted) : result bool :=
  (_ <~ py_len (ex_core_ideas extracted) ;;
   invalid_category <~ is_category_invalid category ;;
   invalid_core_ideas <~ only_sentinel no_core_ideas (ex_core_ideas extracted) ;;
   invalid_keywords <~ only_sentinel no_keywords (ex_keywords extracted) ;;
   Ok (invalid_category || invalid_core_ideas || invalid_keywords))%res.

(** Lines 56-85: the [while] loop, as a recursion on a budget of passes.
    [extracted] is unbound until the first pass. *)
Fixpoint extraction_loop (budget : nat) (text : string) (docs : list DocumentRecord)
  (category : json) (need_retry : bool) (retry_count : nat)
  (extracted : option Extracted) : M (option Extracted * nat) :=
  if need_retry && (retry_count <? max_retries)%nat then
    match budget with
    | O => raise LoopFuel
    | S budget' =>
        (e <- extract env text docs ;;
         need_retry' <- lift (needs_retry category e) ;;
         let retry_count' := if need_retry' then S retry_count else retry_count in
         extraction_loop budget' text docs category need_retry' retry_count' (Some e))%M
    end
  else ret (extracted, retry_count).

(** Lines 52-88 *)
Definition extraction_with_retries (text : string) (docs : list DocumentRecord)
  (category : json) : M (option Extracted * nat) :=
  extraction_loop max_retries text docs category true 0 None.

Definition draw_doc_id : M string :=
  fun st => (tick_uuid st, Ok ("doc_" ++ uuid4_hex8 env (uuid_draws st))%string).

Definition read_clock : M string :=
  fun st => (tick_clock st, Ok (strftime_now env (clock_reads st))).

(** Lines 36-105: the body of the [for] loop for one file name; the result
    is the [documents] list afterwards. *)
Definition process_file (docs : list DocumentRecord) (name : string)
  : M (list DocumentRecord) :=
  if existsb (fun doc => String.eqb (filename doc) name) docs then ret docs
  else
    let file_path := path_join input_dir name in
    match parse env file_path with
    | Raise _ => ret docs
    | Ok text =>
        (cat <- classify env text name ;;
         looped <- extraction_with_retries text docs cat ;;
         _ <- lift (py_getitem cat (JStr "level1")) ;;
         _ <- lift (py_getitem cat (JStr "level2")) ;;
         _ <- lift (py_getitem cat (JStr "level3")) ;;
         new_id <- draw_doc_id ;;
         match fst looped with
         | None => raise UnboundLocalError
         | Some extracted =>
             stamp <- read_clock ;;
             let record :=
               {| doc_id := new_id; filename := name; path := file_path;
                  category := cat;
                  core_ideas := ex_core_ideas extracted;
                  keywords := ex_keywords extracted;
                  related_docs := ex_related_docs extracted;
                  processed_time := stamp |} in
             update_session env name ;;;
             ret (docs ++ [record])
         end)%M
    end.

Fixpoint process_files (doc_files : list string) (docs : list DocumentRecord)
  : M (list DocumentRecord) :=
  match doc_files with
  | [] => ret docs
  | name :: rest =>
      (docs' <- process_file docs name ;;
       process_files rest docs')%M
  end.

(** Lines 23-25, 122-123: [json.load] of the knowledge-base file, if there
    is one. *)
Definition load_knowledge_base (st : Store) : result (option KnowledgeBase) :=
  match kb_json st with
  | Absent => Ok None
  | Holds kb => Ok (Some (reload_kb kb))
  | CutOff => Raise JSONDecodeError
  end.

(** Lines 107-108, 189-190: the file is emptied, then the knowledge base is
    dumped into it. *)
Definition dump_knowledge_base (kb : KnowledgeBase) : M unit :=
  fun st =>
    if dump_breaks env (dumps st)
    then (set_kb_json CutOff (tick_dump st), Raise UnicodeEncodeError)
    else (set_kb_json (Holds kb) (tick_dump st), Ok tt).

(** [process_documents()], given what [os.listdir] finds.  [own_prefs] is
    [None] when the [user_preferences] entry of the new knowledge base is the
    manager's preferences object itself (line 27), so that it is dumped with
    the updates made during the run. *)
Definition process_documents (doc_files : list string) : M unit :=
  (MemoryManager ;;;
   kb_file <- reads load_knowledge_base ;;
   let docs0 :=
     match kb_file with
     | Some kb => documents kb
     | None => []
     end in
   let own_prefs := option_map kb_user_preferences kb_file in
   match doc_files with
   | [] => ret tt
   | _ :: _ =>
       docs <- process_files doc_files docs0 ;;
       live <- gets (fun st => user_preferences (memory st)) ;;
       let prefs := match own_prefs with Some p => p | None => live end in
       dump_knowledge_base {| documents := docs; kb_user_preferences := prefs |}
   end)%M.

(** *** search_knowledge *)

(** What one numbered entry of the report is formatted from.  Formatting a
    value in an f-string does not fail, so the values themselves are kept. *)
Record Entry : Type := mkEntry {
  entry_number : nat;
  entry_filename : string;
  entry_levels : json * json * json;
  entry_first_idea : json;
  entry_ideas : nat;
  entry_path : string
}.

(** What [search_knowledge] returns: one of three fixed messages, or the
    report with its count and entries. *)
Inductive answer : Type :=
| NoKnowledgeBase                                (* line 120 *)
| Unsupported                                    (* line 147 *)
| NoMatch                                        (* line 150 *)
| Found (count : nat) (entries : list Entry).    (* lines 152-158 *)

Definition category_hit (query_value : string) (doc : DocumentRecord) : result bool :=
  (l1 <~ py_getitem (category doc) (JStr "level1") ;;
   b1 <~ py_in (JStr query_value) l1 ;;
   if b1 then Ok true
   else
     l2 <~ py_getitem (category doc) (JStr "level2") ;;
     b2 <~ py_in (JStr query_value) l2 ;;
     if b2 then Ok true
     else
       l3 <~ py_getitem (category doc) (JStr "level3") ;;
       py_in (JStr query_value) l3)%res.

(** Lines 134-138: does the first loop append (and set [skip])? *)
Fixpoint core_ideas_pass (query_value : string) (items : list json) : result bool :=
  match items with
  | [] => Ok false
  | item :: rest =>
      (b <~ py_in (JStr query_value) item ;;
       if b then Ok true else core_ideas_pass query_value rest)%res
  end.

(** Lines 139-142: does the second loop append? *)
Fixpoint keywords_pass (query_value : string) (skip : bool) (items : list json)
  : result bool :=
  match items with
  | [] => Ok false
  | item :: rest =>
      (b <~ py_in (JStr query_value) item ;;
       if b && negb skip then Ok true else keywords_pass query_value skip rest)%res
  end.

(** Lines 126-147; [None] is the early [return] of line 147. *)
Fixpoint search_loop (query_type query_value : string) (docs results : list DocumentRecord)
  : result (option (list DocumentRecord)) :=
  match docs with
  | [] => Ok (Some results)
  | doc :: rest =>
      if String.eqb query_type "category" then
        (hit <~ category_hit query_value doc ;;
         search_loop query_type query_value rest
           (if hit then results ++ [doc] else results))%res
      else if String.eqb query_type "keyword" then
        (ideas <~ py_iter (core_ideas doc) ;;
         skip <~ core_ideas_pass query_value ideas ;;
         let results1 := if skip then results ++ [doc] else results in
         kws <~ py_iter (keywords doc) ;;
         again <~ keywords_pass query_value skip kws ;;
         search_loop query_type query_value rest
           (if again then results1 ++ [doc] else results1))%res
      else if String.eqb query_type "related" then
        (hit <~ py_in (JStr query_value) (related_docs doc) ;;
         search_loop query_type query_value rest
           (if hit then results ++ [doc] else results))%res
      else Ok None
  end.

(** Lines 154-157 for the [i]-th result. *)
Definition report_entry (i : nat) (doc : DocumentRecord) : result Entry :=
  (l1 <~ py_getitem (category doc) (JStr "level1") ;;
   l2 <~ py_getitem (category doc) (JStr "level2") ;;
   l3 <~ py_getitem (category doc) (JStr "level3") ;;
   first <~ py_getitem (core_ideas doc) (JNum 0) ;;
   n <~ py_len (core_ideas doc) ;;
   Ok {| entry_number := i; entry_filename := filename doc;
         entry_levels := (l1, l2, l3); entry_first_idea := first;
         entry_ideas := n; entry_path := path doc |})%res.

(** Lines 153-157: [for i, doc in enumerate(results, 1)]. *)
Fixpoint report_entries (i : nat) (results : list DocumentRecord) : result (list Entry) :=
  match results with
  | [] => Ok []
  | doc :: rest =>
      (e <~ report_entry i doc ;;
       es <~ report_entries (S i) rest ;;
       Ok (e :: es))%res
  end.

(** [search_knowledge(query_type, query_value)], lines 118-158. *)
Definition search_knowledge (query_type query_value : string) (st : Store)
  : result answer :=
  match kb_json st with
  | Absent => Ok NoKnowledgeBase
  | CutOff => Raise JSONDecodeError
  | Holds kb =>
      (found <~ search_loop query_type query_value (documents (reload_kb kb)) [] ;;
       match found with
       | None => Ok Unsupported
       | Some [] => Ok NoMatch
       | Some ((_ :: _) as results) =>
           es <~ report_entries 1 results ;;
           Ok (Found (List.length results) es)
       end)%res
  end.

(** *** reclassify_document *)

Inductive reclassified : Type :=
| NotFound                      (* line 169: [(False, "Error: File ... not found")] *)
| ParsingFailed (e : exn)       (* line 179: [(False, "Parsing failed: ...")] *)
| Reclassified (new_category : json).  (* line 192: [(True, new_category)] *)

(** Lines 162-166 *)
Fixpoint find_filename (name : string) (docs : list DocumentRecord) (i : nat)
  : option nat :=
  match docs with
  | [] => None
  | doc :: rest =>
      if String.eqb (filename doc) name then Some i
      else find_filename name rest (S i)
  end.

Fixpoint update_nth {A : Type} (i : nat) (f : A -> A) (l : list A) : list A :=
  match l, i with
  | [], _ => []
  | x :: r, O => f x :: r
  | x :: r, S j => x :: update_nth j f r
  end.

Definition set_category (c : json) (doc : DocumentRecord) : DocumentRecord :=
  {| doc_id := doc_id doc; filename := filename doc; path := path doc;
     category := c; core_ideas := core_ideas doc; keywords := keywords doc;
     related_docs := related_docs doc; processed_time := processed_time doc |}.

Definition set_processed_time (t : string) (doc : DocumentRecord) : DocumentRecord :=
  {| doc_id := doc_id doc; filename := filename doc; path := path doc;
     category := category doc; core_ideas := core_ideas doc; keywords := keywords doc;
     related_docs := related_docs doc; processed_time := t |}.

Definition with_documents (docs : list DocumentRecord) (kb : KnowledgeBase) : KnowledgeBase :=
  {| documents := docs; kb_user_preferences := kb_user_preferences kb |}.

(** [reclassify_document(filename, knowledge_base)]: the returned pair and
    the [knowledge_base] object as the call leaves it. *)
Definition reclassify_document (name : string) (kb : KnowledgeBase)
  : M (reclassified * KnowledgeBase) :=
  match find_filename name (documents kb) 0 with
  | None => ret (NotFound, kb)
  | Some doc_index =>
      match nth_error (documents kb) doc_index with
      | None => raise IndexError
      | Some doc =>
          match parse env (path doc) with
          | Raise e => ret (ParsingFailed e, kb)
          | Ok text =>
              (MemoryManager ;;;
               new_category <- classify env text name ;;
               let kb1 :=
                 with_documents
                   (update_nth doc_index (set_category new_category) (documents kb)) kb in
               stamp <- read_clock ;;
               let kb2 :=
                 with_documents
                   (update_nth doc_index (set_processed_time stamp) (documents kb1)) kb1 in
               dump_knowledge_base kb2 ;;;
               ret (Reclassified new_category, kb2))%M
          end
      end
  end.

End Main.

(** ** A reader for a fragment of JSON

    The theorems below hold for any [json_loads].  The concrete scenarios
    need one that can be run: this reader accepts [null], [true], [false],
    integers, strings without escapes, arrays and objects, with JSON white
    space, and gives on them what [json.loads] gives; everything else is
    refused as not being JSON. *)

Definition json_ws (c : ascii) : bool :=
  Ascii.eqb c " " || Ascii.eqb c "009" || Ascii.eqb c "010" || Ascii.eqb c "013".

Fixpoint skip_ws (s : string) : string :=
  match s with
  | EmptyString => EmptyString
  | String c r => if json_ws c then skip_ws r else s
  end.

(** After an opening quote: the text up to the closing quote, and the rest. *)
Fixpoint scan_string (s : string) : option (string * string) :=
  match s with
  | EmptyString => None
  | String c r =>
      if Ascii.eqb c dquote then Some (EmptyString, r)
      else if Ascii.eqb c "092" || (nat_of_ascii c <? 32)%nat then None
      else
        match scan_string r with
        | Some (t, rest) => Some (String c t, rest)
        | None => None
        end
  end.

Definition digit_of (c : ascii) : option Z :=
  let n := nat_of_ascii c in
  if ((48 <=? n)%nat && (n <=? 57)%nat) then Some (Z.of_nat (n - 48)) else None.

Fixpoint scan_digits (acc : Z) (s : string) : Z * string :=
  match s with
  | EmptyString => (acc, s)
  | String c r =>
      match digit_of c with
      | Some d => scan_digits (10 * acc + d)%Z r
      | None => (acc, s)
      end
  end.

(** An integer literal without sign: no leading zero, no fraction, no
    exponent. *)
Definition scan_nat_literal (s : string) : option (Z * string) :=
  match s with
  | EmptyString => None
  | String c r =>
      match digit_of c with
      | None => None
      | Some d =>
          let '(n, rest) := scan_digits d r in
          let leading_zero :=
            (d =? 0)%Z && negb (String.eqb rest r) in
          let continues :=
            match rest with
            | String c' _ => Ascii.eqb c' "." || Ascii.eqb c' "e" || Ascii.eqb c' "E"
            | EmptyString => false
            end in
          if leading_zero || continues then None else Some (n, rest)
      end
  end.

Definition scan_literal (word : string) (v : json) (s : string) : option (json * string) :=
  if String.prefix word s
  then Some (v, String.substring (String.length word) (String.length s - String.length word) s)
  else None.

Fixpoint parse_value (fuel : nat) (s : string) {struct fuel} : option (json * string) :=
  match fuel with
  | O => None
  | S n =>
      let members :=
        fix members (m : nat) (acc : list (string * json)) (s : string) {struct m}
          : option (json * string) :=
          match m with
          | O => None
          | S m' =>
              match skip_ws s with
              | String c r =>
                  if Ascii.eqb c dquote then
                    match scan_string r with
                    | Some (k, r1) =>
                        match skip_ws r1 with
                        | String c1 r2 =>
                            if Ascii.eqb c1 ":" then
                              match parse_value n r2 with
                              | Some (v, r3) =>
                                  match skip_ws r3 with
                                  | String c3 r4 =>
                                      if Ascii.eqb c3 "," then members m' (dict_set k v acc) r4
                                      else if Ascii.eqb c3 "}" then Some (JObj (dict_set k v acc), r4)
                                      else None
                                  | EmptyString => None
                                  end
                              | None => None
                              end
                            else None
                        | EmptyString => None
                        end
                    | None => None
                    end
                  else None
              | EmptyString => None
              end
          end in
      let elements :=
        fix elements (m : nat) (acc : list json) (s : string) {struct m}
          : option (json * string) :=
          match m with
          | O => None
          | S m' =>
              match parse_value n s with
              | Some (v, r1) =>
                  match skip_ws r1 with
                  | String c r2 =>
                      if Ascii.eqb c "," then elements m' (acc ++ [v]) r2
                      else if Ascii.eqb c "]" then Some (JArr (acc ++ [v]), r2)
                      else None
                  | EmptyString => None
                  end
              | None => None
              end
          end in
      match skip_ws s with
      | EmptyString => None
      | String c r =>
          if Ascii.eqb c "{" then
            match skip_ws r with
            | String c' r' =>
                if Ascii.eqb c' "}" then Some (JObj [], r')
                else members (String.length r) [] r
            | EmptyString => None
            end
          else if Ascii.eqb c "[" then
            match skip_ws r with
            | String c' r' =>
                if Ascii.eqb c' "]" then Some (JArr [], r')
                else elements (String.length r) [] r
            | EmptyString => None
            end
          else if Ascii.eqb c dquote then
            match scan_string r with
            | Some (t, rest) => Some (JStr t, rest)
            | None => None
            end
          else if Ascii.eqb c "-" then
            match scan_nat_literal r with
            | Some (v, rest) => Some (JNum (- v), rest)
            | None => None
            end
          else if Ascii.eqb c "n" then scan_literal "null" JNull (String c r)
          else if Ascii.eqb c "t" then scan_literal "true" (JBool true) (String c r)
          else if Ascii.eqb c "f" then scan_literal "false" (JBool false) (String c r)
          else
            match scan_nat_literal (String c r) with
            | Some (v, rest) => Some (JNum v, rest)
            | None => None
            end
      end
  end.

Definition json_loads_fragment (s : string) : option json :=
  match parse_value (S (String.length s)) s with
  | Some (v, rest) =>
      match skip_ws rest with
      | EmptyString => Some v
      | String _ _ => None
      end
  | None => None
  end.

Definition json_loads_reader (s : string) : result json :=
  match json_loads_fragment s with
  | Some v => Ok v
  | None => Raise JSONDecodeError
  end.

(** Writing JSON text: [q s] is [s] between double quotes. *)
Definition q (s : string) : string :=
  (String dquote EmptyString ++ s ++ String dquote EmptyString)%string.

Definition category_text (l1 l2 l3 : string) : string :=
  ("{" ++ q "level1" ++ ": " ++ l1 ++ ", " ++ q "level2" ++ ": " ++ l2 ++ ", "
       ++ q "level3" ++ ": " ++ l3 ++ "}")%string.

(** ** Vocabulary of the properties *)

(** [v] occurs in [s]. *)
Definition substring_of (v s : string) : Prop :=
  exists before after, s = (before ++ v ++ after)%string.

(** The strings among the elements of a JSON array. *)
Definition texts (x : json) : list string :=
  match x with
  | JArr l => flat_map (fun e => match e with JStr s => [s] | _ => [] end) l
  | _ => []
  end.

(** [x] is a list of strings, as the data model has [core_ideas] and
    [keywords]. *)
Definition textual (x : json) : Prop := x = JArr (map JStr (texts x)).

Definition well_typed_doc (d : DocumentRecord) : Prop :=
  textual (core_ideas d) /\ textual (keywords d).

(** [v] is a substring of a core idea or of a keyword of [d]. *)
Definition mentions (v : string) (d : DocumentRecord) : Prop :=
  exists s, (In s (texts (core_ideas d)) \/ In s (texts (keywords d))) /\ substring_of v s.

Definition mentionsb (v : string) (d : DocumentRecord) : bool :=
  existsb (contains v) (texts (core_ideas d)) || existsb (contains v) (texts (keywords d)).

(** The category of [d] has the three levels, whatever their values. *)
Definition has_levels (d : DocumentRecord) : Prop :=
  exists l1 l2 l3,
    py_getitem (category d) (JStr "level1") = Ok l1
    /\ py_getitem (category d) (JStr "level2") = Ok l2
    /\ py_getitem (category d) (JStr "level3") = Ok l3.

(** The list of core ideas of [d] has a first element. *)
Definition has_core_idea (d : DocumentRecord) : Prop :=
  exists first rest, core_ideas d = JArr (first :: rest).

(** An entry of the report can be formatted from [d]. *)
Definition reportable (d : DocumentRecord) : Prop := has_levels d /\ has_core_idea d.

(** The entries are those of the results, in order, numbered from 1. *)
Definition reports (results : list DocumentRecord) (entries : list Entry) : Prop :=
  map entry_filename entries = map filename results
  /\ map entry_path entries = map path results
  /\ map entry_number entries = seq 1 (List.length results)
  /\ Forall2 (fun d e => py_getitem (core_ideas d) (JNum 0) = Ok (entry_first_idea e)
                         /\ py_len (core_ideas d) = Ok (entry_ideas e))
             results entries.

Definition supported_query_type (query_type : string) : Prop :=
  query_type = "category" \/ query_type = "keyword" \/ query_type = "related".

(** The records a reader of the knowledge-base file finds: none when the
    file is absent or cut off. *)
Definition stored_documents (st : Store) : list DocumentRecord :=
  match kb_json st with
  | Holds kb => documents kb
  | Absent | CutOff => []
  end.

Definition ids (docs : list DocumentRecord) : list string := map doc_id docs.

(** The store after a sequence of ingestion runs, one per batch of file
    names found in the input folder. *)
Fixpoint ingestion_runs (env : Env) (batches : list (list string)) (st : Store) : Store :=
  match batches with
  | [] => st
  | files :: rest => ingestion_runs env rest (fst (process_documents env files st))
  end.

(** The next [n] draws differ from every id stored so far and from one
    another. *)
Definition fresh_draws (env : Env) (st : Store) (n : nat) : Prop :=
  (forall i, uuid_draws st <= i < uuid_draws st + n ->
     ~ In ("doc_" ++ uuid4_hex8 env i)%string (ids (stored_documents st)))
  /\ (forall i j, uuid_draws st <= i < j -> j < uuid_draws st + n ->
        uuid4_hex8 env i <> uuid4_hex8 env j).

(** The preference snapshot a reader of the knowledge-base file finds. *)
Definition stored_preferences (st : Store) : option Preferences :=
  match kb_json st with
  | Holds kb => Some (kb_user_preferences kb)
  | Absent | CutOff => None
  end.

(** ** Concrete scenarios *)

Definition initial_store : Store :=
  {| memory_json := Absent; kb_json := Absent; memory := default_memory;
     generate_calls := 0; uuid_draws := 0; clock_reads := 0; dumps := 0;
     extract_calls := 0 |}.

(** Text files that all read as the same sentence, the JSON reader above,
    the given completions and id draws, and dumps that all go through. *)
Definition scenario (completions : nat -> option string) (draws : nat -> string) : Env :=
  {| completion := completions;
     json_loads := json_loads_reader;
     uuid4_hex8 := draws;
     pdf_text := fun _ => EmptyString;
     docx_text := fun _ => None;
     txt_text := fun _ => Some "Machine learning improves efficiency";
     strftime_now := fun _ => "2025-01-01 00:00:00";
     dump_breaks := fun _ => false |}.

(** The same environment, except that the [k]-th dump breaks off. *)
Definition breaking (k : nat) (env : Env) : Env :=
  {| completion := completion env;
     json_loads := json_loads env;
     uuid4_hex8 := uuid4_hex8 env;
     pdf_text := pdf_text env;
     docx_text := docx_text env;
     txt_text := txt_text env;
     strftime_now := strftime_now env;
     dump_breaks := fun i => (i =? k)%nat || dump_breaks env i |}.

Definition nth_completion (l : list (option string)) (k : nat) : option string :=
  nth k l None.

Definition empty_kb : KnowledgeBase :=
  {| documents := []; kb_user_preferences := user_preferences default_memory |}.




(** What the validation of lines 208-211 establishes: the three levels are
    present and truthy. *)
Definition truthy_field (k : string) (c : json) : Prop :=
  exists v, py_getitem c (JStr k) = Ok v /\ truthy v = true.

Definition validated_category (c : json) : Prop :=
  (exists d, c = JObj d)
  /\ truthy_field "level1" c /\ truthy_field "level2" c /\ truthy_field "level3" c.

(** A small stored knowledge base: two text files and a Markdown file,
    which the parser refuses. *)
Definition sample_doc (id name : string) (ideas kws : list string) : DocumentRecord :=
  {| doc_id := id; filename := name; path := path_join input_dir name;
     category := JObj [("level1", JStr "Technology"); ("level2", JStr "Programming");
                       ("level3", JStr "General")];
     core_ideas := JArr (map JStr ideas);
     keywords := JArr (map JStr kws);
     related_docs := JArr [];
     processed_time := "2025-01-01 00:00:00" |}.

Definition ml_doc : DocumentRecord :=
  sample_doc "doc_00000001" "ml.txt" ["Learning improves efficiency"] ["python"; "models"].

Definition notes_doc : DocumentRecord :=
  sample_doc "doc_00000002" "notes.md" ["Groceries for the week"] ["milk"].

Definition tooling_doc : DocumentRecord :=
  sample_doc "doc_00000003" "py.txt" ["A tour of python tooling"] ["lint"].

Definition sample_kb : KnowledgeBase :=
  {| documents := [ml_doc; notes_doc; tooling_doc];
     kb_user_preferences := user_preferences default_memory |}.

Definition sample_store : Store := set_kb_json (Holds sample_kb) initial_store.

Definition three_draws (k : nat) : string :=
  nth k ["1a2b3c4d"; "5e6f7a8b"; "9c0d1e2f"] EmptyString.

(** A backend whose first completion is a well-formed classification and
    which then gives nothing. *)
Definition one_classification : Env :=
  scenario (nth_completion [Some (category_text (q "Tech") (q "AI") (q "ML"))])
           three_draws.

(** The level3 values recorded under a key ([[]] when the key is absent). *)
Definition level3_under (k : pykey) (d : Level3Map) : list json :=
  match pl3_get k d with
  | Some l => l
  | None => []
  end.

(** What a Preference Store opened now would hold under a key; it cannot
    be opened when memory.json is cut off. *)
Definition stored_level3 (st : Store) (k : pykey) : result (list json) :=
  (m <~ load_memory st ;;
   Ok (level3_under k (preferred_level3 (user_preferences m))))%res.

(** Lines 213-216 as one function on the dict. *)
Definition register (k : pykey) (v : json) (d : Level3Map) : Level3Map :=
  match add_once k v (ensure_key k d) with
  | Ok d' => d'
  | Raise _ => ensure_key k d
  end.

(** Every completion that parses directly has a string (if anything) as its
    level2. *)
Definition textual_level2 (env : Env) : Prop :=
  forall i s c v,
    completion env i = Some s ->
    json_loads env (clean_response s) = Ok c ->
    py_getitem c (JStr "level2") = Ok v ->
    exists t, v = JStr t.

(** All keys are strings, and no key occurs twice. *)
Definition text_keyed (d : Level3Map) : Prop :=
  NoDup (map fst d) /\ Forall (fun kv => exists s, fst kv = KStr s) d.

(** The live manager holds its lists under string keys, and memory.json is
    cut off or would give on a reload what the manager holds. *)
Definition in_step (st : Store) : Prop :=
  text_keyed (live_level3 st)
  /\ (memory_json st = CutOff \/ load_memory st = Ok (memory st)).

Definition grows (st st' : Store) : Prop :=
  forall k x,
    In x (level3_under k (live_level3 st)) -> In x (level3_under k (live_level3 st')).

(** From a store in step, a store in step whose lists have only grown. *)
Definition keeps_growing (st st' : Store) : Prop :=
  in_step st -> in_step st' /\ grows st st'.

(** One of the dumps made from [st] to [st'] broke off. *)
Definition breaks_between (env : Env) (st st' : Store) : Prop :=
  exists k, dumps st <= k < dumps st' /\ dump_breaks env k = true.

(** Dumps are only counted up, and memory.json is cut off afterwards only
    if it was before or a dump in between broke off. *)
Definition cut_by_break (env : Env) (st st' : Store) : Prop :=
  dumps st <= dumps st'
  /\ (memory_json st' = CutOff -> memory_json st = CutOff \/ breaks_between env st st').

(** The id made from the [i]-th draw. *)
Definition drawn_id (env : Env) (i : nat) : string := ("doc_" ++ uuid4_hex8 env i)%string.

(** ** Vocabulary of the proofs *)

(** [m] leaves the observation [f] of the store as it was, whatever the
    outcome. *)
Definition keeps {X A : Type} (f : Store -> X) (m : M A) : Prop :=
  forall st, f (fst (m st)) = f st.

(** Whatever its outcome, [m] takes a store to one related to it by [R]. *)
Definition steps {A : Type} (R : Store -> Store -> Prop) (m : M A) : Prop :=
  forall st, R st (fst (m st)).

(** A result that is not the model's own budget error. *)
Definition pythonic {A : Type} (r : result A) : Prop := r <> Raise LoopFuel.


(** One step of [json.load] building the [preferred_level3] dict. *)
Definition set_pair (acc : list (string * list json)) (kv : pykey * list json)
  : list (string * list json) :=
  dict_set (key_text (fst kv)) (snd kv) acc.

(** ** Vocabulary of the further properties *)

(** The file names a batch stores, in order: those that are not stored yet,
    neither before the batch nor earlier in it, and that the parser accepts. *)
Fixpoint accepted (env : Env) (files seen : list string) : list string :=
  match files with
  | [] => []
  | name :: rest =>
      if existsb (fun f => String.eqb f name) seen then accepted env rest seen
      else
        match parse env (path_join input_dir name) with
        | Ok _ => name :: accepted env rest (seen ++ [name])
        | Raise _ => accepted env rest seen
        end
  end.

(** Nothing is left to do for a file: it is stored already or cannot be
    parsed. *)
Definition settled (env : Env) (docs : list DocumentRecord) (name : string) : Prop :=
  In name (map filename docs) \/ exists e, parse env (path_join input_dir name) = Raise e.

(** Since [st], nothing was changed in the manager and memory.json, or
    memory.json holds exactly what the manager holds, or it is cut off. *)
Definition durable (st st' : Store) : Prop :=
  (memory st' = memory st /\ memory_json st' = memory_json st)
  \/ memory_json st' = Holds (memory st')
  \/ memory_json st' = CutOff.

(** What the extractor returns when the backend gives it nothing it can
    read. *)
Definition nothing_extracted : Extracted :=
  {| ex_core_ideas := JArr [JStr no_core_ideas];
     ex_keywords := JArr [JStr no_keywords];
     ex_related_docs := JArr [] |}.

(** The three levels of a stored category are strings. *)
Definition level_texts (d : DocumentRecord) (l1 l2 l3 : string) : Prop :=
  py_getitem (category d) (JStr "level1") = Ok (JStr l1)
  /\ py_getitem (category d) (JStr "level2") = Ok (JStr l2)
  /\ py_getitem (category d) (JStr "level3") = Ok (JStr l3).

Definition category_texts (d : DocumentRecord) : list string :=
  flat_map (fun k => match py_getitem (category d) (JStr k) with
                     | Ok (JStr s) => [s]
                     | _ => []
                     end) required_keys.

Definition textual_category (d : DocumentRecord) : Prop :=
  exists l1 l2 l3, level_texts d l1 l2 l3.

Definition in_category (v : string) (d : DocumentRecord) : Prop :=
  exists s, In s (category_texts d) /\ substring_of v s.

Definition in_categoryb (v : string) (d : DocumentRecord) : bool :=
  existsb (contains v) (category_texts d).

Definition relatedb (v : string) (d : DocumentRecord) : bool :=
  existsb (String.eqb v) (texts (related_docs d)).

(** No brace occurs in [s]. *)
Fixpoint brace_free (s : string) : bool :=
  match s with
  | EmptyString => true
  | String c r => negb (Ascii.eqb c "{") && negb (Ascii.eqb c "}") && brace_free r
  end.

(** ** DocumentParserAgent._clean_text

    The text is taken as its sequence of code points.  The classes [\w] and
    [\s] of the patterns range over all of Unicode, and [str.strip] removes
    the same characters as [\s] matches; the two tables are parameters. *)

Section CleanText.

Variable is_word : N -> bool.    (* \w *)
Variable is_space : N -> bool.   (* \s *)

Definition line_feed : N := 10.
Definition blank : N := 32.

(** The characters listed one by one in the class of line 169. *)
Definition listed_punctuation : list N :=
  [0xFF0C; 0x3002; 0xFF01; 0xFF1F; 0xFF1B; 0xFF1A;
   0x22; 0x27; 0x28; 0x29; 0x5B; 0x5D; 0x7B; 0x7D; 0x2D; 0x2E; 0x2C; 0x3B; 0x3A;
   0x21; 0x3F; 0x2F; 0x40; 0x23; 0x24; 0x25; 0x5E; 0x26; 0x2A; 0x2B; 0x3D]%N.

(** A character the second substitution leaves in place. *)
Definition kept (c : N) : bool :=
  is_word c || is_space c || ((0x4E00 <=? c) && (c <=? 0x9FA5))%N
  || existsb (N.eqb c) listed_punctuation.

(** [re.sub(r"\n+", "\n", text)]: of a run of line feeds the last one
    stays. *)
Fixpoint squeeze_newlines (t : list N) : list N :=
  match t with
  | [] => []
  | c :: r =>
      if (c =? line_feed)%N then
        match r with
        | d :: _ => if (d =? line_feed)%N then squeeze_newlines r else c :: squeeze_newlines r
        | [] => [c]
        end
      else c :: squeeze_newlines r
  end.

(** [re.sub(r"\s+", " ", text)]: a run of white space becomes one blank. *)
Fixpoint squeeze_spaces (t : list N) : list N :=
  match t with
  | [] => []
  | c :: r =>
      if is_space c then
        match r with
        | d :: _ => if is_space d then squeeze_spaces r else blank :: squeeze_spaces r
        | [] => [blank]
        end
      else c :: squeeze_spaces r
  end.

Fixpoint lstrip_text (t : list N) : list N :=
  match t with
  | [] => []
  | c :: r => if is_space c then lstrip_text r else t
  end.

Fixpoint rstrip_text (t : list N) : list N :=
  match t with
  | [] => []
  | c :: r =>
      match rstrip_text r with
      | [] => if is_space c then [] else [c]
      | r' => c :: r'
      end
  end.

(** [text.strip()] *)
Definition strip_text (t : list N) : list N := rstrip_text (lstrip_text t).

(** [_clean_text(text)], lines 168-171. *)
Definition clean_text (t : list N) : list N :=
  strip_text (squeeze_spaces (filter kept (squeeze_newlines t))).

(** No two white-space characters stand side by side. *)
Fixpoint single_spaced (t : list N) : bool :=
  match t with
  | [] => true
  | c :: r =>
      match r with
      | d :: _ => negb (is_space c && is_space d)
      | [] => true
      end && single_spaced r
  end.

Definition starts_with_space (t : list N) : bool :=
  match t with
  | c :: _ => is_space c
  | [] => false
  end.

(** Only kept characters, no white space but single blanks, none of them at
    either end. *)
Definition tidy (t : list N) : Prop :=
  Forall (fun c => kept c = true) t
  /\ Forall (fun c => is_space c = true -> c = blank) t
  /\ single_spaced t = true
  /\ strip_text t = t.

End CleanText.

(** The two tables restricted to ASCII, for running the function on ASCII
    text. *)
Definition ascii_word (c : N) : bool :=
  ((48 <=? c) && (c <=? 57) || (65 <=? c) && (c <=? 90)
   || (97 <=? c) && (c <=? 122) || (c =? 95))%N.

Definition ascii_space (c : N) : bool :=
  ((9 <=? c) && (c <=? 13) || (28 <=? c) && (c <=? 32))%N.

Definition code_points (s : string) : list N :=
  map N_of_ascii (list_ascii_of_string s).

(** A name as [os.listdir] gives it: without a slash. *)
Fixpoint slash_free (s : string) : bool :=
  match s with
  | EmptyString => true
  | String c r => negb (Ascii.eqb c "/") && slash_free r
  end.

(** The extension is one of those [parse] dispatches on. *)
Definition supported_extension (ext : string) : Prop :=
  ext = ".pdf" \/ ext = ".docx" \/ ext = ".txt".

(** An extraction reply with empty lists. *)
Definition empty_extraction_text : string :=
  ("{" ++ q "core_ideas" ++ ": [], " ++ q "keywords" ++ ": []}")%string.

Definition terse_backend : Env :=
  scenario (nth_completion
              [Some (category_text (q "Tech") (q "AI") (q "ML"));
               Some empty_extraction_text])
           three_draws.

(** ** Further scenarios *)

(** The text of an extraction reply with two core ideas and two keywords. *)
Definition extraction_text : string :=
  ("{" ++ q "core_ideas" ++ ": [" ++ q "Models learn from data" ++ ", "
       ++ q "Training needs examples" ++ "], "
       ++ q "keywords" ++ ": [" ++ q "learning" ++ ", " ++ q "data" ++ "]}")%string.

(** A backend that classifies, then extracts, both in well-formed JSON. *)
Definition helpful_backend : Env :=
  scenario (nth_completion
              [Some (category_text (q "Tech") (q "AI") (q "ML")); Some extraction_text])
           three_draws.

(** A backend that wraps its classification in a sentence, so that only the
    recovery step can read it. *)
Definition chatty_backend : Env :=
  scenario (nth_completion
              [Some ("Sure: " ++ category_text (q "Tech") (q "AI") (q "ML"))%string])
           three_draws.

Definition silent_backend : Env := scenario (fun _ => None) three_draws.

(** The sample knowledge base with a link from the third record to the
    first. *)
Definition linked_doc : DocumentRecord :=
  {| doc_id := doc_id tooling_doc; filename := filename tooling_doc;
     path := path tooling_doc; category := category tooling_doc;
     core_ideas := core_ideas tooling_doc; keywords := keywords tooling_doc;
     related_docs := JArr [JStr "doc_00000001"];
     processed_time := processed_time tooling_doc |}.

Definition linked_kb : KnowledgeBase :=
  {| documents := [ml_doc; notes_doc; linked_doc];
     kb_user_preferences := user_preferences default_memory |}.

Definition linked_store : Store := set_kb_json (Holds linked_kb) initial_store.

(** * Properties *)

(** ** Strings *)

Lemma prefix_append (p s : string) :
  String.prefix p s = true <-> exists t, s = (p ++ t)%string.
Proof.
  revert s; induction p as [|c p IH]; intros s; simpl.
  - split; [intros _; now exists s | intros _; now destruct s].
  - destruct s as [|c' s]; simpl.
    + split; [discriminate | intros [t H]; discriminate].
    + destruct (Ascii.ascii_dec c c') as [->|Hne].
      * rewrite IH. split; intros [t H]; exists t; [now rewrite H | now inversion H].
      * split; [discriminate | intros [t H]; inversion H; congruence].
Qed.

Lemma contains_substring (v s : string) :
  contains v s = true <-> substring_of v s.
Proof.
  unfold substring_of. induction s as [|c s IH]; cbn [contains].
  - rewrite orb_false_r, prefix_append. split.
    + intros [t H]. exists EmptyString, t. exact H.
    + intros [b [a H]]. destruct b; simpl in H; [now exists a | discriminate].
  - rewrite orb_true_iff, prefix_append, IH. split.
    + intros [[t H] | [b [a H]]].
      * exists EmptyString, t. exact H.
      * exists (String c b), a. simpl. now rewrite H.
    + intros [b [a H]]. destruct b as [|c' b]; simpl in H.
      * left. now exists a.
      * right. inversion H. now exists b, a.
Qed.

(** ** search_knowledge *)

Lemma search_loop_unsupported (query_type query_value : string)
  (doc : DocumentRecord) (rest results : list DocumentRecord) :
  ~ supported_query_type query_type ->
  search_loop query_type query_value (doc :: rest) results = Ok None.
Proof.
  unfold supported_query_type. intros H. simpl.
  destruct (String.eqb_spec query_type "category"); [tauto|].
  destruct (String.eqb_spec query_type "keyword"); [tauto|].
  destruct (String.eqb_spec query_type "related"); [tauto|].
  reflexivity.
Qed.

(** With at least one stored document, any other query type is answered by
    the unsupported-type signal. *)
Lemma search_unsupported_nonempty (query_type query_value : string) (st : Store)
  (kb : KnowledgeBase) :
  kb_json st = Holds kb ->
  documents kb <> [] ->
  ~ supported_query_type query_type ->
  search_knowledge query_type query_value st = Ok Unsupported.
Proof.
  intros Hkb Hne Hq. unfold search_knowledge. rewrite Hkb. simpl.
  destruct (documents kb) as [|doc rest]; [congruence|].
  now rewrite search_loop_unsupported.
Qed.

(** C4, at the input where the code departs from it: with a stored knowledge
    base whose documents list is empty the loop body never runs, so every
    query type, supported or not, gets the no-results signal. *)
Theorem search_empty_kb_no_match (query_type query_value : string)
  (prefs : Preferences) (st : Store) :
  search_knowledge query_type query_value
    (set_kb_json (Holds {| documents := []; kb_user_preferences := prefs |}) st)
  = Ok NoMatch.
Proof. reflexivity. Qed.

Lemma core_ideas_pass_texts (v : string) (l : list string) :
  core_ideas_pass v (map JStr l) = Ok (existsb (contains v) l).
Proof.
  induction l as [|s l IH]; simpl; [reflexivity|].
  destruct (contains v s); simpl; [reflexivity | exact IH].
Qed.

Lemma keywords_pass_texts (v : string) (skip : bool) (l : list string) :
  keywords_pass v skip (map JStr l) = Ok (existsb (contains v) l && negb skip).
Proof.
  induction l as [|s l IH]; simpl; [reflexivity|].
  destruct (contains v s), skip; simpl; try reflexivity; rewrite IH;
    simpl; try reflexivity.
  now rewrite andb_false_r.
Qed.

Lemma keyword_loop_filter (v : string) (docs results : list DocumentRecord) :
  Forall well_typed_doc docs ->
  search_loop "keyword" v docs results = Ok (Some (results ++ filter (mentionsb v) docs)).
Proof.
  intros Hwt. revert results.
  induction Hwt as [|d docs [Hci Hkw] _ IH]; intros results; simpl.
  - now rewrite app_nil_r.
  - assert (Hm : mentionsb v d
                 = existsb (contains v) (texts (core_ideas d))
                   || existsb (contains v) (texts (keywords d))) by reflexivity.
    cbn [filter]. rewrite Hm. clear Hm. red in Hci, Hkw.
    remember (texts (core_ideas d)) as ideas eqn:Ei.
    remember (texts (keywords d)) as kws eqn:Ek. clear Ei Ek.
    cbn [search_loop]. simpl String.eqb. cbv iota. rewrite Hci, Hkw.
    cbn [py_iter rbind]. rewrite core_ideas_pass_texts. cbn [rbind].
    rewrite keywords_pass_texts. cbn [rbind]. rewrite IH.
    destruct (existsb (contains v) ideas), (existsb (contains v) kws); simpl;
      rewrite <- ?app_assoc; reflexivity.
Qed.

Lemma mentionsb_mentions (v : string) (d : DocumentRecord) :
  mentionsb v d = true <-> mentions v d.
Proof.
  unfold mentionsb, mentions. rewrite orb_true_iff, !existsb_exists. split.
  - intros [[s [Hin Hc]] | [s [Hin Hc]]]; exists s;
      (split; [tauto | now apply contains_substring]).
  - intros [s [[Hin | Hin] Hc]]; [left | right]; exists s;
      (split; [exact Hin | now apply contains_substring]).
Qed.

(** *** The report *)

Lemma report_entries_ok (results : list DocumentRecord) :
  Forall reportable results ->
  forall i, exists entries,
    report_entries i results = Ok entries
    /\ map entry_filename entries = map filename results
    /\ map entry_path entries = map path results
    /\ map entry_number entries = seq i (List.length results)
    /\ Forall2 (fun d e => py_getitem (core_ideas d) (JNum 0) = Ok (entry_first_idea e)
                           /\ py_len (core_ideas d) = Ok (entry_ideas e))
               results entries.
Proof.
  induction results as [|d rest IH]; intros Hr i.
  { exists []. repeat split; constructor. }
  inversion Hr as [|? ? [(l1 & l2 & l3 & H1 & H2 & H3) (first & more & Hf)] Hr']; subst.
  destruct (IH Hr' (S i)) as (es & E & Hn & Hp & Hk & Hall).
  cbn [report_entries]. unfold report_entry.
  rewrite H1, H2, H3, Hf. cbn [rbind py_getitem py_len].
  change (seq_index 0 (first :: more)) with (Ok first).
  cbn [rbind]. rewrite E. cbn [rbind].
  eexists. split; [reflexivity|].
  cbn [map entry_filename entry_path entry_number List.length seq].
  rewrite Hn, Hp, Hk. repeat split.
  constructor; [|exact Hall].
  cbn [entry_first_idea entry_ideas]. rewrite Hf. split; reflexivity.
Qed.

(** What [search_knowledge] answers once the loop has collected its
    matches: the no-results message for none, and the report when every match
    has the three levels and a first core idea. *)
Lemma search_answer (query_type query_value : string) (st : Store) (kb : KnowledgeBase)
  (results : list DocumentRecord) :
  kb_json st = Holds kb ->
  search_loop query_type query_value (documents kb) [] = Ok (Some results) ->
  (results = [] -> search_knowledge query_type query_value st = Ok NoMatch)
  /\ (results <> [] ->
      Forall reportable results ->
      exists entries,
        search_knowledge query_type query_value st
        = Ok (Found (List.length results) entries)
        /\ reports results entries).
Proof.
  intros Hkb Hloop. unfold search_knowledge. rewrite Hkb.
  cbn [reload_kb documents]. rewrite Hloop. cbn [rbind]. split.
  - intros ->. reflexivity.
  - intros Hne Hr. destruct results as [|d rest]; [congruence|].
    destruct (report_entries_ok Hr 1) as (es & E & H).
    cbv beta iota. rewrite E. cbn [rbind]. exists es. split; [reflexivity | exact H].
Qed.

(** C7: on a knowledge base whose core ideas and keywords are lists of
    strings, a keyword search collects exactly the documents in which the value
    is a substring of a core idea or of a keyword, each once, in knowledge-base
    order.  With no such document the answer is the no-results message; when
    every match has the three category levels and a first core idea, the
    answer is the report of these matches. *)
Theorem keyword_search_results (v : string) (st : Store) (kb : KnowledgeBase) :
  kb_json st = Holds kb ->
  Forall well_typed_doc (documents kb) ->
  let results := filter (mentionsb v) (documents kb) in
  search_loop "keyword" v (documents kb) [] = Ok (Some results)
  /\ (forall d, mentionsb v d = true <-> mentions v d)
  /\ (forall d, In d results <-> In d (documents kb) /\ mentions v d)
  /\ (results = [] -> search_knowledge "keyword" v st = Ok NoMatch)
  /\ (results <> [] ->
      Forall reportable results ->
      exists entries,
        search_knowledge "keyword" v st = Ok (Found (List.length results) entries)
        /\ reports results entries).
Proof.
  intros Hkb Hwt results.
  assert (Hloop : search_loop "keyword" v (documents kb) [] = Ok (Some results))
    by (now rewrite keyword_loop_filter).
  split; [exact Hloop|]. split; [|split].
  - intros d. apply mentionsb_mentions.
  - intros d. unfold results. rewrite filter_In, mentionsb_mentions. reflexivity.
  - exact (search_answer _ _ _ Hkb Hloop).
Qed.

(** ** Reasoning about the store *)

Lemma bind_run {A B : Type} (m : M A) (k : A -> M B) (st : Store) :
  bind m k st
  = match m st with
    | (st1, Ok a) => k a st1
    | (st1, Raise e) => (st1, Raise e)
    end.
Proof. reflexivity. Qed.

(** A computation returning [Ok] through a [bind] went through an [Ok] of
    its first part. *)
Lemma bind_ok {A B : Type} (m : M A) (k : A -> M B) (st st' : Store) (b : B) :
  bind m k st = (st', Ok b) ->
  exists st1 a, m st = (st1, Ok a) /\ k a st1 = (st', Ok b).
Proof.
  rewrite bind_run. destruct (m st) as [st1 [a|e]]; intros H.
  - now exists st1, a.
  - discriminate.
Qed.

Lemma bind_inv {A B : Type} (m : M A) (k : A -> M B) (st st' : Store) (r : result B) :
  bind m k st = (st', r) ->
  (exists e, m st = (st', Raise e) /\ r = Raise e)
  \/ (exists st1 a, m st = (st1, Ok a) /\ k a st1 = (st', r)).
Proof.
  rewrite bind_run. destruct (m st) as [st1 [a|e]]; intros H.
  - right. now exists st1, a.
  - left. inversion H; subst. now exists e.
Qed.

Lemma lift_inv {A : Type} (x : result A) (st st' : Store) (r : result A) :
  lift x st = (st', r) -> st' = st /\ r = x.
Proof. intros H. inversion H. auto. Qed.

Lemma reads_inv {A : Type} (g : Store -> result A) (st st' : Store) (r : result A) :
  reads g st = (st', r) -> st' = st /\ r = g st.
Proof. intros H. inversion H. auto. Qed.

(** A dump either goes through and the file holds the data, or breaks off
    and leaves the file cut. *)
Lemma save_memory_ok (env : Env) (st st' : Store) :
  save_memory env st = (st', Ok tt) ->
  dump_breaks env (dumps st) = false
  /\ st' = set_memory_json (Holds (memory st)) (tick_dump st).
Proof.
  unfold save_memory. destruct (dump_breaks env (dumps st)); intros H; inversion H. auto.
Qed.

Lemma dump_knowledge_base_ok (env : Env) (kb : KnowledgeBase) (st st' : Store) :
  dump_knowledge_base env kb st = (st', Ok tt) ->
  dump_breaks env (dumps st) = false
  /\ st' = set_kb_json (Holds kb) (tick_dump st).
Proof.
  unfold dump_knowledge_base. destruct (dump_breaks env (dumps st)); intros H;
    inversion H. auto.
Qed.

Lemma dump_knowledge_base_raise (env : Env) (kb : KnowledgeBase) (st st' : Store)
  (e : exn) :
  dump_knowledge_base env kb st = (st', Raise e) ->
  dump_breaks env (dumps st) = true
  /\ e = UnicodeEncodeError
  /\ st' = set_kb_json CutOff (tick_dump st).
Proof.
  unfold dump_knowledge_base. destruct (dump_breaks env (dumps st)); intros H;
    inversion H. auto.
Qed.

(** Opening the manager goes through unless memory.json is cut off. *)
Lemma MemoryManager_ok (st st' : Store) :
  MemoryManager st = (st', Ok tt) ->
  exists m, load_memory st = Ok m /\ st' = set_memory m st.
Proof.
  unfold MemoryManager. intros H. apply bind_ok in H.
  destruct H as (st1 & m & H1 & H). apply reads_inv in H1. destruct H1 as [-> Hm].
  inversion H. now exists m.
Qed.

Lemma MemoryManager_run (st : Store) (m : MemoryData) :
  load_memory st = Ok m -> MemoryManager st = (set_memory m st, Ok tt).
Proof. intros H. unfold MemoryManager. rewrite bind_run. unfold reads. now rewrite H. Qed.

Lemma save_memory_run (env : Env) (st : Store) :
  dump_breaks env (dumps st) = false ->
  save_memory env st = (set_memory_json (Holds (memory st)) (tick_dump st), Ok tt).
Proof. intros H. unfold save_memory. now rewrite H. Qed.

Lemma save_memory_broken (env : Env) (st : Store) :
  dump_breaks env (dumps st) = true ->
  save_memory env st = (set_memory_json CutOff (tick_dump st), Raise UnicodeEncodeError).
Proof. intros H. unfold save_memory. now rewrite H. Qed.

Lemma MemoryManager_raise (st st' : Store) (e : exn) :
  MemoryManager st = (st', Raise e) ->
  memory_json st = CutOff /\ e = JSONDecodeError /\ st' = st.
Proof.
  unfold MemoryManager. rewrite bind_run. unfold reads, load_memory.
  destruct (memory_json st); intros H; inversion H. auto.
Qed.

Section Frames.

Context {X : Type} (f : Store -> X).

Lemma keeps_ret {A : Type} (a : A) : keeps f (ret a).
Proof. now intros st. Qed.

Lemma keeps_raise {A : Type} (e : exn) : keeps f (@raise A e).
Proof. now intros st. Qed.

Lemma keeps_lift {A : Type} (r : result A) : keeps f (lift r).
Proof. now intros st. Qed.

Lemma keeps_gets {A : Type} (g : Store -> A) : keeps f (gets g).
Proof. now intros st. Qed.

Lemma keeps_reads {A : Type} (g : Store -> result A) : keeps f (reads g).
Proof. now intros st. Qed.

Lemma keeps_modify (g : Store -> Store) :
  (forall st, f (g st) = f st) -> keeps f (modify g).
Proof. intros H st. apply H. Qed.

Lemma keeps_bind {A B : Type} (m : M A) (k : A -> M B) :
  keeps f m -> (forall a, keeps f (k a)) -> keeps f (bind m k).
Proof.
  intros Hm Hk st. rewrite bind_run. specialize (Hm st).
  destruct (m st) as [st1 [a|e]]; simpl in *.
  - now rewrite Hk.
  - exact Hm.
Qed.

Lemma keeps_try_except {A : Type} (m : M A) (h : exn -> M A) :
  keeps f m -> (forall e, keeps f (h e)) -> keeps f (try_except m h).
Proof.
  intros Hm Hh st. unfold try_except. specialize (Hm st).
  destruct (m st) as [st1 [a|e]]; simpl in *.
  - exact Hm.
  - now rewrite Hh.
Qed.

End Frames.

Ltac frame_step :=
  first
    [ apply keeps_ret | apply keeps_raise | apply keeps_lift | apply keeps_gets
    | apply keeps_reads
    | apply keeps_bind; [|intro]
    | apply keeps_try_except; [|intro]
    | apply keeps_modify; intro; solve [auto] ].

Section AgentFrames.

Variable env : Env.
Context {X : Type} (f : Store -> X).

Hypothesis f_generate : forall st, f (tick_generate st) = f st.

Lemma generate_text_keeps : keeps f (generate_text env).
Proof. intros st. apply f_generate. Qed.

Section Classify.

Hypothesis f_memory : forall m st, f (set_memory m st) = f st.
Hypothesis f_memory_json : forall j st, f (set_memory_json j st) = f st.
Hypothesis f_dump : forall st, f (tick_dump st) = f st.

Lemma save_memory_keeps : keeps f (save_memory env).
Proof.
  intros st. unfold save_memory.
  destruct (dump_breaks env (dumps st)); cbn [fst]; now rewrite f_memory_json, f_dump.
Qed.

Lemma update_preferences_keeps (p : Preferences) : keeps f (update_preferences env p).
Proof.
  unfold update_preferences. apply keeps_bind; [|intro; apply save_memory_keeps].
  apply keeps_modify. intros st. apply f_memory.
Qed.

Lemma update_session_keeps (name : string) : keeps f (update_session env name).
Proof.
  unfold update_session. apply keeps_bind; [|intro; apply save_memory_keeps].
  apply keeps_modify. intros st. apply f_memory.
Qed.

Lemma MemoryManager_keeps : keeps f MemoryManager.
Proof.
  unfold MemoryManager. apply keeps_bind; [apply keeps_reads|intro m].
  apply keeps_modify. intros st. apply f_memory.
Qed.

Lemma register_level3_keeps (c : json) : keeps f (register_level3 env c).
Proof.
  unfold register_level3.
  repeat first
    [ apply update_preferences_keeps
    | apply keeps_modify; intros st; unfold set_level3; apply f_memory
    | frame_step ].
Qed.

Lemma classify_keeps (text name : string) : keeps f (classify env text name).
Proof.
  unfold classify. apply keeps_bind; [apply generate_text_keeps|].
  intros [s|]; [|apply keeps_ret].
  destruct (String.eqb s EmptyString); [apply keeps_ret|].
  destruct (json_loads env (clean_response s)) as [c|e].
  - apply keeps_try_except; [|intro; apply keeps_ret].
    apply keeps_bind; [apply keeps_lift|intro].
    apply keeps_bind; [apply register_level3_keeps|intro; apply keeps_ret].
  - destruct e; try apply keeps_ret.
    destruct (search_flat_object (clean_response s)) as [frag|]; [|apply keeps_ret].
    destruct (json_loads env frag); apply keeps_ret.
Qed.

End Classify.

Lemma extract_body_keeps (text : string) (docs : list DocumentRecord) :
  keeps f (extract_body env text docs).
Proof.
  unfold extract_body.
  apply keeps_bind; [apply generate_text_keeps|intro].
  apply keeps_bind.
  - destruct docs; [apply keeps_ret|].
    repeat first [apply generate_text_keeps | frame_step].
  - intro. repeat frame_step.
Qed.

Section Extract.

Hypothesis f_extract : forall st, f (tick_extract st) = f st.

Lemma extract_keeps (text : string) (docs : list DocumentRecord) :
  keeps f (extract env text docs).
Proof.
  unfold extract.
  apply keeps_bind; [apply keeps_modify; exact f_extract|intro].
  apply extract_body_keeps.
Qed.

Lemma extraction_loop_keeps (budget : nat) (text : string) (docs : list DocumentRecord)
  (c : json) (need : bool) (count : nat) (e : option Extracted) :
  keeps f (extraction_loop env budget text docs c need count e).
Proof.
  revert need count e. induction budget as [|b IH]; intros need count e; simpl;
    destruct (need && (count <? max_retries)%nat); try apply keeps_ret;
    try apply keeps_raise.
  apply keeps_bind; [apply extract_keeps|intro].
  apply keeps_bind; [apply keeps_lift|intro]. apply IH.
Qed.

End Extract.

Section Pipeline.

Hypothesis f_memory : forall m st, f (set_memory m st) = f st.
Hypothesis f_memory_json : forall j st, f (set_memory_json j st) = f st.
Hypothesis f_dump : forall st, f (tick_dump st) = f st.
Hypothesis f_extract : forall st, f (tick_extract st) = f st.
Hypothesis f_uuid : forall st, f (tick_uuid st) = f st.
Hypothesis f_clock : forall st, f (tick_clock st) = f st.

Lemma process_file_keeps (docs : list DocumentRecord) (name : string) :
  keeps f (process_file env docs name).
Proof.
  unfold process_file.
  destruct (existsb _ docs); [apply keeps_ret|].
  destruct (parse env _) as [text|e]; [|apply keeps_ret].
  apply keeps_bind; [now apply classify_keeps|intro cat].
  apply keeps_bind; [now apply extraction_loop_keeps|intro looped].
  do 3 (apply keeps_bind; [apply keeps_lift|intro]).
  apply keeps_bind; [intros st; apply f_uuid|intro new_id].
  destruct (fst looped); [|apply keeps_raise].
  apply keeps_bind; [intros st; apply f_clock|intro stamp].
  apply keeps_bind; [now apply update_session_keeps|intro; apply keeps_ret].
Qed.

Lemma process_files_keeps (files : list string) (docs : list DocumentRecord) :
  keeps f (process_files env files docs).
Proof.
  revert docs. induction files as [|name files IH]; intros docs; simpl.
  - apply keeps_ret.
  - apply keeps_bind; [apply process_file_keeps | intro; apply IH].
Qed.

End Pipeline.

End AgentFrames.

(** ** reclassify_document *)

Lemma find_filename_first (name : string) (docs : list DocumentRecord) (k i : nat) :
  find_filename name docs k = Some i ->
  k <= i
  /\ (exists doc, nth_error docs (i - k) = Some doc /\ filename doc = name)
  /\ (forall j d, j < i - k -> nth_error docs j = Some d -> filename d <> name).
Proof.
  revert k. induction docs as [|doc docs IH]; intros k; simpl; [discriminate|].
  destruct (String.eqb_spec (filename doc) name) as [Heq|Hne].
  - intros H. inversion H; subst i. rewrite Nat.sub_diag. split; [lia|]. split.
    + now exists doc.
    + intros j d Hj. lia.
  - intros H. apply IH in H. destruct H as [Hle [[d [Hnth Hd]] Hbefore]].
    split; [lia|]. replace (i - k) with (S (i - S k)) by lia. split.
    + now exists d.
    + intros [|j] d' Hj; simpl.
      * intros E. inversion E; subst d'. exact Hne.
      * apply Hbefore. lia.
Qed.

Lemma find_filename_none (name : string) (docs : list DocumentRecord) (k : nat) :
  find_filename name docs k = None <-> Forall (fun d => filename d <> name) docs.
Proof.
  revert k. induction docs as [|doc docs IH]; intros k; simpl.
  - split; [constructor | reflexivity].
  - destruct (String.eqb_spec (filename doc) name) as [Heq|Hne].
    + split; [discriminate | intros H; inversion H; contradiction].
    + rewrite IH. split; [now constructor | intros H; now inversion H].
Qed.

Lemma update_nth_length {A : Type} (i : nat) (f : A -> A) (l : list A) :
  List.length (update_nth i f l) = List.length l.
Proof.
  revert i. induction l as [|x l IH]; intros [|i]; simpl; auto.
Qed.

Lemma update_nth_same {A : Type} (i : nat) (f : A -> A) (l : list A) :
  nth_error (update_nth i f l) i = option_map f (nth_error l i).
Proof.
  revert i. induction l as [|x l IH]; intros [|i]; simpl; auto.
Qed.

Lemma update_nth_other {A : Type} (i j : nat) (f : A -> A) (l : list A) :
  j <> i -> nth_error (update_nth i f l) j = nth_error l j.
Proof.
  revert i j. induction l as [|x l IH]; intros [|i] [|j] H; simpl; auto;
    try contradiction.
Qed.

(** C8: when no record has the file name, or the stored path of the first
    such record fails to parse, [reclassify_document] reports the failure and
    changes nothing: the knowledge-base object is the one it was given and the
    store (both files, the manager, every counter) is untouched. *)
Theorem reclassify_failure_changes_nothing (env : Env) (name : string)
  (kb : KnowledgeBase) (st : Store) :
  (find_filename name (documents kb) 0 = None
   \/ exists i doc e,
        find_filename name (documents kb) 0 = Some i
        /\ nth_error (documents kb) i = Some doc
        /\ parse env (path doc) = Raise e) ->
  exists failure,
    reclassify_document env name kb st = (st, Ok (failure, kb))
    /\ (failure = NotFound \/ exists e, failure = ParsingFailed e).
Proof.
  unfold reclassify_document. intros [Hnone | [i [doc [e [Hi [Hdoc Hparse]]]]]].
  - rewrite Hnone. exists NotFound. split; [reflexivity | now left].
  - rewrite Hi, Hdoc, Hparse. exists (ParsingFailed e).
    split; [reflexivity | right; now exists e].
Qed.

(** C9: a successful reclassification overwrites [category] and
    [processed_time] of the first record with the file name and nothing else:
    the other six fields of that record, every other record, the list length
    and the preference snapshot are as before; the result is what is written
    to the knowledge-base file; the extractor is not called. *)
Theorem reclassify_success_frame (env : Env) (name : string) (kb kb' : KnowledgeBase)
  (st st' : Store) (c : json) :
  reclassify_document env name kb st = (st', Ok (Reclassified c, kb')) ->
  exists i doc doc',
    find_filename name (documents kb) 0 = Some i
    /\ nth_error (documents kb) i = Some doc
    /\ filename doc = name
    /\ (forall j d, j < i -> nth_error (documents kb) j = Some d -> filename d <> name)
    /\ nth_error (documents kb') i = Some doc'
    /\ category doc' = c
    /\ processed_time doc' = strftime_now env (clock_reads st)
    /\ doc_id doc' = doc_id doc /\ filename doc' = filename doc
    /\ path doc' = path doc /\ core_ideas doc' = core_ideas doc
    /\ keywords doc' = keywords doc /\ related_docs doc' = related_docs doc
    /\ (forall j, j <> i -> nth_error (documents kb') j = nth_error (documents kb) j)
    /\ List.length (documents kb') = List.length (documents kb)
    /\ kb_user_preferences kb' = kb_user_preferences kb
    /\ kb_json st' = Holds kb'
    /\ extract_calls st' = extract_calls st.
Proof.
  unfold reclassify_document.
  destruct (find_filename name (documents kb) 0) as [i|] eqn:Hi; [|discriminate].
  destruct (nth_error (documents kb) i) as [doc|] eqn:Hdoc; [|discriminate].
  destruct (parse env (path doc)) as [text|e] eqn:Hparse; [|discriminate].
  intros H.
  apply bind_ok in H. destruct H as [st1 [[] [H1 H]]].
  apply bind_ok in H. destruct H as [st2 [c' [H2 H]]].
  apply bind_ok in H. destruct H as [st3 [stamp [H3 H]]].
  apply bind_ok in H. destruct H as [st4 [[] [H4 H]]].
  inversion H; subst st4 c' kb'; clear H.
  inversion H3; subst st3 stamp; clear H3.
  apply dump_knowledge_base_ok in H4. destruct H4 as [_ ->].
  apply MemoryManager_ok in H1. destruct H1 as (m & _ & ->).
  assert (Hclock : clock_reads st2 = clock_reads st).
  { pose proof (@classify_keeps env _ clock_reads
      (fun _ => eq_refl) (fun _ _ => eq_refl) (fun _ _ => eq_refl) (fun _ => eq_refl)
      text name (set_memory m st)) as K.
    now rewrite H2 in K. }
  assert (Hcalls : extract_calls st2 = extract_calls st).
  { pose proof (@classify_keeps env _ extract_calls
      (fun _ => eq_refl) (fun _ _ => eq_refl) (fun _ _ => eq_refl) (fun _ => eq_refl)
      text name (set_memory m st)) as K.
    now rewrite H2 in K. }
  apply find_filename_first in Hi. destruct Hi as [_ [[d [Hd Hname]] Hbefore]].
  rewrite Nat.sub_0_r in Hd, Hbefore. rewrite Hdoc in Hd. inversion Hd; subst d.
  exists i, doc, (set_processed_time (strftime_now env (clock_reads st2)) (set_category c doc)).
  simpl. repeat split; auto.
  - rewrite !update_nth_same, Hdoc. reflexivity.
  - intros j Hj. now rewrite !update_nth_other.
  - now rewrite !update_nth_length.
Qed.

(** ** ContentClassifierAgent.classify *)

Lemma getitem_text_key_object (c : json) (k : string) (v : json) :
  py_getitem c (JStr k) = Ok v -> exists d, c = JObj d.
Proof. destruct c; simpl; try discriminate. intros _. now eexists. Qed.

Lemma check_required_fields (keys : list string) (c : json) :
  check_required keys c = Ok tt ->
  forall k, In k keys -> truthy_field k c.
Proof.
  induction keys as [|key keys IH]; simpl; [intros _ k []|].
  destruct (py_in (JStr key) c) as [[|]|e]; simpl; try discriminate.
  destruct (py_getitem c (JStr key)) as [v|e] eqn:Hv; simpl; try discriminate.
  destruct (truthy v) eqn:Ht; simpl; try discriminate.
  intros H k [<-|Hin].
  - now exists v.
  - now apply IH.
Qed.

Lemma check_required_validated (c : json) :
  check_required required_keys c = Ok tt -> validated_category c.
Proof.
  intros H. pose proof (check_required_fields _ _ H) as F.
  assert (H1 : truthy_field "level1" c) by (apply F; simpl; auto).
  assert (H2 : truthy_field "level2" c) by (apply F; simpl; auto).
  assert (H3 : truthy_field "level3" c) by (apply F; simpl; auto).
  repeat split; auto.
  destruct H1 as [v [Hv _]]. eapply getitem_text_key_object; eauto.
Qed.

(** Every way [classify] can end. *)
Lemma classify_returns (env : Env) (text name : string) (st : Store) :
  exists c,
    snd (classify env text name st) = Ok c
    /\ (c = unclassified
        \/ (exists s,
              completion env (generate_calls st) = Some s
              /\ json_loads env (clean_response s) = Ok c
              /\ validated_category c)
        \/ (exists s fragment,
              completion env (generate_calls st) = Some s
              /\ json_loads env (clean_response s) = Raise JSONDecodeError
              /\ search_flat_object (clean_response s) = Some fragment
              /\ json_loads env fragment = Ok c)).
Proof.
  unfold classify. rewrite bind_run. unfold generate_text at 1.
  destruct (completion env (generate_calls st)) as [s|] eqn:Hs;
    [|exists unclassified; split; [reflexivity | now left]].
  destruct (String.eqb s EmptyString);
    [exists unclassified; split; [reflexivity | now left]|].
  destruct (json_loads env (clean_response s)) as [c|e] eqn:Hc.
  - unfold try_except. rewrite bind_run. unfold lift at 1.
    destruct (check_required required_keys c) as [[]|e] eqn:Hcheck;
      [|exists unclassified; split; [reflexivity | now left]].
    rewrite bind_run.
    destruct (register_level3 env c (tick_generate st)) as [st1 [[]|e]];
      [|exists unclassified; split; [reflexivity | now left]].
    exists c. split; [reflexivity|]. right. left. exists s.
    repeat split; auto; now apply check_required_validated.
  - destruct e; try (exists unclassified; split; [reflexivity | now left]).
    destruct (search_flat_object (clean_response s)) as [frag|] eqn:Hf;
      [|exists unclassified; split; [reflexivity | now left]].
    destruct (json_loads env frag) as [c|e'] eqn:Hc';
      [|exists unclassified; split; [reflexivity | now left]].
    exists c. split; [reflexivity|]. right. right. now exists s, frag.
Qed.



(** ** The extraction loop *)

(** The exceptions of the Python operators are Python's: none of them is the
    model's own budget error. *)

Lemma pythonic_ok {A : Type} (a : A) : pythonic (Ok a).
Proof. discriminate. Qed.




















(** One call of [extract] is counted once. *)
Lemma extract_counts_one (env : Env) (text : string) (docs : list DocumentRecord)
  (st : Store) :
  extract_calls (fst (extract env text docs st)) = S (extract_calls st).
Proof.
  unfold extract. rewrite bind_run. simpl.
  now rewrite (@extract_body_keeps env _ extract_calls (fun _ => eq_refl)).
Qed.

Section Loop.

Variable env : Env.
Variable text : string.
Variable docs : list DocumentRecord.
Variable c : json.




End Loop.


(** ** The course of an ingestion run *)

(** The documents a run starts from are those a reader of the file finds. *)
Lemma load_knowledge_base_documents (st : Store) (kb_file : option KnowledgeBase) :
  load_knowledge_base st = Ok kb_file ->
  match kb_file with Some kb => documents kb | None => [] end = stored_documents st
  /\ kb_json st <> CutOff.
Proof.
  unfold load_knowledge_base, stored_documents.
  destruct (kb_json st) as [|kb|]; intros H; inversion H; split; try reflexivity;
    discriminate.
Qed.

(** Every way a run can go: the manager cannot be opened; the knowledge
    base cannot be read; there is no file to process; the batch raises; the
    batch completes and the final dump goes through or breaks off. *)
Lemma process_documents_run (env : Env) (files : list string) (st st' : Store)
  (r : result unit) :
  process_documents env files st = (st', r) ->
  (memory_json st = CutOff /\ st' = st /\ r = Raise JSONDecodeError)
  \/ exists m,
       load_memory st = Ok m
       /\ ((kb_json st = CutOff /\ st' = set_memory m st /\ r = Raise JSONDecodeError)
           \/ exists kb_file,
                load_knowledge_base st = Ok kb_file
                /\ ((files = [] /\ st' = set_memory m st /\ r = Ok tt)
                    \/ (files <> []
                        /\ exists st1 r1,
                             process_files env files (stored_documents st) (set_memory m st)
                             = (st1, r1)
                             /\ match r1 with
                                | Raise e => st' = st1 /\ r = Raise e
                                | Ok docs =>
                                    let kb' :=
                                      {| documents := docs;
                                         kb_user_preferences :=
                                           match kb_file with
                                           | Some kb => kb_user_preferences kb
                                           | None => user_preferences (memory st1)
                                           end |} in
                                    (dump_breaks env (dumps st1) = false
                                     /\ st' = set_kb_json (Holds kb') (tick_dump st1)
                                     /\ r = Ok tt)
                                    \/ (dump_breaks env (dumps st1) = true
                                        /\ st' = set_kb_json CutOff (tick_dump st1)
                                        /\ r = Raise UnicodeEncodeError)
                                end))).
Proof.
  unfold process_documents. intros H.
  apply bind_inv in H. destruct H as [(e & H & ->) | (st0 & [] & H0 & H)].
  { apply MemoryManager_raise in H. destruct H as (Hcut & -> & ->). left. auto. }
  apply MemoryManager_ok in H0. destruct H0 as (m & Hm & ->).
  right. exists m. split; [exact Hm|].
  apply bind_inv in H. destruct H as [(e & H & ->) | (st0 & kb_file & Hk & H)].
  { apply reads_inv in H. destruct H as [-> He]. left.
    unfold load_knowledge_base in He. cbn [kb_json set_memory] in He.
    destruct (kb_json st); inversion He. auto. }
  apply reads_inv in Hk. destruct Hk as [-> Hk].
  assert (Hk' : load_knowledge_base st = Ok kb_file) by (symmetry; exact Hk).
  right. exists kb_file. split; [exact Hk'|].
  destruct (load_knowledge_base_documents st Hk') as [Hdocs _]. rewrite Hdocs in H.
  destruct files as [|name files]; [inversion H; left; auto|].
  right. split; [discriminate|].
  apply bind_inv in H. destruct H as [(e & H & ->) | (st1 & docs & H1 & H)].
  { exists st', (Raise e). split; [exact H | split; reflexivity]. }
  exists st1, (Ok docs). split; [exact H1|].
  apply bind_inv in H. destruct H as [(e & H & ->) | (st2 & live & Hg & H)];
    [discriminate|].
  inversion Hg; subst st2 live; clear Hg.
  destruct kb_file as [kb|]; cbn [option_map] in H; cbv zeta;
    (destruct r as [[]|e];
     [apply dump_knowledge_base_ok in H; destruct H as [Hb ->]; left; auto
     |apply dump_knowledge_base_raise in H; destruct H as (Hb & -> & ->); right; auto]).
Qed.

(** ** Record ids *)

Section Ids.

Variable env : Env.

Lemma classify_uuid (text name : string) (st : Store) :
  uuid_draws (fst (classify env text name st)) = uuid_draws st.
Proof.
  exact (@classify_keeps env _ uuid_draws
           (fun _ => eq_refl) (fun _ _ => eq_refl) (fun _ _ => eq_refl) (fun _ => eq_refl)
           text name st).
Qed.

Lemma loop_uuid (text : string) (docs : list DocumentRecord) (c : json) (st : Store) :
  uuid_draws (fst (extraction_with_retries env text docs c st)) = uuid_draws st.
Proof.
  unfold extraction_with_retries.
  exact (@extraction_loop_keeps env _ uuid_draws
           (fun _ => eq_refl) (fun _ => eq_refl) _ text docs c _ _ _ st).
Qed.

(** One file either leaves the list as it is and draws nothing, or appends
    one record whose id is the next draw. *)
Lemma process_file_ids (docs : list DocumentRecord) (name : string)
  (st st' : Store) (r : result (list DocumentRecord)) :
  process_file env docs name st = (st', r) ->
  match r with
  | Ok docs' =>
      (docs' = docs /\ uuid_draws st' = uuid_draws st)
      \/ exists record,
           docs' = docs ++ [record]
           /\ doc_id record = drawn_id env (uuid_draws st)
           /\ uuid_draws st' = S (uuid_draws st)
  | Raise _ =>
      uuid_draws st <= uuid_draws st' <= S (uuid_draws st)
  end.
Proof.
  unfold process_file.
  destruct (existsb _ docs);
    [intros H; inversion H; subst; left; split; reflexivity|].
  destruct (parse env _) as [text|e];
    [|intros H; inversion H; subst; left; split; reflexivity].
  intros H.
  apply bind_inv in H. pose proof (classify_uuid text name st) as K1.
  destruct H as [[e [H ->]] | [st1 [cat [H1 H]]]];
    [rewrite H in K1; simpl in K1; lia|].
  rewrite H1 in K1. simpl in K1.
  apply bind_inv in H. pose proof (loop_uuid text docs cat st1) as K2.
  destruct H as [[e [H ->]] | [st2 [looped [H2 H]]]];
    [rewrite H in K2; simpl in K2; lia|].
  rewrite H2 in K2. simpl in K2.
  do 3 (apply bind_inv in H;
        destruct H as [[e [H ->]] | [? [? [Hl H]]]];
        [apply lift_inv in H; destruct H as [-> _]; lia
        |apply lift_inv in Hl; destruct Hl as [-> _]]).
  apply bind_inv in H.
  destruct H as [[e [H ->]] | [st3 [new_id [H3 H]]]]; [discriminate|].
  inversion H3; subst st3 new_id; clear H3.
  destruct (fst looped) as [extracted|];
    [|inversion H; subst; cbn [uuid_draws tick_uuid]; lia].
  apply bind_inv in H.
  destruct H as [[e [H ->]] | [st4 [stamp [H4 H]]]]; [discriminate|].
  inversion H4; subst st4 stamp; clear H4.
  apply bind_inv in H.
  pose proof (@update_session_keeps env _ uuid_draws
                (fun _ _ => eq_refl) (fun _ _ => eq_refl) (fun _ => eq_refl) name
                (tick_clock (tick_uuid st2))) as K3.
  destruct H as [[e [H ->]] | [st5 [[] [H5 H]]]].
  - rewrite H in K3. simpl in K3. lia.
  - rewrite H5 in K3. simpl in K3. inversion H; subst st' r; clear H.
    right. eexists. split; [reflexivity|]. split.
    + cbn [doc_id]. unfold drawn_id. rewrite K2, K1. reflexivity.
    + lia.
Qed.

(** A batch appends records whose ids are consecutive draws. *)
Lemma process_files_ids (files : list string) :
  forall (docs : list DocumentRecord) (st : Store),
    let run := process_files env files docs st in
    uuid_draws st <= uuid_draws (fst run) <= uuid_draws st + List.length files
    /\ forall docs', snd run = Ok docs' ->
         exists k,
           ids docs' = ids docs ++ map (drawn_id env) (seq (uuid_draws st) k)
           /\ uuid_draws (fst run) = uuid_draws st + k.
Proof.
  induction files as [|name files IH]; intros docs st; cbn [process_files].
  - cbn [ret fst snd List.length]. split; [lia|].
    intros docs' H. inversion H; subst. exists 0. simpl. now rewrite app_nil_r, Nat.add_0_r.
  - rewrite bind_run.
    destruct (process_file env docs name st) as [st1 r1] eqn:P.
    apply process_file_ids in P. destruct r1 as [docs1|e].
    + specialize (IH docs1 st1). cbv zeta in IH. destruct IH as [Hrange Hok].
      cbn [List.length].
      destruct P as [[-> Hsame] | [record [-> [Hid Hnext]]]].
      * split; [lia|]. intros docs' H. apply Hok in H. destruct H as [k [Hids Hk]].
        exists k. rewrite Hsame in Hids, Hk. now split.
      * split; [lia|]. intros docs' H. apply Hok in H. destruct H as [k [Hids Hk]].
        exists (S k). split; [|lia].
        rewrite Hids, Hnext. unfold ids. rewrite map_app. cbn [map seq].
        rewrite Hid, <- app_assoc. reflexivity.
    + cbn [fst snd List.length]. split; [lia | discriminate].
Qed.

(** A run either leaves the knowledge-base file cut off, or appends
    records whose ids are consecutive draws; a file that is cut off stays
    so. *)
Lemma process_documents_ids (files : list string) (st : Store) :
  let st' := fst (process_documents env files st) in
  uuid_draws st <= uuid_draws st' <= uuid_draws st + List.length files
  /\ (kb_json st = CutOff -> kb_json st' = CutOff)
  /\ (kb_json st' = CutOff
      \/ exists k,
           ids (stored_documents st')
           = ids (stored_documents st) ++ map (drawn_id env) (seq (uuid_draws st) k)
           /\ uuid_draws st + k <= uuid_draws st').
Proof.
  cbv zeta. destruct (process_documents env files st) as [st' r] eqn:Hrun. cbn [fst].
  assert (Hsame : forall st0, kb_json st0 = kb_json st -> uuid_draws st0 = uuid_draws st ->
            uuid_draws st <= uuid_draws st0 <= uuid_draws st + List.length files
            /\ (kb_json st = CutOff -> kb_json st0 = CutOff)
            /\ (kb_json st0 = CutOff
                \/ exists k,
                     ids (stored_documents st0)
                     = ids (stored_documents st) ++ map (drawn_id env) (seq (uuid_draws st) k)
                     /\ uuid_draws st + k <= uuid_draws st0)).
  { intros st0 Hk Hu. split; [lia|]. split; [congruence|]. right. exists 0.
    unfold stored_documents. rewrite Hk, Hu. cbn [seq map]. rewrite app_nil_r.
    split; [reflexivity | lia]. }
  apply process_documents_run in Hrun.
  destruct Hrun as [(_ & -> & _) | (m & _ & Hrun)]; [now apply Hsame|].
  destruct Hrun as [(_ & -> & _) | (kb_file & Hk & Hrun)]; [now apply Hsame|].
  destruct (load_knowledge_base_documents st Hk) as [_ Hnc].
  destruct Hrun as [(_ & -> & _) | (_ & st1 & r1 & H1 & Hrun)]; [now apply Hsame|].
  destruct (process_files_ids files (stored_documents st) (set_memory m st)) as [Hrange Hok].
  pose proof (@process_files_keeps env _ kb_json
    (fun _ => eq_refl) (fun _ _ => eq_refl) (fun _ _ => eq_refl) (fun _ => eq_refl)
    (fun _ => eq_refl) (fun _ => eq_refl) (fun _ => eq_refl)
    files (stored_documents st) (set_memory m st)) as Hkeep.
  rewrite H1 in Hrange, Hok, Hkeep. cbn [fst snd uuid_draws set_memory kb_json] in *.
  destruct r1 as [docs|e].
  - destruct (Hok docs eq_refl) as [k [Hids Hk']].
    destruct Hrun as [(_ & -> & _) | (_ & -> & _)];
      cbn [uuid_draws kb_json set_kb_json tick_dump].
    + split; [lia|]. split; [intros C; contradiction|]. right. exists k.
      unfold stored_documents at 1. cbn [kb_json set_kb_json documents].
      split; [exact Hids | lia].
    + split; [lia|]. split; [reflexivity|]. now left.
  - destruct Hrun as [-> _]. split; [lia|]. split; [congruence|]. right. exists 0.
    unfold stored_documents. rewrite Hkeep. cbn [seq map]. rewrite app_nil_r.
    split; [reflexivity | lia].
Qed.

Lemma ingestion_runs_cut (batches : list (list string)) :
  forall st : Store,
    kb_json st = CutOff -> kb_json (ingestion_runs env batches st) = CutOff.
Proof.
  induction batches as [|files batches IH]; intros st H; cbn [ingestion_runs]; [exact H|].
  apply IH. now apply (process_documents_ids files st).
Qed.

Lemma ingestion_runs_ids (batches : list (list string)) :
  forall st : Store,
    let st' := ingestion_runs env batches st in
    exists drawn,
      (kb_json st' = CutOff
       \/ ids (stored_documents st') = ids (stored_documents st) ++ map (drawn_id env) drawn)
      /\ NoDup drawn
      /\ (forall i, In i drawn -> uuid_draws st <= i < uuid_draws st')
      /\ uuid_draws st <= uuid_draws st'
      /\ uuid_draws st' <= uuid_draws st + List.length (concat batches).
Proof.
  induction batches as [|files batches IH]; intros st; cbn [ingestion_runs concat].
  - exists []. simpl. rewrite app_nil_r.
    split; [now right|]. split; [constructor|]. split; [intros i []|]. lia.
  - destruct (process_documents_ids files st) as [[Hlo Hhi] [_ Hids]].
    set (st1 := fst (process_documents env files st)) in *.
    destruct (IH st1) as [drawn [Hids' [Hnd [Hin [Hle Hhi']]]]].
    rewrite length_app.
    destruct Hids as [Hcut | [k [Hids Hk]]].
    + exists []. split; [left; now apply ingestion_runs_cut|].
      split; [constructor|]. split; [intros i []|]. lia.
    + exists (seq (uuid_draws st) k ++ drawn).
      split; [|split; [|split; [|lia]]].
      * destruct Hids' as [Hcut | Hids']; [now left | right].
        now rewrite Hids', Hids, map_app, app_assoc.
      * apply NoDup_app; [apply seq_NoDup | exact Hnd |].
        intros i Hi Hi'. apply in_seq in Hi. apply Hin in Hi'. lia.
      * intros i Hi. apply in_app_or in Hi. destruct Hi as [Hi | Hi].
        -- apply in_seq in Hi. lia.
        -- apply Hin in Hi. lia.
Qed.

Lemma drawn_id_inj (i j : nat) :
  drawn_id env i = drawn_id env j -> uuid4_hex8 env i = uuid4_hex8 env j.
Proof. unfold drawn_id. simpl. intros H. now inversion H. Qed.

Lemma NoDup_map_on {A B : Type} (g : A -> B) (l : list A) :
  NoDup l ->
  (forall x y, In x l -> In y l -> g x = g y -> x = y) ->
  NoDup (map g l).
Proof.
  induction 1 as [|x l Hx Hl IH]; intros Hinj; simpl; constructor.
  - intros Hin. apply in_map_iff in Hin. destruct Hin as [y [Hy Hin]].
    assert (y = x) by (apply Hinj; simpl; auto). subst y. contradiction.
  - apply IH. intros a b Ha Hb. apply Hinj; simpl; auto.
Qed.

(** C1, as amended: the ids of the stored knowledge base stay pairwise
    distinct over any sequence of ingestion runs provided the ids drawn during
    those runs differ from the ids stored at the start and from one another;
    the code draws them at random and compares them with nothing. *)
Theorem ids_distinct_when_draws_fresh (batches : list (list string)) (st : Store) :
  NoDup (ids (stored_documents st)) ->
  fresh_draws env st (List.length (concat batches)) ->
  NoDup (ids (stored_documents (ingestion_runs env batches st))).
Proof.
  intros Hnd [Hnew Hdistinct].
  destruct (ingestion_runs_ids batches st) as [drawn [Hids [Hd [Hin [_ Hhi]]]]].
  destruct Hids as [Hcut | Hids].
  { unfold stored_documents. rewrite Hcut. constructor. }
  rewrite Hids. apply NoDup_app; [exact Hnd | |].
  - apply NoDup_map_on; [exact Hd|].
    intros i j Hi Hj E. apply drawn_id_inj in E.
    apply Hin in Hi. apply Hin in Hj.
    destruct (Nat.lt_trichotomy i j) as [Hlt | [Heq | Hgt]]; [|exact Heq|].
    + exfalso. apply (Hdistinct i j); [lia | lia | exact E].
    + exfalso. apply (Hdistinct j i); [lia | lia | now symmetry].
  - intros s Hs Hs'. apply in_map_iff in Hs'. destruct Hs' as [i [<- Hi]].
    apply Hin in Hi. apply (Hnew i); [lia | exact Hs].
Qed.

End Ids.

(** C1 does not hold as stated: with the mock backend and two draws that
    give the same eight characters, one run over two new files stores two
    records with the same id. *)
Lemma ids_not_distinct_counterexample :
  let env := scenario (fun _ => None) (fun _ => "1a2b3c4d") in
  let st' := fst (process_documents env ["a.txt"; "b.txt"] initial_store) in
  NoDup (ids (stored_documents initial_store))
  /\ ids (stored_documents st') = ["doc_1a2b3c4d"; "doc_1a2b3c4d"]
  /\ ~ NoDup (ids (stored_documents st')).
Proof.
  cbv zeta.
  assert (E : ids (stored_documents
                     (fst (process_documents (scenario (fun _ => None) (fun _ => "1a2b3c4d"))
                             ["a.txt"; "b.txt"] initial_store)))
              = ["doc_1a2b3c4d"; "doc_1a2b3c4d"]) by (vm_compute; reflexivity).
  split; [constructor|]. split; [exact E|].
  rewrite E. intros H. inversion H as [|x l Hx _]. apply Hx. now left.
Qed.

(** ** Failures inside a batch *)

(** A file the parser refuses is skipped: the list and the store are as
    before, and the batch goes on with the next file. *)
Lemma process_file_parse_failure (env : Env) (docs : list DocumentRecord)
  (name : string) (e : exn) (st : Store) :
  parse env (path_join input_dir name) = Raise e ->
  process_file env docs name st = (st, Ok docs).
Proof.
  intros H. unfold process_file. rewrite H. now destruct (existsb _ docs).
Qed.

(** Without a completion the classifier answers with the sentinel. *)
Lemma classify_no_completion (env : Env) (text name : string) (st : Store) :
  completion env (generate_calls st) = None ->
  classify env text name st = (tick_generate st, Ok unclassified).
Proof.
  intros H. unfold classify. rewrite bind_run. unfold generate_text. now rewrite H.
Qed.

(** C2, at inputs where the code departs from it.  First batch: the
    extraction reply for a.txt is the complete JSON text of an object without
    the expected keys; [extract] raises [KeyError], nothing catches it, and the
    run ends before b.txt is looked at and before the knowledge base is
    written.  Second batch: the classification reply for a.txt can only be
    read by the recovery step and yields an object without [level1]; the
    validity check of the loop raises [KeyError] with the same effect. *)
Theorem incomplete_reply_aborts_batch :
  let run1 :=
    process_documents (scenario (nth_completion [None; Some "{}"]) (fun _ => "1a2b3c4d"))
      ["a.txt"; "b.txt"] initial_store in
  let run2 :=
    process_documents (scenario (nth_completion [Some "x{}"; None]) (fun _ => "1a2b3c4d"))
      ["a.txt"; "b.txt"] initial_store in
  (snd run1 = Raise KeyError
   /\ kb_json (fst run1) = Absent
   /\ generate_calls (fst run1) = 2
   /\ last_processed (session_status (memory (fst run1))) = EmptyString)
  /\ (snd run2 = Raise KeyError
      /\ kb_json (fst run2) = Absent
      /\ generate_calls (fst run2) = 2
      /\ last_processed (session_status (memory (fst run2))) = EmptyString).
Proof. vm_compute. repeat split. Qed.

(** The same batch with a backend that gives no completion at all goes
    through: both files are stored, with the sentinels. *)
Lemma mock_backend_batch_completes :
  let run :=
    process_documents (scenario (fun _ => None) (fun k => if (k =? 0)%nat then "1a2b3c4d" else "5e6f7a8b"))
      ["a.txt"; "b.txt"] initial_store in
  snd run = Ok tt
  /\ map filename (stored_documents (fst run)) = ["a.txt"; "b.txt"]
  /\ map category (stored_documents (fst run)) = [unclassified; unclassified]
  /\ map core_ideas (stored_documents (fst run))
     = [JArr [JStr no_core_ideas]; JArr [JStr no_core_ideas]]
  /\ extract_calls (fst run) = 6.
Proof. vm_compute. repeat split. Qed.

(** ** The preference snapshot of the knowledge base *)

(** C5, as amended: a run that finds files and completes writes a knowledge
    base whose [user_preferences] is, when no knowledge base was stored
    before, the manager's preferences at the end of the run, and otherwise the
    snapshot it loaded, unchanged. *)
Theorem persisted_snapshot (env : Env) (files : list string) (st st' : Store) :
  files <> [] ->
  process_documents env files st = (st', Ok tt) ->
  exists kb',
    kb_json st' = Holds kb'
    /\ match kb_json st with
       | Absent => kb_user_preferences kb' = user_preferences (memory st')
       | Holds kb => kb_user_preferences kb' = reload_preferences (kb_user_preferences kb)
       | CutOff => False
       end.
Proof.
  intros Hne H. apply process_documents_run in H.
  destruct H as [(_ & _ & C) | (m & _ & H)]; [discriminate|].
  destruct H as [(_ & _ & C) | (kb_file & Hk & H)]; [discriminate|].
  destruct H as [(C & _) | (_ & st1 & r1 & _ & H)]; [contradiction|].
  destruct r1 as [docs|e]; [|destruct H as [_ C]; discriminate].
  destruct H as [(_ & -> & _) | (_ & _ & C)]; [|discriminate].
  eexists. split; [reflexivity|].
  cbn [kb_user_preferences memory set_kb_json tick_dump].
  unfold load_knowledge_base in Hk.
  destruct (kb_json st) as [|kb|]; inversion Hk; reflexivity.
Qed.

(** C5 does not hold as stated: starting from a stored knowledge base, a run
    whose classification registers a new level2/level3 pair leaves the stored
    snapshot as it was, while the Preference Store (in memory and in
    memory.json) has the new pair. *)
Lemma stale_snapshot_counterexample :
  let env :=
    scenario (nth_completion [Some (category_text (q "Tech") (q "AI") (q "ML"))])
             (fun _ => "1a2b3c4d") in
  let run := process_documents env ["a.txt"] (set_kb_json (Holds empty_kb) initial_store) in
  snd run = Ok tt
  /\ option_map preferred_level3 (stored_preferences (fst run)) = Some []
  /\ preferred_level3 (user_preferences (memory (fst run))) = [(KStr "AI", [JStr "ML"])]
  /\ memory_json (fst run) = Holds (memory (fst run))
  /\ stored_preferences (fst run) <> Some (user_preferences (memory (fst run))).
Proof.
  cbv zeta.
  set (run := process_documents _ _ _).
  assert (E1 : snd run = Ok tt) by (vm_compute; reflexivity).
  assert (E2 : option_map preferred_level3 (stored_preferences (fst run)) = Some [])
    by (vm_compute; reflexivity).
  assert (E3 : preferred_level3 (user_preferences (memory (fst run)))
               = [(KStr "AI", [JStr "ML"])]) by (vm_compute; reflexivity).
  split; [exact E1|]. split; [exact E2|]. split; [exact E3|].
  split; [vm_compute; reflexivity|].
  intros C. rewrite C in E2. cbn [option_map] in E2. rewrite E3 in E2. discriminate.
Qed.

(** ** The preferred_level3 dict *)

Lemma key_eqb_refl (a : pykey) : key_eqb a a = true.
Proof.
  destruct a; simpl; auto using Z.eqb_refl, String.eqb_refl. now destruct b.
Qed.

Lemma key_eqb_sym (a b : pykey) : key_eqb a b = key_eqb b a.
Proof.
  destruct a, b; simpl; auto using Z.eqb_sym, String.eqb_sym.
  now destruct b, b0.
Qed.

Lemma key_eqb_trans (a b c : pykey) :
  key_eqb a b = true -> key_eqb b c = true -> key_eqb a c = true.
Proof.
  destruct a, b, c; simpl; try discriminate; auto;
    rewrite ?Z.eqb_eq, ?String.eqb_eq, ?Bool.eqb_true_iff; intros; subst; auto.
  all: try (destruct b, b0; simpl in *; congruence).
  all: try (destruct b, b1; simpl in *; congruence).
  all: try (destruct b0, b1; simpl in *; congruence).
  all: try (destruct b; simpl in *; congruence).
Qed.

Lemma level3_under_ensure (k' k : pykey) (d : Level3Map) :
  level3_under k' (ensure_key k d) = level3_under k' d.
Proof.
  unfold ensure_key. destruct (pl3_mem k d); [reflexivity|].
  unfold level3_under. induction d as [|[k0 l] d IH]; simpl.
  - now destruct (key_eqb k' k).
  - destruct (key_eqb k' k0); [reflexivity | exact IH].
Qed.

Lemma pl3_get_ensure (k : pykey) (d : Level3Map) :
  pl3_get k (ensure_key k d) = Some (level3_under k d).
Proof.
  unfold ensure_key, pl3_mem, level3_under.
  destruct (pl3_get k d) as [l|] eqn:H; [exact H|].
  induction d as [|[k0 l] d IH]; simpl in *.
  - now rewrite key_eqb_refl.
  - destruct (key_eqb k k0); [discriminate | now apply IH].
Qed.

(** Appending under [k] extends the list seen under [k'] by the new value
    when both name the same slot, and leaves it alone otherwise. *)
Lemma level3_under_append (k' k : pykey) (v : json) (d : Level3Map) :
  level3_under k' (pl3_append k v d) = level3_under k' d
  \/ (level3_under k' (pl3_append k v d) = level3_under k' d ++ [v]
      /\ key_eqb k' k = true
      /\ pl3_get k d = Some (level3_under k' d)).
Proof.
  unfold level3_under. induction d as [|[k0 l] d IH]; simpl; [now left|].
  destruct (key_eqb k k0) eqn:Hk; simpl.
  - destruct (key_eqb k' k0) eqn:Hk'; [|now left].
    right. split; [reflexivity|]. split; [|reflexivity].
    apply key_eqb_trans with k0; [exact Hk'|]. now rewrite key_eqb_sym.
  - destruct (key_eqb k' k0) eqn:Hk'; [now left | exact IH].
Qed.

(** Lines 213-216: under every key the list keeps what it had, in order,
    and gains at most the new value, which then was not there before and sits
    under a key naming the same slot. *)
Lemma register_extends (k' k : pykey) (v : json) (d : Level3Map) :
  level3_under k' (register k v d) = level3_under k' d
  \/ (level3_under k' (register k v d) = level3_under k' d ++ [v]
      /\ key_eqb k' k = true
      /\ existsb (fun e => py_eqb e v) (level3_under k' d) = false).
Proof.
  unfold register, add_once. rewrite pl3_get_ensure.
  destruct (existsb (fun e => py_eqb e v) (level3_under k d)) eqn:Hseen.
  - left. apply level3_under_ensure.
  - destruct (level3_under_append k' k v (ensure_key k d)) as [H | [H [Hk Hget]]].
    + left. now rewrite H, level3_under_ensure.
    + right. rewrite H, level3_under_ensure. split; [reflexivity|]. split; [exact Hk|].
      rewrite pl3_get_ensure, level3_under_ensure in Hget. injection Hget as E.
      now rewrite <- E.
Qed.

Lemma register_grows (k' k : pykey) (v x : json) (d : Level3Map) :
  In x (level3_under k' d) -> In x (level3_under k' (register k v d)).
Proof.
  intros H. destruct (register_extends k' k v d) as [E | [E _]]; rewrite E; auto.
  apply in_or_app. now left.
Qed.

(** *** Reloading *)

Lemma dict_set_absent {V : Type} (k : string) (v : V) (d : list (string * V)) :
  ~ In k (map fst d) -> dict_set k v d = d ++ [(k, v)].
Proof.
  induction d as [|[k0 v0] d IH]; simpl; [reflexivity|].
  intros H. destruct (String.eqb_spec k k0) as [Heq|Hne]; [symmetry in Heq; tauto|].
  rewrite IH; [reflexivity | tauto].
Qed.

Lemma dict_set_keys {V : Type} (k : string) (v : V) (d : list (string * V)) :
  map fst (dict_set k v d)
  = if in_dec string_dec k (map fst d) then map fst d else map fst d ++ [k].
Proof.
  induction d as [|[k0 v0] d IH]; simpl; [reflexivity|].
  destruct (String.eqb_spec k k0) as [Heq|Hne]; simpl.
  - subst k0. destruct (string_dec k k); [reflexivity | congruence].
  - rewrite IH. destruct (string_dec k0 k) as [E|N]; [congruence|].
    now destruct (in_dec string_dec k (map fst d)).
Qed.

Lemma dict_set_NoDup {V : Type} (k : string) (v : V) (d : list (string * V)) :
  NoDup (map fst d) -> NoDup (map fst (dict_set k v d)).
Proof.
  intros H. rewrite dict_set_keys.
  destruct (in_dec string_dec k (map fst d)) as [Hin|Hout]; [exact H|].
  apply NoDup_app; [exact H | repeat constructor; intros [] |].
  intros a Ha [<-|[]]. contradiction.
Qed.

Lemma fold_set_NoDup (d : Level3Map) (acc : list (string * list json)) :
  NoDup (map fst acc) -> NoDup (map fst (fold_left set_pair d acc)).
Proof.
  revert acc. induction d as [|kv d IH]; intros acc H; simpl; [exact H|].
  apply IH. now apply dict_set_NoDup.
Qed.

Lemma text_keyed_reload (d : Level3Map) : text_keyed (reload_level3 d).
Proof.
  unfold reload_level3, text_keyed. fold set_pair.
  pose proof (@fold_set_NoDup d [] (NoDup_nil _)) as H.
  set (l := fold_left set_pair d []) in *. split.
  - rewrite map_map. cbn [fst].
    rewrite <- (map_map fst KStr). apply NoDup_map_on; [exact H|].
    intros x y _ _ E. now inversion E.
  - apply Forall_forall. intros kv Hin. apply in_map_iff in Hin.
    destruct Hin as [[s v] [<- _]]. now exists s.
Qed.

Lemma fold_set_text_keyed (d : Level3Map) (acc : list (string * list json)) :
  Forall (fun kv => exists s, fst kv = KStr s) d ->
  NoDup (map fst acc ++ map (fun kv => key_text (fst kv)) d) ->
  map (fun kv => (KStr (fst kv), snd kv)) (fold_left set_pair d acc)
  = map (fun kv => (KStr (fst kv), snd kv)) acc ++ d.
Proof.
  revert acc. induction d as [|[k v] d IH]; intros acc Hk Hnd; simpl.
  - now rewrite app_nil_r.
  - inversion Hk as [|? ? [s Hs] Hk']; subst. simpl in Hs. subst k.
    unfold set_pair at 2. cbn [fst snd key_text].
    simpl in Hnd. rewrite dict_set_absent.
    + rewrite IH; [|exact Hk'|].
      * rewrite map_app. simpl. now rewrite <- app_assoc.
      * rewrite map_app. simpl. now rewrite <- app_assoc.
    + intros Hin. apply NoDup_remove_2 in Hnd. apply Hnd.
      apply in_or_app. now left.
Qed.

Lemma reload_text_keyed (d : Level3Map) : text_keyed d -> reload_level3 d = d.
Proof.
  intros [Hnd Hk]. unfold reload_level3. fold set_pair.
  rewrite fold_set_text_keyed; [reflexivity | exact Hk |].
  simpl. clear - Hnd Hk.
  induction d as [|[k v] d IH]; simpl in *; [constructor|].
  inversion Hnd as [|? ? Hout Hnd']; inversion Hk as [|? ? [s Hs] Hk']; subst.
  simpl in Hs. subst k. constructor; [|now apply IH].
  intros Hin. apply Hout. apply in_map_iff in Hin. destruct Hin as [[k' v'] [E Hin]].
  apply in_map_iff. exists (k', v'). split; [|exact Hin].
  pose proof (proj1 (Forall_forall _ _) Hk' _ Hin) as [s' Hs'].
  simpl in *. subst k'. simpl in E. now subst.
Qed.

Lemma reload_memory_text_keyed (m : MemoryData) :
  text_keyed (preferred_level3 (user_preferences m)) -> reload_memory m = m.
Proof.
  destruct m as [[h d] s]. simpl. intros H. unfold reload_memory, reload_preferences.
  simpl. now rewrite reload_text_keyed.
Qed.

Lemma pl3_get_none_absent (k : pykey) (d : Level3Map) :
  pl3_get k d = None -> ~ In k (map fst d).
Proof.
  induction d as [|[k0 l] d IH]; cbn [pl3_get map fst In]; [tauto|].
  destruct (key_eqb k k0) eqn:E; [discriminate|].
  intros H [->|Hin]; [now rewrite key_eqb_refl in E | now apply IH].
Qed.

Lemma text_keyed_register (t : string) (v : json) (d : Level3Map) :
  text_keyed d -> text_keyed (register (KStr t) v d).
Proof.
  intros Hd.
  assert (He : text_keyed (ensure_key (KStr t) d)).
  { unfold ensure_key, pl3_mem. destruct (pl3_get (KStr t) d) eqn:Hget; [exact Hd|].
    destruct Hd as [Hnd Hk]. split.
    - rewrite map_app. apply NoDup_app; [exact Hnd | repeat constructor; intros [] |].
      intros a Ha [<-|[]]. now apply (pl3_get_none_absent _ _ Hget).
    - apply Forall_app. split; [exact Hk|]. repeat constructor. now exists t. }
  unfold register, add_once.
  destruct (pl3_get (KStr t) (ensure_key (KStr t) d)); [|exact He].
  destruct (existsb _ l); [exact He|].
  clear - He. revert He. generalize (ensure_key (KStr t) d). clear d.
  intros d [Hnd Hk].
  assert (Hkeys : map fst (pl3_append (KStr t) v d) = map fst d).
  { clear. induction d as [|[k0 l0] d IH]; cbn [pl3_append map fst]; [reflexivity|].
    destruct (key_eqb (KStr t) k0); cbn [map fst]; [reflexivity | now rewrite IH]. }
  split; [now rewrite Hkeys|].
  clear - Hk. induction d as [|[k0 l0] d IH]; cbn [pl3_append]; [constructor|].
  inversion Hk; subst. destruct (key_eqb (KStr t) k0); constructor; auto.
Qed.

(** *** What a classification does to the Preference Store *)

Lemma add_once_ensure (k : pykey) (v : json) (d : Level3Map) :
  add_once k v (ensure_key k d) = Ok (register k v d).
Proof.
  unfold register. unfold add_once at 1 2. rewrite pl3_get_ensure.
  now destruct (existsb _ _).
Qed.

(** Lines 213-217 on an object with a hashable level2: the level3 is
    registered in the manager, and the save goes through or breaks off. *)
Lemma register_level3_run (env : Env) (c l2 l3 : json) (k : pykey) (st : Store) :
  py_getitem c (JStr "level2") = Ok l2 ->
  as_key l2 = Ok k ->
  py_getitem c (JStr "level3") = Ok l3 ->
  exists st' r,
    register_level3 env c st = (st', r)
    /\ live_level3 st' = register k l3 (live_level3 st)
    /\ session_status (memory st') = session_status (memory st)
    /\ dumps st' = S (dumps st)
    /\ ((dump_breaks env (dumps st) = false
         /\ r = Ok tt /\ memory_json st' = Holds (memory st'))
        \/ (dump_breaks env (dumps st) = true
            /\ r = Raise UnicodeEncodeError /\ memory_json st' = CutOff)).
Proof.
  intros H2 Hk H3. unfold register_level3.
  rewrite bind_run. unfold lift at 1. rewrite H2.
  rewrite bind_run. unfold lift at 1. rewrite Hk.
  rewrite bind_run. cbn [modify].
  rewrite bind_run. unfold lift at 1. rewrite H3.
  rewrite bind_run. cbn [gets].
  rewrite bind_run. unfold lift at 1.
  replace (live_level3 (set_level3 (ensure_key k (live_level3 st)) st))
    with (ensure_key k (live_level3 st)) by reflexivity.
  rewrite add_once_ensure.
  rewrite bind_run. cbn [modify]. rewrite bind_run. cbn [gets].
  unfold update_preferences. rewrite bind_run. cbn [modify].
  unfold save_memory. cbn [dumps set_memory set_level3].
  destruct (dump_breaks env (dumps st)) eqn:Hb.
  - do 2 eexists. split; [reflexivity|]. repeat split. right. repeat split.
  - do 2 eexists. split; [reflexivity|]. repeat split. left. repeat split.
Qed.

Lemma register_level3_unhashable (env : Env) (c l2 : json) (e : exn) (st : Store) :
  py_getitem c (JStr "level2") = Ok l2 ->
  as_key l2 = Raise e ->
  register_level3 env c st = (st, Raise e).
Proof.
  intros H2 Hk. unfold register_level3.
  rewrite bind_run. unfold lift at 1. rewrite H2.
  rewrite bind_run. unfold lift at 1. now rewrite Hk.
Qed.

(** Either the classification leaves the manager and memory.json alone, or
    the reply parsed directly into an object that passed validation, and its
    level3 was registered under its level2; the save then went through and the
    object is returned, or it broke off, memory.json is cut off and the
    sentinel is returned. *)
Lemma classify_effect (env : Env) (text name : string) (st : Store) :
  let st' := fst (classify env text name st) in
  (memory st' = memory st /\ memory_json st' = memory_json st /\ dumps st' = dumps st)
  \/ exists s c l2 l3 k,
       completion env (generate_calls st) = Some s
       /\ json_loads env (clean_response s) = Ok c
       /\ py_getitem c (JStr "level2") = Ok l2
       /\ as_key l2 = Ok k
       /\ py_getitem c (JStr "level3") = Ok l3
       /\ live_level3 st' = register k l3 (live_level3 st)
       /\ session_status (memory st') = session_status (memory st)
       /\ dumps st' = S (dumps st)
       /\ ((dump_breaks env (dumps st) = false
            /\ snd (classify env text name st) = Ok c
            /\ memory_json st' = Holds (memory st'))
           \/ (dump_breaks env (dumps st) = true
               /\ snd (classify env text name st) = Ok unclassified
               /\ memory_json st' = CutOff)).
Proof.
  cbv zeta. destruct (classify env text name st) as [st' r] eqn:Hrun. cbn [fst snd].
  unfold classify in Hrun. rewrite bind_run in Hrun. unfold generate_text at 1 in Hrun.
  destruct (completion env (generate_calls st)) as [s|] eqn:Hs;
    [|inversion Hrun; left; now repeat split].
  destruct (String.eqb s EmptyString); [inversion Hrun; left; now repeat split|].
  destruct (json_loads env (clean_response s)) as [c|e] eqn:Hc.
  - unfold try_except in Hrun. rewrite bind_run in Hrun. unfold lift at 1 in Hrun.
    destruct (check_required required_keys c) as [[]|e] eqn:Hcheck;
      [|inversion Hrun; left; now repeat split].
    destruct (check_required_validated _ Hcheck) as [_ [_ [[l2 [H2 _]] [l3 [H3 _]]]]].
    rewrite bind_run in Hrun.
    destruct (as_key l2) as [k|e] eqn:Hk.
    + destruct (register_level3_run env c (tick_generate st) H2 Hk H3)
        as (st1 & r1 & Hreg & Hlive & Hsess & Hd & Hsave).
      rewrite Hreg in Hrun. right. exists s, c, l2, l3, k.
      cbn [dumps tick_generate] in Hd, Hsave.
      destruct Hsave as [(Hb & -> & Hj) | (Hb & -> & Hj)];
        cbn [ret] in Hrun; inversion Hrun; subst st' r;
        do 8 (split; [first [reflexivity | assumption]|]).
      * left. now repeat split.
      * right. now repeat split.
    + rewrite (register_level3_unhashable env c (tick_generate st) H2 Hk) in Hrun.
      cbn [ret] in Hrun. inversion Hrun. left. now repeat split.
  - destruct e; try (inversion Hrun; left; now repeat split).
    destruct (search_flat_object (clean_response s)) as [frag|];
      [|inversion Hrun; left; now repeat split].
    destruct (json_loads env frag); inversion Hrun; left; now repeat split.
Qed.

Section Steps.

Variable R : Store -> Store -> Prop.
Hypothesis R_refl : forall st, R st st.
Hypothesis R_trans : forall a b c, R a b -> R b c -> R a c.

Lemma steps_ret {A : Type} (a : A) : steps R (ret a).
Proof. intros st. apply R_refl. Qed.

Lemma steps_raise {A : Type} (e : exn) : steps R (@raise A e).
Proof. intros st. apply R_refl. Qed.

Lemma steps_lift {A : Type} (r : result A) : steps R (lift r).
Proof. intros st. apply R_refl. Qed.

Lemma steps_bind {A B : Type} (m : M A) (k : A -> M B) :
  steps R m -> (forall a, steps R (k a)) -> steps R (bind m k).
Proof.
  intros Hm Hk st. rewrite bind_run. specialize (Hm st).
  destruct (m st) as [st1 [a|e]]; cbn [fst] in *.
  - apply R_trans with st1; [exact Hm | apply Hk].
  - exact Hm.
Qed.

End Steps.

(** *** The lists only grow *)

Section Monotone.

Variable env : Env.
Hypothesis level2_is_text : textual_level2 env.

Lemma keeps_growing_refl (st : Store) : keeps_growing st st.
Proof. intros H. split; [exact H | now intros k x]. Qed.

Lemma keeps_growing_trans (a b c : Store) :
  keeps_growing a b -> keeps_growing b c -> keeps_growing a c.
Proof.
  intros Hab Hbc Ha. destruct (Hab Ha) as [Hb G1]. destruct (Hbc Hb) as [Hc G2].
  split; [exact Hc|]. intros k x Hx. apply G2, G1, Hx.
Qed.

Lemma keeps_growing_same (st st' : Store) :
  memory st' = memory st -> memory_json st' = memory_json st -> keeps_growing st st'.
Proof.
  intros Hm Hj [Hkeys Hload]. split; [split|].
  - unfold live_level3 in *. now rewrite Hm.
  - unfold load_memory in *. now rewrite Hj, Hm.
  - intros k x. unfold live_level3. now rewrite Hm.
Qed.

Lemma steps_untouched {A : Type} (m : M A) :
  keeps (fun st => (memory st, memory_json st)) m -> steps keeps_growing m.
Proof.
  intros K st. specialize (K st). cbv beta in K. injection K as Hm Hj.
  now apply keeps_growing_same.
Qed.

Lemma in_step_saved (st : Store) :
  text_keyed (live_level3 st) -> memory_json st = Holds (memory st) -> in_step st.
Proof.
  intros Hk Hj. split; [exact Hk|]. right. unfold load_memory. rewrite Hj.
  f_equal. now apply reload_memory_text_keyed.
Qed.

Lemma classify_keeps_growing (text name : string) :
  steps keeps_growing (classify env text name).
Proof.
  intros st. destruct (classify_effect env text name st)
    as [(Hm & Hj & _)
       | (s & c & l2 & l3 & k & Hs & Hc & H2 & Hk & _ & Hlive & _ & _ & Hsave)].
  - now apply keeps_growing_same.
  - destruct (level2_is_text _ Hs Hc H2) as [t ->]. simpl in Hk.
    injection Hk as <-. intros [Hkeys _].
    assert (Hkeys' : text_keyed (live_level3 (fst (classify env text name st)))).
    { rewrite Hlive. now apply text_keyed_register. }
    split.
    + destruct Hsave as [(_ & _ & Hj) | (_ & _ & Hj)].
      * now apply in_step_saved.
      * split; [exact Hkeys' | now left].
    + intros k x Hx. rewrite Hlive. now apply register_grows.
Qed.

Lemma update_session_keeps_growing (name : string) :
  steps keeps_growing (update_session env name).
Proof.
  intros st [Hkeys _]. unfold update_session. rewrite bind_run. cbn [modify].
  unfold save_memory. cbn [dumps set_memory].
  destruct (dump_breaks env (dumps st)); cbn [fst]; split.
  - split; [exact Hkeys | now left].
  - now intros k x.
  - apply in_step_saved; [exact Hkeys | reflexivity].
  - now intros k x.
Qed.

Lemma process_file_keeps_growing (docs : list DocumentRecord) (name : string) :
  steps keeps_growing (process_file env docs name).
Proof.
  pose proof keeps_growing_refl as Rr. pose proof keeps_growing_trans as Rt.
  unfold process_file.
  destruct (existsb _ docs); [now apply steps_ret|].
  destruct (parse env _) as [text|e]; [|now apply steps_ret].
  apply steps_bind; [exact Rt | apply classify_keeps_growing | intro cat].
  apply steps_bind; [exact Rt | | intro looped].
  { apply steps_untouched. unfold extraction_with_retries.
    now apply extraction_loop_keeps. }
  do 3 (apply steps_bind; [exact Rt | now apply steps_lift | intro]).
  apply steps_bind; [exact Rt | | intro new_id].
  { apply steps_untouched. now intros st. }
  destruct (fst looped); [|now apply steps_raise].
  apply steps_bind; [exact Rt | | intro stamp].
  { apply steps_untouched. now intros st. }
  apply steps_bind; [exact Rt | apply update_session_keeps_growing | intro].
  now apply steps_ret.
Qed.

Lemma process_files_keeps_growing (files : list string) (docs : list DocumentRecord) :
  steps keeps_growing (process_files env files docs).
Proof.
  revert docs. induction files as [|name files IH]; intros docs; cbn [process_files].
  - apply steps_ret. apply keeps_growing_refl.
  - apply steps_bind; [apply keeps_growing_trans | apply process_file_keeps_growing | auto].
Qed.

Lemma in_step_fresh_manager (st : Store) (m : MemoryData) :
  load_memory st = Ok m -> in_step (set_memory m st).
Proof.
  intros Hm. split; [|right; exact Hm].
  unfold live_level3, load_memory in *. cbn [memory set_memory].
  destruct (memory_json st) as [|m0|]; inversion Hm.
  - split; constructor.
  - apply text_keyed_reload.
Qed.

(** Over one ingestion run, what a freshly opened Preference Store holds
    under any key only grows, unless memory.json ends cut off. *)
Lemma process_documents_grows (files : list string) (st : Store) (K : pykey)
  (before : list json) :
  stored_level3 st K = Ok before ->
  let st' := fst (process_documents env files st) in
  memory_json st' = CutOff
  \/ exists after,
       stored_level3 st' K = Ok after /\ forall x, In x before -> In x after.
Proof.
  intros Hbefore. cbv zeta.
  destruct (process_documents env files st) as [st' r] eqn:Hrun. cbn [fst].
  apply process_documents_run in Hrun.
  unfold stored_level3 in Hbefore.
  destruct Hrun as [(Hcut & _) | (m & Hm & Hrun)].
  { unfold load_memory in Hbefore. rewrite Hcut in Hbefore. discriminate. }
  rewrite Hm in Hbefore. cbn [rbind] in Hbefore. injection Hbefore as <-.
  pose proof (in_step_fresh_manager st Hm) as H0.
  assert (Hend : forall st1,
             in_step st1 -> grows (set_memory m st) st1 ->
             memory_json st1 = CutOff
             \/ exists after,
                  stored_level3 st1 K = Ok after
                  /\ forall x, In x (level3_under K (preferred_level3 (user_preferences m))) ->
                               In x after).
  { intros st1 [_ [Hcut | Hload]] Hg; [now left | right].
    exists (level3_under K (live_level3 st1)). split.
    - unfold stored_level3. rewrite Hload. reflexivity.
    - intros x Hx. now apply Hg. }
  assert (Hhere : grows (set_memory m st) (set_memory m st)) by (now intros k x).
  destruct Hrun as [(_ & -> & _) | (kb_file & _ & Hrun)]; [now apply Hend|].
  destruct Hrun as [(_ & -> & _) | (_ & st1 & r1 & H1 & Hrun)]; [now apply Hend|].
  pose proof (@process_files_keeps_growing files (stored_documents st) (set_memory m st) H0)
    as [Hstep Hg].
  rewrite H1 in Hstep, Hg. cbn [fst] in Hstep, Hg.
  destruct r1 as [docs|e].
  - destruct (Hend st1 Hstep Hg) as [Hcut | (after & Ha & Hin)];
      destruct Hrun as [(_ & -> & _) | (_ & -> & _)];
      solve [ left; exact Hcut | right; exists after; split; [exact Ha | exact Hin] ].
  - destruct Hrun as [-> _]. now apply Hend.
Qed.

End Monotone.

(** *** memory.json is cut off only by a dump that breaks *)

Section Breaks.

Variable env : Env.

Lemma cut_by_break_refl (st : Store) : cut_by_break env st st.
Proof. split; [lia | now left]. Qed.

Lemma cut_by_break_trans (a b c : Store) :
  cut_by_break env a b -> cut_by_break env b c -> cut_by_break env a c.
Proof.
  intros [Hab Cab] [Hbc Cbc]. split; [lia|]. intros Hc.
  destruct (Cbc Hc) as [Hb | (k & Hk & Hbr)].
  - destruct (Cab Hb) as [Ha | (k & Hk & Hbr)]; [now left | right].
    exists k. split; [lia | exact Hbr].
  - right. exists k. split; [lia | exact Hbr].
Qed.

Lemma cut_by_break_same (st st' : Store) :
  memory_json st' = memory_json st -> dumps st <= dumps st' -> cut_by_break env st st'.
Proof. intros Hj Hd. split; [exact Hd|]. rewrite Hj. now left. Qed.

Lemma steps_unsaved {A : Type} (m : M A) :
  keeps (fun st => (memory_json st, dumps st)) m -> steps (cut_by_break env) m.
Proof.
  intros K st. specialize (K st). cbv beta in K. injection K as Hj Hd.
  apply cut_by_break_same; [exact Hj | lia].
Qed.

Lemma save_memory_breaks : steps (cut_by_break env) (save_memory env).
Proof.
  intros st. unfold save_memory.
  destruct (dump_breaks env (dumps st)) eqn:Hb; cbn [fst]; split;
    cbn [dumps memory_json set_memory_json tick_dump]; try lia.
  - intros _. right. exists (dumps st).
    cbn [dumps set_memory_json tick_dump]. split; [lia | exact Hb].
  - discriminate.
Qed.

Lemma classify_breaks (text name : string) :
  steps (cut_by_break env) (classify env text name).
Proof.
  intros st. destruct (classify_effect env text name st)
    as [(_ & Hj & Hd) | (s & c & l2 & l3 & k & _ & _ & _ & _ & _ & _ & _ & Hd & Hsave)].
  - apply cut_by_break_same; [exact Hj | lia].
  - split; [lia|]. intros Hcut. right. exists (dumps st). split; [lia|].
    destruct Hsave as [(_ & _ & Hj) | (Hb & _)]; [congruence | exact Hb].
Qed.

Lemma update_session_breaks (name : string) :
  steps (cut_by_break env) (update_session env name).
Proof.
  unfold update_session.
  apply steps_bind; [apply cut_by_break_trans | | intro; apply save_memory_breaks].
  apply steps_unsaved. now intros st.
Qed.

Lemma process_file_breaks (docs : list DocumentRecord) (name : string) :
  steps (cut_by_break env) (process_file env docs name).
Proof.
  pose proof cut_by_break_refl as Rr. pose proof cut_by_break_trans as Rt.
  unfold process_file.
  destruct (existsb _ docs); [now apply steps_ret|].
  destruct (parse env _) as [text|e]; [|now apply steps_ret].
  apply steps_bind; [exact Rt | apply classify_breaks | intro cat].
  apply steps_bind; [exact Rt | | intro looped].
  { apply steps_unsaved. unfold extraction_with_retries.
    now apply extraction_loop_keeps. }
  do 3 (apply steps_bind; [exact Rt | now apply steps_lift | intro]).
  apply steps_bind; [exact Rt | | intro new_id].
  { apply steps_unsaved. now intros st. }
  destruct (fst looped); [|now apply steps_raise].
  apply steps_bind; [exact Rt | | intro stamp].
  { apply steps_unsaved. now intros st. }
  apply steps_bind; [exact Rt | apply update_session_breaks | intro].
  now apply steps_ret.
Qed.

Lemma process_files_breaks (files : list string) (docs : list DocumentRecord) :
  steps (cut_by_break env) (process_files env files docs).
Proof.
  revert docs. induction files as [|name files IH]; intros docs; cbn [process_files].
  - apply steps_ret. apply cut_by_break_refl.
  - apply steps_bind; [apply cut_by_break_trans | apply process_file_breaks | auto].
Qed.

Lemma process_documents_breaks (files : list string) :
  steps (cut_by_break env) (process_documents env files).
Proof.
  intros st. destruct (process_documents env files st) as [st' r] eqn:Hrun. cbn [fst].
  apply process_documents_run in Hrun.
  assert (Hhere : forall m, cut_by_break env st (set_memory m st))
    by (intros m; apply cut_by_break_same; [reflexivity | cbn; lia]).
  destruct Hrun as [(_ & -> & _) | (m & _ & Hrun)]; [apply cut_by_break_refl|].
  destruct Hrun as [(_ & -> & _) | (kb_file & _ & Hrun)]; [apply Hhere|].
  destruct Hrun as [(_ & -> & _) | (_ & st1 & r1 & H1 & Hrun)]; [apply Hhere|].
  pose proof (process_files_breaks files (stored_documents st) (set_memory m st)) as Hstep.
  rewrite H1 in Hstep. cbn [fst] in Hstep.
  assert (H01 : cut_by_break env st st1)
    by (apply cut_by_break_trans with (set_memory m st); [apply Hhere | exact Hstep]).
  destruct r1 as [docs|e]; [|destruct Hrun as [-> _]; exact H01].
  apply cut_by_break_trans with st1; [exact H01|].
  destruct Hrun as [(_ & -> & _) | (_ & -> & _)];
    (apply cut_by_break_same; [reflexivity | cbn; lia]).
Qed.

End Breaks.

(** C10, as amended.  (1) One classification never removes or reorders
    what the manager has recorded under a key: under every key the list is
    afterwards what it was, or what it was followed by the level3 of the
    directly parsed reply, and the latter only under a key naming the slot of
    its level2 and only if the value was not there; the object is then returned
    unless the save broke off.  (2) When every directly parsed level2 is a
    string, then over an ingestion run either memory.json ends cut off, or what
    a freshly opened Preference Store holds under any key includes what it held
    before the run; and memory.json ends cut off only if a dump of the run
    broke off. *)
Theorem level3_lists_grow (env : Env) :
  (forall text name st K,
     let run := classify env text name st in
     let before := level3_under K (live_level3 st) in
     let after := level3_under K (live_level3 (fst run)) in
     after = before
     \/ exists s c l2 l3 k,
          completion env (generate_calls st) = Some s
          /\ json_loads env (clean_response s) = Ok c
          /\ py_getitem c (JStr "level2") = Ok l2
          /\ as_key l2 = Ok k
          /\ key_eqb K k = true
          /\ py_getitem c (JStr "level3") = Ok l3
          /\ after = before ++ [l3]
          /\ existsb (fun e => py_eqb e l3) before = false
          /\ (snd run = Ok c
              \/ (snd run = Ok unclassified /\ memory_json (fst run) = CutOff)))
  /\ (textual_level2 env ->
      forall files st K before,
        stored_level3 st K = Ok before ->
        let st' := fst (process_documents env files st) in
        (memory_json st' = CutOff
         \/ exists after,
              stored_level3 st' K = Ok after /\ forall x, In x before -> In x after)
        /\ (memory_json st' = CutOff -> breaks_between env st st')).
Proof.
  split.
  - intros text name st K. cbv zeta.
    destruct (classify_effect env text name st)
      as [(Hm & _)
         | (s & c & l2 & l3 & k & Hs & Hc & H2 & Hk & H3 & Hlive & _ & _ & Hsave)].
    + left. unfold live_level3. now rewrite Hm.
    + rewrite Hlive.
      destruct (register_extends K k l3 (live_level3 st)) as [E | [E [HK Hnew]]].
      * now left.
      * right. exists s, c, l2, l3, k. repeat split; auto.
        destruct Hsave as [(_ & Hr & _) | (_ & Hr & Hj)]; [now left | right; now split].
  - intros Htext files st K before Hbefore. cbv zeta. split.
    + now apply process_documents_grows.
    + intros Hcut. destruct (process_documents_breaks env files st) as [_ Hc].
      destruct (Hc Hcut) as [Hcut0 | Hb]; [|exact Hb].
      unfold stored_level3, load_memory in Hbefore. rewrite Hcut0 in Hbefore. discriminate.
Qed.

(** C10 does not hold as stated.  Two runs whose classifications return the
    number 5 as level2: the first saves ["x"] under the key 5, which a reload
    reads back under the text "5"; the second finds no key 5 among the
    reloaded keys, adds one with ["y"], and saves both keys under the same text;
    a reload then gives ["y"] alone under "5". *)
Lemma level3_shrinks_counterexample :
  let env :=
    scenario
      (nth_completion
         [Some (category_text (q "Tech") "5" (q "x")); None; None; None;
          Some (category_text (q "Tech") "5" (q "y"))])
      (fun k => if (k =? 0)%nat then "1a2b3c4d" else "5e6f7a8b") in
  let after_run1 := fst (process_documents env ["a.txt"] initial_store) in
  let after_run2 := fst (process_documents env ["b.txt"] after_run1) in
  stored_level3 after_run1 (KStr "5") = Ok [JStr "x"]
  /\ preferred_level3 (user_preferences (memory after_run2))
     = [(KStr "5", [JStr "x"]); (KInt 5, [JStr "y"])]
  /\ stored_level3 after_run2 (KStr "5") = Ok [JStr "y"]
  /\ ~ (exists after,
          stored_level3 after_run2 (KStr "5") = Ok after
          /\ forall x, In x [JStr "x"] -> In x after).
Proof.
  cbv zeta.
  set (env := scenario _ _).
  set (st1 := fst (process_documents env ["a.txt"] initial_store)).
  set (st2 := fst (process_documents env ["b.txt"] st1)).
  assert (E1 : stored_level3 st1 (KStr "5") = Ok [JStr "x"]) by (vm_compute; reflexivity).
  assert (E2 : preferred_level3 (user_preferences (memory st2))
               = [(KStr "5", [JStr "x"]); (KInt 5, [JStr "y"])])
    by (vm_compute; reflexivity).
  assert (E3 : stored_level3 st2 (KStr "5") = Ok [JStr "y"]) by (vm_compute; reflexivity).
  split; [exact E1|]. split; [exact E2|]. split; [exact E3|].
  intros (after & Ha & Hin). rewrite E3 in Ha. injection Ha as <-.
  destruct (Hin (JStr "x")) as [C|[]]; [now left|]. discriminate.
Qed.

(** ** The theorems at concrete inputs *)

(** A search for python in the sample knowledge base: a keyword hit and a
    core-idea hit, in order, both reported. *)
Lemma keyword_search_results_witness :
  kb_json sample_store = Holds sample_kb
  /\ Forall well_typed_doc (documents sample_kb)
  /\ search_loop "keyword" "python" (documents sample_kb) [] = Ok (Some [ml_doc; tooling_doc])
  /\ exists entries,
       search_knowledge "keyword" "python" sample_store = Ok (Found 2 entries)
       /\ map entry_filename entries = ["ml.txt"; "py.txt"].
Proof.
  assert (Hwt : Forall well_typed_doc (documents sample_kb))
    by (repeat constructor).
  split; [reflexivity|]. split; [exact Hwt|].
  destruct (@keyword_search_results "python" sample_store sample_kb eq_refl Hwt)
    as (Hloop & _ & _ & _ & Hfound).
  split; [exact Hloop|].
  destruct Hfound as (entries & Hs & Hn & _).
  - discriminate.
  - repeat constructor;
      solve [ exists (JStr "Technology"), (JStr "Programming"), (JStr "General");
              repeat split
            | eexists; eexists; reflexivity ].
  - exists entries. split; [exact Hs | exact Hn].
Defined.

(** An unknown file name, and a stored Markdown file that the parser
    refuses. *)
Lemma reclassify_failure_witness :
  find_filename "missing.txt" (documents sample_kb) 0 = None
  /\ (find_filename "notes.md" (documents sample_kb) 0 = Some 1
      /\ nth_error (documents sample_kb) 1 = Some notes_doc
      /\ parse one_classification (path notes_doc) = Raise ValueError)
  /\ (exists failure,
        reclassify_document one_classification "missing.txt" sample_kb sample_store
        = (sample_store, Ok (failure, sample_kb))
        /\ (failure = NotFound \/ exists e, failure = ParsingFailed e))
  /\ (exists failure,
        reclassify_document one_classification "notes.md" sample_kb sample_store
        = (sample_store, Ok (failure, sample_kb))
        /\ (failure = NotFound \/ exists e, failure = ParsingFailed e)).
Proof.
  assert (H2 : find_filename "notes.md" (documents sample_kb) 0 = Some 1
               /\ nth_error (documents sample_kb) 1 = Some notes_doc
               /\ parse one_classification (path notes_doc) = Raise ValueError)
    by (repeat split; vm_compute; reflexivity).
  split; [reflexivity|]. split; [exact H2|]. split.
  - apply reclassify_failure_changes_nothing. left. reflexivity.
  - apply reclassify_failure_changes_nothing. right.
    exists 1, notes_doc, ValueError. exact H2.
Defined.

(** Reclassifying ml.txt with a backend that answers Tech / AI / ML. *)
Lemma reclassify_success_witness :
  let run := reclassify_document one_classification "ml.txt" sample_kb sample_store in
  let new_category :=
    JObj [("level1", JStr "Tech"); ("level2", JStr "AI"); ("level3", JStr "ML")] in
  let kb' :=
    {| documents :=
         [set_processed_time "2025-01-01 00:00:00" (set_category new_category ml_doc);
          notes_doc; tooling_doc];
       kb_user_preferences := kb_user_preferences sample_kb |} in
  run = (fst run, Ok (Reclassified new_category, kb'))
  /\ kb_json (fst run) = Holds kb'
  /\ extract_calls (fst run) = extract_calls sample_store
  /\ List.length (documents kb') = List.length (documents sample_kb).
Proof.
  cbv zeta.
  set (run := reclassify_document one_classification "ml.txt" sample_kb sample_store).
  set (c := JObj [("level1", JStr "Tech"); ("level2", JStr "AI"); ("level3", JStr "ML")]).
  set (kb' := {| documents := _; kb_user_preferences := _ |}).
  assert (Hrun : run = (fst run, Ok (Reclassified c, kb'))) by (vm_compute; reflexivity).
  split; [exact Hrun|].
  destruct (reclassify_success_frame one_classification "ml.txt" sample_kb sample_store Hrun)
    as (i & doc & doc' & _ & _ & _ & _ & _ & _ & _ & _ & _ & _ & _ & _ & _ & _ & Hlen & _ & Hkb & Hcalls).
  split; [exact Hkb|]. split; [exact Hcalls | exact Hlen].
Defined.

(** Two runs, three files seen, two of them new, with distinct draws. *)
Lemma ids_distinct_witness :
  let batches := [["a.txt"]; ["a.txt"; "b.txt"]] in
  NoDup (ids (stored_documents initial_store))
  /\ fresh_draws one_classification initial_store (List.length (concat batches))
  /\ NoDup (ids (stored_documents (ingestion_runs one_classification batches initial_store))).
Proof.
  cbv zeta.
  assert (H0 : NoDup (ids (stored_documents initial_store))) by constructor.
  assert (Hf : fresh_draws one_classification initial_store
                 (List.length (concat [["a.txt"]; ["a.txt"; "b.txt"]]))).
  { split.
    - intros i _ [].
    - intros i j Hij Hj. simpl in Hij, Hj.
      destruct i as [|[|[|i]]]; destruct j as [|[|[|j]]]; try lia;
        vm_compute; discriminate. }
  split; [exact H0|]. split; [exact Hf|].
  now apply ids_distinct_when_draws_fresh.
Defined.

(** A first run over one file: the snapshot written is the manager's
    preferences. *)
Lemma persisted_snapshot_witness :
  let run := process_documents one_classification ["a.txt"] initial_store in
  ["a.txt"] <> []
  /\ run = (fst run, Ok tt)
  /\ exists kb',
       kb_json (fst run) = Holds kb'
       /\ kb_user_preferences kb' = user_preferences (memory (fst run)).
Proof.
  cbv zeta.
  set (run := process_documents one_classification ["a.txt"] initial_store).
  assert (Hne : ["a.txt"] <> []) by discriminate.
  assert (Hrun : run = (fst run, Ok tt)) by (vm_compute; reflexivity).
  split; [exact Hne|]. split; [exact Hrun|].
  exact (@persisted_snapshot one_classification ["a.txt"] initial_store (fst run) Hne Hrun).
Defined.

(** ML, registered under AI by a first run, is still there after a
    second. *)
Lemma level3_lists_grow_witness :
  let after_run1 := fst (process_documents one_classification ["a.txt"] initial_store) in
  let after_run2 := fst (process_documents one_classification ["b.txt"] after_run1) in
  textual_level2 one_classification
  /\ stored_level3 after_run1 (KStr "AI") = Ok [JStr "ML"]
  /\ stored_level3 after_run2 (KStr "AI") = Ok [JStr "ML"]
  /\ (memory_json after_run2 = CutOff
      \/ exists after,
           stored_level3 after_run2 (KStr "AI") = Ok after
           /\ forall x, In x [JStr "ML"] -> In x after).
Proof.
  cbv zeta.
  assert (Ht : textual_level2 one_classification).
  { intros i s c v Hs Hc Hv. destruct i as [|i].
    - vm_compute in Hs. injection Hs as <-.
      vm_compute in Hc. injection Hc as <-.
      vm_compute in Hv. injection Hv as <-. now eexists.
    - destruct i; vm_compute in Hs; discriminate. }
  assert (H1 : stored_level3
                 (fst (process_documents one_classification ["a.txt"] initial_store))
                 (KStr "AI") = Ok [JStr "ML"]) by (vm_compute; reflexivity).
  split; [exact Ht|]. split; [exact H1|]. split; [vm_compute; reflexivity|].
  exact (proj1 (proj2 (level3_lists_grow one_classification) Ht ["b.txt"] _ _ _ H1)).
Defined.

(** * Further properties *)

(** ** What a batch stores *)

Lemma existsb_filename (name : string) (docs : list DocumentRecord) :
  existsb (fun doc => String.eqb (filename doc) name) docs
  = existsb (fun f => String.eqb f name) (map filename docs).
Proof.
  induction docs as [|d docs IH]; simpl; [reflexivity | now rewrite IH].
Qed.

Lemma existsb_filename_In (name : string) (docs : list DocumentRecord) :
  existsb (fun doc => String.eqb (filename doc) name) docs = true
  <-> In name (map filename docs).
Proof.
  rewrite existsb_exists, in_map_iff. split.
  - intros [d [Hin E]]. apply String.eqb_eq in E. now exists d.
  - intros [d [E Hin]]. exists d. split; [exact Hin | now apply String.eqb_eq].
Qed.

Lemma classify_session (env : Env) (text name : string) (st : Store) :
  session_status (memory (fst (classify env text name st))) = session_status (memory st).
Proof.
  destruct (classify_effect env text name st)
    as [[Hm _] | (s & c & l2 & l3 & k & _ & _ & _ & _ & _ & _ & Hs & _)].
  - now rewrite Hm.
  - exact Hs.
Qed.

Lemma loop_memory (env : Env) (text : string) (docs : list DocumentRecord) (c : json)
  (st : Store) :
  memory (fst (extraction_with_retries env text docs c st)) = memory st.
Proof.
  unfold extraction_with_retries.
  exact (@extraction_loop_keeps env _ memory
           (fun _ => eq_refl) (fun _ => eq_refl) _ text docs c _ _ _ st).
Qed.

(** The session update of one file that goes through. *)
Lemma update_session_ok (env : Env) (name : string) (st st' : Store) :
  update_session env name st = (st', Ok tt) ->
  last_processed (session_status (memory st')) = name
  /\ total_processed (session_status (memory st'))
     = (total_processed (session_status (memory st)) + 1)%Z
  /\ memory_json st' = Holds (memory st').
Proof.
  unfold update_session. intros H. apply bind_ok in H.
  destruct H as (st1 & [] & H1 & H). inversion H1; subst st1; clear H1.
  apply save_memory_ok in H. destruct H as [_ ->]. repeat split.
Qed.

(** One file: either it is skipped and nothing at all changes, or one record
    with its name and path is appended and the session is advanced and
    saved. *)
Lemma process_file_shape (env : Env) (docs : list DocumentRecord) (name : string)
  (st st' : Store) (docs' : list DocumentRecord) :
  process_file env docs name st = (st', Ok docs') ->
  (settled env docs name /\ docs' = docs /\ st' = st)
  \/ (~ In name (map filename docs)
      /\ (exists text, parse env (path_join input_dir name) = Ok text)
      /\ (exists record,
            docs' = docs ++ [record]
            /\ filename record = name
            /\ path record = path_join input_dir name)
      /\ last_processed (session_status (memory st')) = name
      /\ total_processed (session_status (memory st'))
         = (total_processed (session_status (memory st)) + 1)%Z
      /\ memory_json st' = Holds (memory st')).
Proof.
  unfold process_file.
  destruct (existsb _ docs) eqn:Hseen.
  { intros H. inversion H; subst. left. split; [|auto].
    left. now apply existsb_filename_In. }
  destruct (parse env _) as [text|e] eqn:Hparse.
  2:{ intros H. inversion H; subst. left. split; [|auto]. right. now exists e. }
  intros H. right.
  split. { intros Hin. apply existsb_filename_In in Hin. congruence. }
  split; [now exists text|].
  apply bind_ok in H. destruct H as (st1 & cat & H1 & H).
  pose proof (classify_session env text name st) as S1. rewrite H1 in S1. cbn [fst] in S1.
  apply bind_ok in H. destruct H as (st2 & looped & H2 & H).
  pose proof (loop_memory env text docs cat st1) as S2. rewrite H2 in S2. cbn [fst] in S2.
  do 3 (apply bind_ok in H; destruct H as (? & ? & Hl & H);
        apply lift_inv in Hl; destruct Hl as [-> _]).
  apply bind_ok in H. destruct H as (st3 & new_id & H3 & H).
  inversion H3; subst st3 new_id; clear H3.
  destruct (fst looped) as [extracted|]; [|discriminate].
  apply bind_ok in H. destruct H as (st4 & stamp & H4 & H).
  inversion H4; subst st4 stamp; clear H4.
  apply bind_ok in H. destruct H as (st5 & [] & H5 & H).
  inversion H; subst st' docs'; clear H.
  apply update_session_ok in H5. destruct H5 as (Hl & Ht & Hj).
  split; [eexists; split; [reflexivity | split; reflexivity]|].
  split; [exact Hl|]. split; [|exact Hj].
  rewrite Ht. cbn [memory tick_clock tick_uuid]. now rewrite S2, S1.
Qed.

(** A batch that completes: the records are the old ones followed by one
    new record per accepted file name, in the order of the files; the session
    counter has advanced by their number. *)
Lemma process_files_shape (env : Env) (files : list string) :
  forall (docs : list DocumentRecord) (st st' : Store) (docs' : list DocumentRecord),
    process_files env files docs st = (st', Ok docs') ->
    exists news,
      docs' = docs ++ news
      /\ map filename news = accepted env files (map filename docs)
      /\ Forall (fun r => path r = path_join input_dir (filename r)) news
      /\ total_processed (session_status (memory st'))
         = (total_processed (session_status (memory st)) + Z.of_nat (List.length news))%Z
      /\ (news = [] -> st' = st)
      /\ (news <> [] ->
          memory_json st' = Holds (memory st')
          /\ last_processed (session_status (memory st'))
             = last (map filename news) EmptyString).
Proof.
  induction files as [|name files IH]; intros docs st st' docs' H; cbn [process_files] in H.
  - inversion H; subst. exists []. rewrite app_nil_r. simpl.
    repeat split; auto; try lia; congruence.
  - apply bind_ok in H. destruct H as (st1 & docs1 & H1 & H).
    apply process_file_shape in H1. apply IH in H.
    destruct H as (news & -> & Hnames & Hpaths & Htotal & Hnil & Hlast).
    cbn [accepted]. rewrite <- existsb_filename.
    destruct H1 as [[Hsettled [-> ->]]
                   | (Hnew & [text Hparse] & (r & -> & Hname & Hpath) & Hl & Ht & Hj)].
    + exists news. split; [reflexivity|]. split.
      * destruct Hsettled as [Hin | [e He]].
        -- apply existsb_filename_In in Hin. now rewrite Hin.
        -- rewrite He. now destruct (existsb _ docs).
      * repeat split; auto; now apply Hlast.
    + exists (r :: news). rewrite <- app_assoc. split; [reflexivity|]. split.
      * assert (Hf : existsb (fun doc => String.eqb (filename doc) name) docs = false).
        { destruct (existsb _ docs) eqn:E; [|reflexivity].
          apply existsb_filename_In in E. contradiction. }
        rewrite Hf, Hparse. cbn [map]. rewrite Hname. f_equal.
        rewrite Hnames, map_app. cbn [map]. now rewrite Hname.
      * split; [constructor; [now rewrite Hname | exact Hpaths]|].
        split; [rewrite Htotal, Ht; cbn [List.length]; lia|].
        split; [discriminate|]. intros _.
        destruct news as [|r' news'].
        -- rewrite (Hnil eq_refl). split; [exact Hj|]. cbn. now rewrite Hl, Hname.
        -- destruct Hlast as [Hj' Hl']; [discriminate|]. split; [exact Hj'|].
           rewrite Hl'. reflexivity.
Qed.

Lemma accepted_NoDup (env : Env) (files : list string) :
  forall seen, NoDup seen -> NoDup (seen ++ accepted env files seen).
Proof.
  induction files as [|name files IH]; intros seen Hnd; cbn [accepted].
  - now rewrite app_nil_r.
  - destruct (existsb _ seen) eqn:Hseen; [now apply IH|].
    destruct (parse env _); [|now apply IH].
    replace (seen ++ name :: accepted env files (seen ++ [name]))
      with ((seen ++ [name]) ++ accepted env files (seen ++ [name]))
      by (now rewrite <- app_assoc).
    apply IH. apply NoDup_app; [exact Hnd | repeat constructor; intros [] |].
    intros x Hx [Heq|[]]. subst x.
    assert (E : existsb (fun f => String.eqb f name) seen = true)
      by (apply existsb_exists; exists name; split; [exact Hx | apply String.eqb_refl]).
    congruence.
Qed.

Lemma accepted_settles (env : Env) (files : list string) :
  forall seen name,
    In name files ->
    In name (seen ++ accepted env files seen)
    \/ exists e, parse env (path_join input_dir name) = Raise e.
Proof.
  induction files as [|f files IH]; intros seen name Hin; [contradiction|].
  cbn [accepted]. destruct Hin as [-> | Hin].
  - destruct (existsb _ seen) eqn:Hseen.
    + left. apply in_or_app. left. apply existsb_exists in Hseen.
      destruct Hseen as [x [Hx E]]. apply String.eqb_eq in E. now subst.
    + destruct (parse env _) as [t|e] eqn:Hp; [|right; now exists e].
      left. apply in_or_app. right. now left.
  - destruct (existsb _ seen) eqn:Hseen; [now apply IH|].
    destruct (parse env _) as [t|e] eqn:Hp; [|now apply IH].
    destruct (IH (seen ++ [f]) name Hin) as [H | H]; [|now right].
    left. rewrite <- app_assoc in H. exact H.
Qed.

(** A batch in which every file is stored already or unparseable does
    nothing at all. *)
Lemma process_files_settled (env : Env) (files : list string)
  (docs : list DocumentRecord) (st : Store) :
  Forall (settled env docs) files ->
  process_files env files docs st = (st, Ok docs).
Proof.
  induction 1 as [|name files Hs _ IH]; cbn [process_files]; [reflexivity|].
  rewrite bind_run.
  assert (E : process_file env docs name st = (st, Ok docs)).
  { unfold process_file. destruct Hs as [Hin | [e He]].
    - apply existsb_filename_In in Hin. now rewrite Hin.
    - rewrite He. now destruct (existsb _ docs). }
  now rewrite E.
Qed.

(** What a run that completes has done. *)
Lemma process_documents_shape (env : Env) (files : list string) (st st' : Store) :
  process_documents env files st = (st', Ok tt) ->
  exists m m' news,
    load_memory st = Ok m
    /\ load_memory st' = Ok m'
    /\ stored_documents st' = stored_documents st ++ news
    /\ map filename news = accepted env files (map filename (stored_documents st))
    /\ Forall (fun d => path d = path_join input_dir (filename d)) news
    /\ total_processed (session_status m')
       = (total_processed (session_status m) + Z.of_nat (List.length news))%Z
    /\ (files = [] -> st' = set_memory m st)
    /\ (files <> [] -> exists kb', kb_json st' = Holds kb')
    /\ kb_json st' <> CutOff.
Proof.
  intros H. apply process_documents_run in H.
  destruct H as [(_ & _ & C) | (m & Hm & H)]; [discriminate|].
  destruct H as [(_ & _ & C) | (kb_file & Hk & H)]; [discriminate|].
  destruct (load_knowledge_base_documents st Hk) as [_ Hnc].
  destruct H as [(-> & -> & _) | (Hne & st1 & r1 & H1 & H)].
  { exists m, m, []. rewrite app_nil_r. cbn [accepted map List.length].
    repeat split; auto; try lia; try contradiction. }
  destruct r1 as [docs'|e]; [|destruct H as [_ C]; discriminate].
  destruct H as [(_ & -> & _) | (_ & _ & C)]; [|discriminate].
  apply process_files_shape in H1.
  destruct H1 as (news & -> & Hnames & Hpaths & Htotal & Hnil & Hlast).
  cbn [memory set_memory session_status] in Htotal.
  destruct news as [|d news].
  - exists m, m, []. rewrite (Hnil eq_refl). rewrite app_nil_r.
    unfold stored_documents at 1. cbn [kb_json set_kb_json tick_dump documents].
    repeat split; auto; try contradiction; try (now eexists); try discriminate.
    cbn [List.length]. lia.
  - destruct Hlast as [Hj _]; [discriminate|].
    exists m, (reload_memory (memory st1)), (d :: news).
    unfold stored_documents at 1. cbn [kb_json set_kb_json tick_dump documents].
    split; [exact Hm|]. split.
    { unfold load_memory. cbn [memory_json set_kb_json tick_dump]. now rewrite Hj. }
    repeat split; auto; try contradiction; try (now eexists); try discriminate.
Qed.

(** X1.  A run that completes leaves the stored records as they were and in
    place, and appends one record for each file name that was not stored yet and
    that the parser accepts, in the order of the listing, each with the path of
    its file in the input folder. *)
Theorem run_appends_accepted_files (env : Env) (files : list string) (st st' : Store) :
  process_documents env files st = (st', Ok tt) ->
  exists news,
    stored_documents st' = stored_documents st ++ news
    /\ map filename news = accepted env files (map filename (stored_documents st))
    /\ Forall (fun d => path d = path_join input_dir (filename d)) news.
Proof.
  intros H. apply process_documents_shape in H.
  destruct H as (m & m' & news & _ & _ & H1 & H2 & H3 & _). now exists news.
Qed.

(** What a run leaves in the knowledge-base file: what was there, or the
    records of a batch that completed, or a file cut off by the final dump. *)
Lemma process_documents_file (env : Env) (files : list string) (st st' : Store)
  (r : result unit) :
  process_documents env files st = (st', r) ->
  kb_json st' = kb_json st
  \/ (r = Ok tt
      /\ exists news,
           stored_documents st' = stored_documents st ++ news
           /\ map filename news = accepted env files (map filename (stored_documents st)))
  \/ (r = Raise UnicodeEncodeError
      /\ kb_json st' = CutOff
      /\ breaks_between env st st').
Proof.
  intros H. destruct r as [[]|e].
  - right. left. split; [reflexivity|]. apply process_documents_shape in H.
    destruct H as (m & m' & news & _ & _ & H1 & H2 & _). now exists news.
  - pose proof (process_documents_breaks env files st) as [Hd _].
    rewrite H in Hd. cbn [fst] in Hd.
    apply process_documents_run in H.
    destruct H as [(_ & -> & _) | (m & _ & H)]; [now left|].
    destruct H as [(_ & -> & _) | (kb_file & _ & H)]; [now left|].
    destruct H as [(_ & _ & C) | (_ & st1 & r1 & H1 & H)]; [discriminate|].
    pose proof (@process_files_keeps env _ kb_json
      (fun _ => eq_refl) (fun _ _ => eq_refl) (fun _ _ => eq_refl) (fun _ => eq_refl)
      (fun _ => eq_refl) (fun _ => eq_refl) (fun _ => eq_refl)
      files (stored_documents st) (set_memory m st)) as Hkeep.
    pose proof (process_files_breaks env files (stored_documents st) (set_memory m st))
      as [Hd1 _].
    rewrite H1 in Hkeep, Hd1. cbn [fst kb_json set_memory dumps] in Hkeep, Hd1.
    destruct r1 as [docs|e1].
    + destruct H as [(_ & _ & C) | (Hb & -> & He)]; [discriminate|].
      right. right. split; [exact He|]. split; [reflexivity|].
      exists (dumps st1). cbn [dumps set_kb_json tick_dump]. split; [lia | exact Hb].
    + destruct H as [-> _]. now left.
Qed.

(** X2.  However a run ends, and whatever the listing repeats, the stored
    file names stay pairwise distinct, over any sequence of runs. *)
Theorem filenames_stay_distinct (env : Env) (batches : list (list string)) (st : Store) :
  NoDup (map filename (stored_documents st)) ->
  NoDup (map filename (stored_documents (ingestion_runs env batches st))).
Proof.
  revert st. induction batches as [|files batches IH]; intros st Hnd;
    cbn [ingestion_runs]; [exact Hnd|].
  apply IH.
  destruct (process_documents env files st) as [st1 r] eqn:Hrun; cbn [fst].
  apply process_documents_file in Hrun.
  destruct Hrun as [Hsame | [(_ & news & -> & Hnames) | (_ & Hcut & _)]].
  - unfold stored_documents. now rewrite Hsame.
  - rewrite map_app, Hnames. now apply accepted_NoDup.
  - unfold stored_documents. rewrite Hcut. constructor.
Qed.

(** X3.  Running again over the same listing after a completed run calls
    neither the backend nor the extractor and leaves memory.json as it is; it
    completes with the same records stored, unless its dump of the knowledge
    base breaks off. *)
Theorem rerun_adds_nothing (env : Env) (files : list string) (st st1 : Store) :
  process_documents env files st = (st1, Ok tt) ->
  let rerun := process_documents env files st1 in
  generate_calls (fst rerun) = generate_calls st1
  /\ extract_calls (fst rerun) = extract_calls st1
  /\ memory_json (fst rerun) = memory_json st1
  /\ (snd rerun = Ok tt /\ stored_documents (fst rerun) = stored_documents st1
      \/ (files <> []
          /\ dump_breaks env (dumps st1) = true
          /\ snd rerun = Raise UnicodeEncodeError
          /\ kb_json (fst rerun) = CutOff)).
Proof.
  intros H. apply process_documents_shape in H.
  destruct H as (m & m' & news & _ & Hm' & Hdocs & Hnames & _ & _ & _ & _ & Hnc).
  assert (Hsettled : Forall (settled env (stored_documents st1)) files).
  { apply Forall_forall. intros name Hin. unfold settled.
    rewrite Hdocs, map_app, Hnames. now apply accepted_settles. }
  cbv zeta. destruct (process_documents env files st1) as [st2 r] eqn:Hrun.
  cbn [fst snd]. apply process_documents_run in Hrun.
  destruct Hrun as [(Hcut & _) | (m1 & _ & Hrun)].
  { unfold load_memory in Hm'. rewrite Hcut in Hm'. discriminate. }
  destruct Hrun as [(Hcut & _) | (kb_file & _ & Hrun)]; [contradiction|].
  destruct Hrun as [(_ & -> & ->) | (Hne & st1' & r1 & H1 & Hrun)].
  { repeat split. now left. }
  rewrite (process_files_settled _ Hsettled) in H1. inversion H1; subst st1' r1; clear H1.
  destruct Hrun as [(_ & -> & ->) | (Hb & -> & ->)].
  - repeat split. now left.
  - repeat split. right. repeat split; auto.
Qed.

(** X4.  A run that ends with an exception leaves the knowledge-base file
    exactly as it was, unless the exception is the final dump breaking off,
    which leaves the file cut off: a partial batch is never stored. *)
Theorem failed_run_writes_no_knowledge_base (env : Env) (files : list string)
  (st : Store) (e : exn) :
  snd (process_documents env files st) = Raise e ->
  kb_json (fst (process_documents env files st)) = kb_json st
  \/ (e = UnicodeEncodeError
      /\ kb_json (fst (process_documents env files st)) = CutOff
      /\ breaks_between env st (fst (process_documents env files st))).
Proof.
  destruct (process_documents env files st) as [st' r] eqn:Hrun. cbn [fst snd].
  intros ->. apply process_documents_file in Hrun.
  destruct Hrun as [H | [(C & _) | (He & Hcut & Hb)]]; [now left | discriminate |].
  right. injection He as ->. auto.
Qed.

(** X5.  Over a run that completes, the persisted session counter advances
    by exactly the number of records the run added. *)
Theorem session_counts_new_records (env : Env) (files : list string) (st st' : Store) :
  process_documents env files st = (st', Ok tt) ->
  exists m m',
    load_memory st = Ok m
    /\ load_memory st' = Ok m'
    /\ total_processed (session_status m')
       = (total_processed (session_status m)
          + Z.of_nat (List.length (stored_documents st'))
          - Z.of_nat (List.length (stored_documents st)))%Z.
Proof.
  intros H. apply process_documents_shape in H.
  destruct H as (m & m' & news & Hm & Hm' & Hdocs & _ & _ & Htotal & _).
  exists m, m'. split; [exact Hm|]. split; [exact Hm'|].
  rewrite Htotal, Hdocs, length_app. lia.
Qed.

(** ** Durability of the Preference Store *)

Lemma durable_refl (st : Store) : durable st st.
Proof. left. now split. Qed.

Lemma durable_trans (a b c : Store) : durable a b -> durable b c -> durable a c.
Proof.
  intros [[Hm Hj] | Hs] [[Hm' Hj'] | Hs']; try (now right).
  - left. split; congruence.
  - right. destruct Hs as [Hs | Hs]; [left | right]; congruence.
Qed.

Lemma durable_untouched {A : Type} (m : M A) :
  keeps (fun st => (memory st, memory_json st)) m -> steps durable m.
Proof.
  intros K st. specialize (K st). cbv beta in K. injection K as Hm Hj.
  left. now split.
Qed.

Lemma classify_durable (env : Env) (text name : string) :
  steps durable (classify env text name).
Proof.
  intros st. destruct (classify_effect env text name st)
    as [(Hm & Hj & _) | (s & c & l2 & l3 & k & _ & _ & _ & _ & _ & _ & _ & _ & Hsave)].
  - left. now split.
  - right. destruct Hsave as [(_ & _ & Hj) | (_ & _ & Hj)]; [now left | now right].
Qed.

Lemma update_session_durable (env : Env) (name : string) :
  steps durable (update_session env name).
Proof.
  intros st. unfold update_session. rewrite bind_run. cbn [modify].
  unfold save_memory. destruct (dump_breaks env _); cbn [fst]; right; [now right | now left].
Qed.

Lemma process_file_durable (env : Env) (docs : list DocumentRecord) (name : string) :
  steps durable (process_file env docs name).
Proof.
  pose proof durable_refl as Rr. pose proof durable_trans as Rt.
  unfold process_file.
  destruct (existsb _ docs); [now apply steps_ret|].
  destruct (parse env _) as [text|e]; [|now apply steps_ret].
  apply steps_bind; [exact Rt | apply classify_durable | intro cat].
  apply steps_bind; [exact Rt | | intro looped].
  { apply durable_untouched. unfold extraction_with_retries.
    now apply extraction_loop_keeps. }
  do 3 (apply steps_bind; [exact Rt | now apply steps_lift | intro]).
  apply steps_bind; [exact Rt | | intro new_id].
  { apply durable_untouched. now intros st. }
  destruct (fst looped); [|now apply steps_raise].
  apply steps_bind; [exact Rt | | intro stamp].
  { apply durable_untouched. now intros st. }
  apply steps_bind; [exact Rt | apply update_session_durable | intro; now apply steps_ret].
Qed.

Lemma process_files_durable (env : Env) (files : list string) (docs : list DocumentRecord) :
  steps durable (process_files env files docs).
Proof.
  revert docs. induction files as [|name files IH]; intros docs; cbn [process_files].
  - apply steps_ret. apply durable_refl.
  - apply steps_bind; [apply durable_trans | apply process_file_durable | auto].
Qed.

(** X6.  However a run ends, the manager holds either exactly what it loaded
    when it was opened, with memory.json untouched, or exactly what memory.json
    now holds, or memory.json is cut off, which happens only if a dump of the
    run broke off: otherwise no update of preferences or session is left
    unsaved, even when an exception ends the run. *)
Theorem preference_store_is_durable (env : Env) (files : list string) (st : Store)
  (m : MemoryData) :
  load_memory st = Ok m ->
  let st' := fst (process_documents env files st) in
  ((memory st' = m /\ memory_json st' = memory_json st)
   \/ memory_json st' = Holds (memory st')
   \/ memory_json st' = CutOff)
  /\ (memory_json st' = CutOff -> breaks_between env st st').
Proof.
  intros Hm. cbv zeta. split.
  - destruct (process_documents env files st) as [st' r] eqn:Hrun. cbn [fst].
    apply process_documents_run in Hrun.
    destruct Hrun as [(Hcut & _) | (m0 & Hm0 & Hrun)].
    { unfold load_memory in Hm. rewrite Hcut in Hm. discriminate. }
    rewrite Hm in Hm0. injection Hm0 as <-.
    destruct Hrun as [(_ & -> & _) | (kb_file & _ & Hrun)]; [left; now split|].
    destruct Hrun as [(_ & -> & _) | (_ & st1 & r1 & H1 & Hrun)]; [left; now split|].
    pose proof (@process_files_durable env files (stored_documents st) (set_memory m st)) as D.
    rewrite H1 in D. cbn [fst] in D.
    destruct r1 as [docs|e].
    + destruct Hrun as [(_ & -> & _) | (_ & -> & _)]; exact D.
    + destruct Hrun as [-> _]. exact D.
  - intros Hcut. destruct (process_documents_breaks env files st) as [_ Hc].
    destruct (Hc Hcut) as [Hcut0 | Hb]; [|exact Hb].
    unfold load_memory in Hm. rewrite Hcut0 in Hm. discriminate.
Qed.

(** ** The validation loop and the extractor *)

Lemma extraction_loop_pass (env : Env) (budget : nat) (text : string)
  (docs : list DocumentRecord) (c : json) (count : nat) (e : option Extracted)
  (st st1 : Store) (x : Extracted) (again : bool) :
  (count <? max_retries)%nat = true ->
  extract env text docs st = (st1, Ok x) ->
  needs_retry c x = Ok again ->
  extraction_loop env (S budget) text docs c true count e st
  = extraction_loop env budget text docs c again
      (if again then S count else count) (Some x) st1.
Proof.
  intros Hlt Hx Hv. cbn [extraction_loop]. rewrite Hlt. cbn [andb].
  now rewrite bind_run, Hx, bind_run, Hv.
Qed.

Lemma extraction_loop_exit (env : Env) (budget : nat) (text : string)
  (docs : list DocumentRecord) (c : json) (need : bool) (count : nat)
  (e : option Extracted) (st : Store) :
  need && (count <? max_retries)%nat = false ->
  extraction_loop env budget text docs c need count e st = (st, Ok (e, count)).
Proof. intros H. destruct budget; cbn [extraction_loop]; now rewrite H. Qed.

(** X7.  When the first extraction is valid the loop ends at once: the
    extractor is called exactly once and the retry counter stays at 0. *)
Theorem valid_first_attempt_is_final (env : Env) (text : string)
  (docs : list DocumentRecord) (c : json) (st st1 : Store) (x : Extracted) :
  extract env text docs st = (st1, Ok x) ->
  needs_retry c x = Ok false ->
  extraction_with_retries env text docs c st = (st1, Ok (Some x, 0))
  /\ extract_calls st1 = S (extract_calls st).
Proof.
  intros Hx Hv. split.
  - unfold extraction_with_retries. unfold max_retries at 1.
    rewrite extraction_loop_pass with (st1 := st1) (x := x) (again := false);
      [now apply extraction_loop_exit | reflexivity | exact Hx | exact Hv].
  - pose proof (extract_counts_one env text docs st) as H. now rewrite Hx in H.
Qed.

Lemma extract_without_completion (env : Env) (text : string)
  (docs : list DocumentRecord) (st : Store) :
  (forall k, completion env k = None) ->
  Forall well_typed_doc docs ->
  exists st',
    extract env text docs st = (st', Ok nothing_extracted)
    /\ memory st' = memory st /\ memory_json st' = memory_json st
    /\ uuid_draws st' = uuid_draws st /\ dumps st' = dumps st
    /\ extract_calls st' = S (extract_calls st).
Proof.
  intros Hmock Hdocs.
  assert (Hsum : docs = [] \/ exists s, doc_summaries docs = Ok s).
  { induction Hdocs as [|d docs [_ Hkw] _ IH]; [now left|]. right.
    assert (Hd : exists s, doc_summary d = Ok s).
    { unfold doc_summary. red in Hkw. rewrite Hkw. unfold py_join. cbn [py_iter rbind].
      assert (Hj : exists s, join_strs "," (map JStr (texts (keywords d))) = Ok s).
      { generalize (texts (keywords d)). intros l.
        induction l as [|a l [s Hs]]; [now eexists|].
        cbn [map join_strs]. destruct l as [|b l]; [now eexists|].
        cbn [map] in *. rewrite Hs. now eexists. }
      destruct Hj as [s ->]. now eexists. }
    destruct Hd as [s Hs]. cbn [doc_summaries]. rewrite Hs. cbn [rbind].
    destruct docs as [|d' docs']; [now eexists|].
    destruct IH as [IH | [t Ht]]; [discriminate|]. rewrite Ht. now eexists. }
  unfold extract, extract_body. rewrite bind_run. cbn [modify].
  rewrite bind_run. unfold generate_text at 1. cbv beta iota.
  rewrite (Hmock (generate_calls (tick_extract st))). cbn [loads_or].
  destruct docs as [|d docs].
  - eexists. split; [reflexivity|]. repeat split.
  - destruct Hsum as [Hnil | [s Hs]]; [discriminate|].
    rewrite bind_run, bind_run. unfold lift at 1. rewrite Hs.
    eexists. split.
    + rewrite !bind_run. unfold generate_text. cbn.
      rewrite (Hmock (S (generate_calls st))). reflexivity.
    + repeat split.
Qed.

(** X8.  With a backend that never gives a completion, a new file that the
    parser accepts is stored, when the save of the session goes through, after
    exactly three extractor calls with the category all [Unclassified], the
    single core idea [No core ideas extracted], the single keyword
    [No keywords extracted] and no related document. *)
Theorem silent_backend_stores_sentinels (env : Env) (docs : list DocumentRecord)
  (name text : string) (st : Store) :
  (forall k, completion env k = None) ->
  Forall well_typed_doc docs ->
  ~ In name (map filename docs) ->
  parse env (path_join input_dir name) = Ok text ->
  dump_breaks env (dumps st) = false ->
  exists st' record,
    process_file env docs name st = (st', Ok (docs ++ [record]))
    /\ filename record = name
    /\ category record = unclassified
    /\ core_ideas record = JArr [JStr no_core_ideas]
    /\ keywords record = JArr [JStr no_keywords]
    /\ related_docs record = JArr []
    /\ extract_calls st' = extract_calls st + 3.
Proof.
  intros Hmock Hdocs Hnew Hparse Hsave. unfold process_file.
  assert (Hf : existsb (fun doc => String.eqb (filename doc) name) docs = false).
  { destruct (existsb _ docs) eqn:E; [|reflexivity].
    apply existsb_filename_In in E. contradiction. }
  rewrite Hf, Hparse.
  rewrite bind_run, (classify_no_completion env text name st (Hmock _)).
  set (sa := tick_generate st).
  destruct (extract_without_completion env text sa Hmock Hdocs)
    as (s1 & E1 & _ & _ & _ & D1 & C1).
  destruct (extract_without_completion env text s1 Hmock Hdocs)
    as (s2 & E2 & _ & _ & _ & D2 & C2).
  destruct (extract_without_completion env text s2 Hmock Hdocs)
    as (s3 & E3 & _ & _ & _ & D3 & C3).
  assert (Hloop : extraction_with_retries env text docs unclassified sa
                  = (s3, Ok (Some nothing_extracted, 3))).
  { assert (Hv : needs_retry unclassified nothing_extracted = Ok true) by reflexivity.
    unfold extraction_with_retries. unfold max_retries at 1.
    rewrite extraction_loop_pass with (st1 := s1) (x := nothing_extracted) (again := true);
      [| reflexivity | exact E1 | exact Hv].
    rewrite extraction_loop_pass with (st1 := s2) (x := nothing_extracted) (again := true);
      [| reflexivity | exact E2 | exact Hv].
    rewrite extraction_loop_pass with (st1 := s3) (x := nothing_extracted) (again := true);
      [| reflexivity | exact E3 | exact Hv].
    now apply extraction_loop_exit. }
  assert (Hd : dumps s3 = dumps st) by (rewrite D3, D2, D1; reflexivity).
  rewrite bind_run, Hloop.
  do 3 (rewrite bind_run; unfold lift at 1; cbn [py_getitem unclassified dict_get String.eqb
                                                   Ascii.eqb Bool.eqb]).
  rewrite bind_run. unfold draw_doc_id at 1. cbn [fst].
  rewrite bind_run. unfold read_clock at 1.
  rewrite bind_run. unfold update_session. rewrite bind_run. cbn [modify].
  unfold save_memory. cbn [dumps set_memory tick_clock tick_uuid]. rewrite Hd, Hsave.
  eexists. eexists. split; [reflexivity|].
  cbn. repeat split. rewrite C3, C2, C1. cbn. lia.
Qed.

(** ** The classifier *)

(** X10.  A category obtained by the recovery step is returned but never
    learned: when [json.loads] raises on the cleaned completion, the manager
    and memory.json are left exactly as they were and nothing is dumped. *)
Theorem recovered_category_is_not_registered (env : Env) (text name : string)
  (st : Store) (s : string) (e : exn) :
  completion env (generate_calls st) = Some s ->
  json_loads env (clean_response s) = Raise e ->
  memory (fst (classify env text name st)) = memory st
  /\ memory_json (fst (classify env text name st)) = memory_json st
  /\ dumps (fst (classify env text name st)) = dumps st.
Proof.
  intros Hs Hnone.
  destruct (classify_effect env text name st)
    as [H | (s' & c & l2 & l3 & k & Hs' & Hc & _)]; [exact H|].
  rewrite Hs in Hs'. injection Hs' as <-. congruence.
Qed.

(** X11.  The validation of lines 208-211 accepts exactly the objects in
    which level1, level2 and level3 are present and truthy; everything else,
    including lists, strings and numbers, is refused with an exception. *)
Theorem validation_accepts_truthy_levels (c : json) :
  check_required required_keys c = Ok tt <-> validated_category c.
Proof.
  split; [apply check_required_validated|].
  intros [[d ->] [[v1 [H1 T1]] [[v2 [H2 T2]] [v3 [H3 T3]]]]].
  cbn [py_getitem] in H1, H2, H3.
  destruct (dict_get "level1" d) eqn:E1; [|discriminate]. injection H1 as ->.
  destruct (dict_get "level2" d) eqn:E2; [|discriminate]. injection H2 as ->.
  destruct (dict_get "level3" d) eqn:E3; [|discriminate]. injection H3 as ->.
  unfold required_keys. cbn [check_required py_in py_getitem].
  rewrite E1, E2, E3. cbn. now rewrite T1, T2, T3.
Qed.

(** ** The extractor *)

(** X12.  A call of [extract] that returns has asked the backend once when
    there is no processed document, and then reports no related document, and
    twice otherwise. *)
Theorem extract_backend_calls (env : Env) (text : string) (docs : list DocumentRecord)
  (st st' : Store) (x : Extracted) :
  extract env text docs st = (st', Ok x) ->
  generate_calls st' = generate_calls st + (match docs with [] => 1 | _ :: _ => 2 end)
  /\ (docs = [] -> ex_related_docs x = JArr []).
Proof.
  unfold extract, extract_body. intros H.
  apply bind_ok in H. destruct H as (s0 & [] & H0 & H). inversion H0; subst s0; clear H0.
  apply bind_ok in H. destruct H as (s1 & r1 & H1 & H). inversion H1; subst s1 r1; clear H1.
  apply bind_ok in H. destruct H as (s2 & rel & H2 & H).
  apply bind_ok in H. destruct H as (s3 & ci & H3 & H).
  apply lift_inv in H3. destruct H3 as [-> _].
  apply bind_ok in H. destruct H as (s4 & kw & H4 & H).
  apply lift_inv in H4. destruct H4 as [-> _].
  inversion H; subst st' x; clear H.
  destruct docs as [|d docs].
  - inversion H2; subst s2 rel. cbn. split; [lia | reflexivity].
  - apply bind_ok in H2. destruct H2 as (t1 & ? & Hl & H2).
    apply lift_inv in Hl. destruct Hl as [-> _].
    apply bind_ok in H2. destruct H2 as (t2 & ? & Hl & H2).
    apply lift_inv in Hl. destruct Hl as [-> _].
    apply bind_ok in H2. destruct H2 as (t3 & ? & Hl & H2).
    apply lift_inv in Hl. destruct Hl as [-> _].
    apply bind_ok in H2. destruct H2 as (t4 & r2 & Hg & H2).
    inversion Hg; subst t4 r2; clear Hg. inversion H2; subst s2 rel.
    cbn. split; [lia | discriminate].
Qed.

(** ** Category and related-document search *)

Lemma category_hit_texts (v : string) (d : DocumentRecord) (l1 l2 l3 : string) :
  level_texts d l1 l2 l3 ->
  category_hit v d = Ok (in_categoryb v d)
  /\ category_texts d = [l1; l2; l3].
Proof.
  intros (H1 & H2 & H3).
  assert (Ht : category_texts d = [l1; l2; l3]).
  { unfold category_texts, required_keys. cbn [flat_map]. now rewrite H1, H2, H3. }
  split; [|exact Ht].
  unfold in_categoryb. rewrite Ht. unfold category_hit. rewrite H1, H2, H3.
  cbn [rbind py_in existsb].
  destruct (contains v l1), (contains v l2), (contains v l3); reflexivity.
Qed.

Lemma category_loop_filter (v : string) (docs results : list DocumentRecord) :
  Forall textual_category docs ->
  search_loop "category" v docs results
  = Ok (Some (results ++ filter (in_categoryb v) docs)).
Proof.
  intros Hwt. revert results.
  induction Hwt as [|d docs (l1 & l2 & l3 & Hd) _ IH]; intros results.
  - cbn. now rewrite app_nil_r.
  - cbn [search_loop filter]. simpl String.eqb. cbv iota.
    destruct (category_hit_texts v Hd) as [-> _]. cbn [rbind]. rewrite IH.
    destruct (in_categoryb v d); [now rewrite <- app_assoc | reflexivity].
Qed.

Lemma Forall_filter {A : Type} (P : A -> Prop) (f : A -> bool) (l : list A) :
  Forall P l -> Forall P (filter f l).
Proof.
  intros H. apply Forall_forall. intros x Hx. apply filter_In in Hx.
  exact (proj1 (Forall_forall P l) H x (proj1 Hx)).
Qed.

Lemma textual_category_levels (d : DocumentRecord) : textual_category d -> has_levels d.
Proof. intros (l1 & l2 & l3 & H1 & H2 & H3). now exists (JStr l1), (JStr l2), (JStr l3). Qed.

(** X13.  On a knowledge base whose categories have strings as their three
    levels, a category search collects exactly the documents in which the value
    is a substring of level1, level2 or level3, each once however many levels
    match, in knowledge-base order.  With no such document the answer is the
    no-results message; when every match has a first core idea, the answer is
    the report of these matches. *)
Theorem category_search_results (v : string) (st : Store) (kb : KnowledgeBase) :
  kb_json st = Holds kb ->
  Forall textual_category (documents kb) ->
  let results := filter (in_categoryb v) (documents kb) in
  search_loop "category" v (documents kb) [] = Ok (Some results)
  /\ (forall d, In d results <-> In d (documents kb) /\ in_category v d)
  /\ (results = [] -> search_knowledge "category" v st = Ok NoMatch)
  /\ (results <> [] ->
      Forall has_core_idea results ->
      exists entries,
        search_knowledge "category" v st = Ok (Found (List.length results) entries)
        /\ reports results entries).
Proof.
  intros Hkb Hwt results.
  assert (Hloop : search_loop "category" v (documents kb) [] = Ok (Some results))
    by (now rewrite category_loop_filter by exact Hwt).
  split; [exact Hloop|]. split.
  - intros d. unfold results. rewrite filter_In. unfold in_categoryb, in_category.
    rewrite existsb_exists. split.
    + intros [Hin [s [Hs Hc]]]. split; [exact Hin|]. exists s.
      split; [exact Hs | now apply contains_substring].
    + intros [Hin [s [Hs Hc]]]. split; [exact Hin|]. exists s.
      split; [exact Hs | now apply contains_substring].
  - destruct (search_answer _ _ _ Hkb Hloop) as [Hnone Hsome].
    split; [exact Hnone|]. intros Hne Hideas. apply Hsome; [exact Hne|].
    assert (Hlev : Forall has_levels results).
    { apply Forall_filter. apply Forall_forall. intros d Hd.
      apply textual_category_levels. exact (proj1 (Forall_forall _ _) Hwt d Hd). }
    apply Forall_forall. intros d Hd. split.
    + exact (proj1 (Forall_forall _ _) Hlev d Hd).
    + exact (proj1 (Forall_forall _ _) Hideas d Hd).
Qed.

Lemma related_hit_texts (v : string) (l : list string) :
  py_in (JStr v) (JArr (map JStr l)) = Ok (existsb (String.eqb v) l).
Proof.
  cbn [py_in]. f_equal. induction l as [|s l IH]; cbn; [reflexivity|].
  now rewrite IH, String.eqb_sym.
Qed.

Lemma related_loop_filter (v : string) (docs results : list DocumentRecord) :
  Forall (fun d => textual (related_docs d)) docs ->
  search_loop "related" v docs results
  = Ok (Some (results ++ filter (relatedb v) docs)).
Proof.
  intros Hwt. revert results.
  induction Hwt as [|d docs Hd _ IH]; intros results.
  - cbn. now rewrite app_nil_r.
  - cbn [search_loop filter]. simpl String.eqb. cbv iota.
    unfold relatedb at 1. red in Hd.
    remember (texts (related_docs d)) as l eqn:El. clear El.
    rewrite Hd, related_hit_texts. cbn [rbind]. rewrite IH.
    destruct (existsb (String.eqb v) l); [now rewrite <- app_assoc | reflexivity].
Qed.

(** X14.  On a knowledge base whose [related_docs] are lists of strings, a
    related search collects exactly the documents that have the value itself
    among their related ids (equality, not substring), in knowledge-base
    order.  With no such document the answer is the no-results message; when
    every match has the three category levels and a first core idea, the
    answer is the report of these matches. *)
Theorem related_search_results (v : string) (st : Store) (kb : KnowledgeBase) :
  kb_json st = Holds kb ->
  Forall (fun d => textual (related_docs d)) (documents kb) ->
  let results := filter (relatedb v) (documents kb) in
  search_loop "related" v (documents kb) [] = Ok (Some results)
  /\ (forall d, In d results <-> In d (documents kb) /\ In v (texts (related_docs d)))
  /\ (results = [] -> search_knowledge "related" v st = Ok NoMatch)
  /\ (results <> [] ->
      Forall reportable results ->
      exists entries,
        search_knowledge "related" v st = Ok (Found (List.length results) entries)
        /\ reports results entries).
Proof.
  intros Hkb Hwt results.
  assert (Hloop : search_loop "related" v (documents kb) [] = Ok (Some results))
    by (now rewrite related_loop_filter by exact Hwt).
  split; [exact Hloop|]. split.
  - intros d. unfold results. rewrite filter_In. unfold relatedb.
    rewrite existsb_exists. split.
    + intros [Hin [s [Hs E]]]. apply String.eqb_eq in E. subst s. now split.
    + intros [Hin Hv]. split; [exact Hin|]. exists v. split; [exact Hv|].
      apply String.eqb_refl.
  - exact (search_answer _ _ _ Hkb Hloop).
Qed.

(** ** Reclassification and the rest of the record *)

Lemma update_nth_map {A B : Type} (g : A -> B) (f : A -> A) (i : nat) (l : list A) :
  (forall a, g (f a) = g a) -> map g (update_nth i f l) = map g l.
Proof.
  intros H. revert i. induction l as [|x l IH]; intros [|i]; cbn;
    rewrite ?H, ?IH; reflexivity.
Qed.

(** X15.  Whenever [reclassify_document] returns, the ids, file names and
    paths of the records are as before, record by record; and it raises only
    when memory.json is cut off, before anything is changed, or when its final
    dump breaks off, which leaves the knowledge-base file cut off. *)
Theorem reclassify_keeps_identity (env : Env) (name : string) (kb : KnowledgeBase)
  (st : Store) :
  match snd (reclassify_document env name kb st) with
  | Ok (outcome, kb') =>
      ids (documents kb') = ids (documents kb)
      /\ map filename (documents kb') = map filename (documents kb)
      /\ map path (documents kb') = map path (documents kb)
  | Raise e =>
      (e = JSONDecodeError
       /\ memory_json st = CutOff
       /\ fst (reclassify_document env name kb st) = st)
      \/ (e = UnicodeEncodeError
          /\ kb_json (fst (reclassify_document env name kb st)) = CutOff
          /\ breaks_between env st (fst (reclassify_document env name kb st)))
  end.
Proof.
  destruct (reclassify_document env name kb st) as [st' r] eqn:Hrun. cbn [fst snd].
  unfold reclassify_document in Hrun.
  destruct (find_filename name (documents kb) 0) as [i|] eqn:Hi;
    [|inversion Hrun; now repeat split].
  destruct (find_filename_first _ _ _ Hi) as (_ & (doc & Hdoc & _) & _).
  rewrite Nat.sub_0_r in Hdoc. rewrite Hdoc in Hrun.
  destruct (parse env (path doc)) as [text|e]; [|inversion Hrun; now repeat split].
  apply bind_inv in Hrun. destruct Hrun as [(e & H & ->) | (st0 & [] & H0 & H)].
  { apply MemoryManager_raise in H. destruct H as (Hcut & -> & ->). left. auto. }
  apply MemoryManager_ok in H0. destruct H0 as (m & _ & ->).
  destruct (classify_returns env text name (set_memory m st)) as (c & Hc & _).
  pose proof (classify_breaks env text name (set_memory m st)) as [Hd _].
  apply bind_inv in H. destruct H as [(e & H & ->) | (st1 & c' & H1 & H)].
  { rewrite H in Hc. discriminate. }
  rewrite H1 in Hc, Hd. cbn [fst snd dumps set_memory] in Hc, Hd.
  injection Hc as ->.
  apply bind_inv in H. destruct H as [(e & H & ->) | (st2 & stamp & H2 & H)];
    [discriminate|].
  inversion H2; subst st2 stamp; clear H2.
  apply bind_inv in H. destruct H as [(e & H & ->) | (st3 & [] & H3 & H)].
  - apply dump_knowledge_base_raise in H. destruct H as (Hb & -> & ->).
    right. split; [reflexivity|]. split; [reflexivity|].
    exists (dumps st1). cbn [dumps set_kb_json tick_dump tick_clock].
    split; [lia | exact Hb].
  - inversion H; subst st' r. cbn [documents with_documents]. unfold ids.
    repeat split; rewrite !update_nth_map; auto.
Qed.

(** ** Reading the reply *)

Lemma flat_body_sound (s b : string) :
  flat_body s = Some b ->
  exists body rest,
    b = (body ++ "}")%string /\ s = (body ++ "}" ++ rest)%string
    /\ brace_free body = true.
Proof.
  revert b. induction s as [|c s IH]; intros b; cbn [flat_body]; [discriminate|].
  destruct (Ascii.eqb c "}") eqn:Hc.
  - intros H. injection H as <-. apply Ascii.eqb_eq in Hc. subst c.
    now exists EmptyString, s.
  - destruct (Ascii.eqb c "{") eqn:Ho; [discriminate|].
    destruct (flat_body s) as [b'|]; [|discriminate].
    intros H. injection H as <-.
    destruct (IH b' eq_refl) as (body & rest & -> & -> & Hfree).
    exists (String c body), rest. cbn. now rewrite Hc, Ho, Hfree.
Qed.

Lemma flat_body_complete (body rest : string) :
  brace_free body = true ->
  flat_body (body ++ String "}" rest) = Some (body ++ "}")%string.
Proof.
  induction body as [|c body IH]; cbn [append flat_body brace_free]; [reflexivity|].
  intros H. apply andb_true_iff in H. destruct H as [H Hfree].
  apply andb_true_iff in H. destruct H as [Ho Hc].
  apply negb_true_iff in Ho, Hc. rewrite Hc, Ho, IH by exact Hfree. reflexivity.
Qed.

(** X16.  The recovery pattern finds a fragment exactly when the text has an
    opening brace followed, with no brace in between, by a closing brace; the
    fragment found is such a piece of the text, braces included. *)
Theorem flat_object_found (s : string) :
  (forall f, search_flat_object s = Some f ->
     exists before body after,
       s = (before ++ "{" ++ body ++ "}" ++ after)%string
       /\ f = ("{" ++ body ++ "}")%string
       /\ brace_free body = true)
  /\ ((exists before body after,
         s = (before ++ "{" ++ body ++ "}" ++ after)%string
         /\ brace_free body = true)
      -> exists f, search_flat_object s = Some f).
Proof.
  split.
  - induction s as [|c s IH]; intros f; cbn [search_flat_object]; [discriminate|].
    destruct (Ascii.eqb c "{") eqn:Ho.
    + apply Ascii.eqb_eq in Ho. subst c.
      destruct (flat_body s) as [b|] eqn:Hb.
      * intros H. injection H as <-.
        destruct (flat_body_sound _ Hb) as (body & rest & -> & -> & Hfree).
        now exists EmptyString, body, rest.
      * intros H. destruct (IH f H) as (before & body & after & -> & -> & Hfree).
        now exists (String "{" before), body, after.
    + intros H. destruct (IH f H) as (before & body & after & -> & -> & Hfree).
      now exists (String c before), body, after.
  - intros (before & body & after & -> & Hfree).
    induction before as [|c before IH]; cbn [append search_flat_object].
    + cbn [Ascii.eqb Bool.eqb]. rewrite flat_body_complete by exact Hfree. now eexists.
    + destruct (Ascii.eqb c "{"); [|exact IH].
      destruct (flat_body _); [now eexists | exact IH].
Qed.

Lemma substring_skip (p x : string) :
  String.substring (String.length p) (String.length x) (p ++ x) = x.
Proof.
  induction p as [|c p IH]; cbn [String.length append String.substring].
  - induction x as [|c x IH]; cbn; [reflexivity | now rewrite IH].
  - exact IH.
Qed.

Lemma substring_take (b t : string) :
  String.substring 0 (String.length b) (b ++ t) = b.
Proof.
  induction b as [|c b IH]; cbn [String.length append String.substring].
  - now destruct t.
  - now rewrite IH.
Qed.

Lemma length_append (a b : string) :
  String.length (a ++ b) = String.length a + String.length b.
Proof. induction a as [|c a IH]; cbn; [reflexivity | now rewrite IH]. Qed.

Lemma rstrip_keeps_tail (s t : string) :
  t <> EmptyString -> rstrip t = t -> rstrip (s ++ t) = (s ++ t)%string.
Proof.
  intros Hne Ht. induction s as [|c s IH]; cbn [append rstrip]; [exact Ht|].
  rewrite IH. destruct (s ++ t)%string eqn:E; [|reflexivity].
  destruct s; cbn in E; [contradiction | discriminate].
Qed.

(** X17.  A completion wrapped in a Markdown fence is read as what stands
    between the opening and the closing fence, with surrounding white space
    removed. *)
Theorem fenced_reply_is_unwrapped (body : string) :
  clean_response ("```json" ++ body ++ "```") = strip body.
Proof.
  unfold clean_response.
  assert (Hs : strip ("```json" ++ body ++ "```") = ("```json" ++ body ++ "```")%string).
  { unfold strip. cbn [append lstrip]. change (isspace "`") with false. cbv iota.
    apply (@rstrip_keeps_tail ("```json" ++ body) "```"); [discriminate | reflexivity]. }
  rewrite Hs.
  assert (Hp : startswith "```json" ("```json" ++ body ++ "```") = true)
    by (apply prefix_append; now eexists).
  rewrite Hp.
  assert (Hd : drop_prefix 7 ("```json" ++ body ++ "```") = (body ++ "```")%string).
  { unfold drop_prefix. rewrite length_append.
    change (String.length "```json") with 7.
    replace (7 + String.length (body ++ "```") - 7) with (String.length (body ++ "```"))
      by lia.
    exact (@substring_skip "```json" (body ++ "```")). }
  rewrite Hd.
  assert (He : endswith "```" (body ++ "```") = true).
  { unfold endswith. rewrite length_append. change (String.length "```") with 3.
    replace (String.length body + 3 - 3) with (String.length body) by lia.
    pose proof (@substring_skip body "```") as Hx. cbn [String.length] in Hx.
    rewrite Hx. cbn [String.eqb Ascii.eqb Bool.eqb andb].
    rewrite andb_true_r. apply Nat.leb_le. lia. }
  rewrite He. f_equal. unfold drop_suffix. rewrite length_append.
  change (String.length "```") with 3.
  replace (String.length body + 3 - 3) with (String.length body) by lia.
  apply substring_take.
Qed.

(** ** Saving and reopening the Preference Store *)

(** X18.  When the dump goes through, what a manager holds right after it
    is opened is what it gets back when it saves and is opened again, whatever
    memory.json held, and a manager whose [preferred_level3] keys are distinct
    strings gets back exactly what it saved; when the dump breaks off,
    memory.json is cut off and the manager cannot be opened again. *)
Theorem save_and_reopen (env : Env) (st : Store) :
  (forall m,
     load_memory st = Ok m ->
     dump_breaks env (dumps st) = false ->
     let run := (MemoryManager ;;; save_memory env ;;; MemoryManager)%M st in
     snd run = Ok tt /\ memory (fst run) = m)
  /\ (text_keyed (live_level3 st) ->
      dump_breaks env (dumps st) = false ->
      let run := (save_memory env ;;; MemoryManager)%M st in
      snd run = Ok tt /\ memory (fst run) = memory st)
  /\ (dump_breaks env (dumps st) = true ->
      let run := (save_memory env ;;; MemoryManager)%M st in
      snd run = Raise UnicodeEncodeError
      /\ memory_json (fst run) = CutOff
      /\ MemoryManager (fst run) = (fst run, Raise JSONDecodeError)).
Proof.
  split; [|split].
  - intros m Hm Hb. cbv zeta.
    pose proof (in_step_fresh_manager st Hm) as [Hkeys _].
    rewrite bind_run, (MemoryManager_run st Hm).
    rewrite bind_run, (save_memory_run env (set_memory m st) Hb).
    rewrite (@MemoryManager_run
               (set_memory_json (Holds (memory (set_memory m st))) (tick_dump (set_memory m st)))
               (reload_memory m) eq_refl).
    cbn [fst snd memory set_memory]. split; [reflexivity|].
    apply reload_memory_text_keyed. exact Hkeys.
  - intros Hkeys Hb. cbv zeta.
    rewrite bind_run, (save_memory_run env st Hb).
    rewrite (@MemoryManager_run (set_memory_json (Holds (memory st)) (tick_dump st))
               (reload_memory (memory st)) eq_refl).
    cbn [fst snd memory set_memory]. split; [reflexivity|].
    now apply reload_memory_text_keyed.
  - intros Hb. cbv zeta. rewrite bind_run, (save_memory_broken env st Hb).
    cbn [fst snd]. repeat split.
Qed.

(** ** _clean_text *)

Section CleanTextProperties.

Variable is_word : N -> bool.
Variable is_space : N -> bool.

(** Two facts about Unicode white space. *)
Hypothesis blank_is_space : is_space blank = true.
Hypothesis line_feed_is_space : is_space line_feed = true.

#[local] Abbreviation keep := (kept is_word is_space).
#[local] Abbreviation squeeze := (squeeze_spaces is_space).
#[local] Abbreviation lstrip' := (lstrip_text is_space).
#[local] Abbreviation rstrip' := (rstrip_text is_space).
#[local] Abbreviation strip' := (strip_text is_space).
#[local] Abbreviation spaced := (single_spaced is_space).
#[local] Abbreviation starts := (starts_with_space is_space).
#[local] Abbreviation clean := (clean_text is_word is_space).

Lemma kept_space (c : N) : is_space c = true -> keep c = true.
Proof. intros H. unfold kept. now rewrite H, orb_true_r. Qed.

Lemma squeeze_space (c : N) (r : list N) :
  is_space c = true ->
  squeeze (c :: r) = if starts r then squeeze r else blank :: squeeze r.
Proof. intros H. cbn [squeeze_spaces]. rewrite H. now destruct r. Qed.

Lemma squeeze_other (c : N) (r : list N) :
  is_space c = false -> squeeze (c :: r) = c :: squeeze r.
Proof. intros H. cbn [squeeze_spaces]. now rewrite H. Qed.

Lemma starts_squeeze (t : list N) : starts (squeeze t) = starts t.
Proof.
  induction t as [|c r IH]; [reflexivity|].
  destruct (is_space c) eqn:Hc.
  - rewrite squeeze_space by exact Hc. cbn [starts_with_space]. rewrite Hc.
    destruct (starts r) eqn:Hr; [now rewrite IH | exact blank_is_space].
  - rewrite squeeze_other by exact Hc. reflexivity.
Qed.

Lemma squeeze_members (t : list N) (c : N) :
  In c (squeeze t) -> c = blank \/ (In c t /\ is_space c = false).
Proof.
  induction t as [|a r IH]; [intros []|].
  destruct (is_space a) eqn:Ha.
  - rewrite squeeze_space by exact Ha. destruct (starts r).
    + intros H. destruct (IH H) as [E | [Hin Hs]]; [now left | right; split; [now right | exact Hs]].
    + intros [E | H]; [now left|].
      destruct (IH H) as [E | [Hin Hs]]; [now left | right; split; [now right | exact Hs]].
  - rewrite squeeze_other by exact Ha. intros [E | H].
    + subst. right. split; [now left | exact Ha].
    + destruct (IH H) as [E | [Hin Hs]]; [now left | right; split; [now right | exact Hs]].
Qed.

Lemma spaced_squeeze (t : list N) : spaced (squeeze t) = true.
Proof.
  induction t as [|c r IH]; [reflexivity|].
  destruct (is_space c) eqn:Hc.
  - rewrite squeeze_space by exact Hc. destruct (starts r) eqn:Hr; [exact IH|].
    cbn [single_spaced]. rewrite IH, andb_true_r.
    pose proof (starts_squeeze r) as Hs. rewrite Hr in Hs.
    destruct (squeeze r) as [|d r']; [reflexivity|]. cbn in Hs. now rewrite Hs, andb_false_r.
  - rewrite squeeze_other by exact Hc. cbn [single_spaced]. rewrite IH, andb_true_r.
    rewrite Hc. now destruct (squeeze r).
Qed.

Lemma spaced_tail (c : N) (r : list N) : spaced (c :: r) = true -> spaced r = true.
Proof. cbn [single_spaced]. intros H. now apply andb_true_iff in H. Qed.

Lemma lstrip_suffix (t : list N) : exists p, t = p ++ lstrip' t.
Proof.
  induction t as [|c r [p IH]]; [now exists []|]. cbn [lstrip_text].
  destruct (is_space c); [|now exists []].
  exists (c :: p). cbn. now rewrite <- IH.
Qed.

Lemma spaced_lstrip (t : list N) : spaced t = true -> spaced (lstrip' t) = true.
Proof.
  induction t as [|c r IH]; [auto|]. intros H. cbn [lstrip_text].
  destruct (is_space c); [|exact H]. apply IH. now apply spaced_tail in H.
Qed.

Lemma rstrip_members (t : list N) (c : N) : In c (rstrip' t) -> In c t.
Proof.
  revert c. induction t as [|a r IH]; intros c; [intros []|]. cbn [rstrip_text].
  destruct (rstrip' r) as [|d r'] eqn:E.
  - destruct (is_space a); [intros [] | intros [->|[]]; now left].
  - intros [->|H]; [now left | right; now apply IH].
Qed.

Lemma rstrip_head (c : N) (r : list N) :
  is_space c = false -> exists r', rstrip' (c :: r) = c :: r'.
Proof.
  intros H. cbn [rstrip_text]. destruct (rstrip' r) as [|d r'].
  - rewrite H. now exists [].
  - now eexists.
Qed.

Lemma spaced_rstrip (t : list N) : spaced t = true -> spaced (rstrip' t) = true.
Proof.
  induction t as [|c r IH]; [auto|]. intros H. cbn [rstrip_text].
  pose proof (IH (spaced_tail _ _ H)) as Hr.
  destruct (rstrip' r) as [|d r'] eqn:E.
  - now destruct (is_space c).
  - cbn [single_spaced] in *. rewrite Hr, andb_true_r.
    destruct r as [|d0 r0]; [discriminate|].
    apply andb_true_iff in H. destruct H as [H _].
    destruct (is_space c) eqn:Hc; [|reflexivity].
    cbn [andb] in *. apply negb_true_iff in H.
    destruct (rstrip_head r0 H) as [r'' E']. rewrite E' in E. injection E as <- _.
    now rewrite H.
Qed.

Lemma lstrip_idem (t : list N) : lstrip' (lstrip' t) = lstrip' t.
Proof.
  induction t as [|c r IH]; [reflexivity|]. cbn [lstrip_text].
  destruct (is_space c) eqn:Hc; [exact IH|]. cbn [lstrip_text]. now rewrite Hc.
Qed.

Lemma rstrip_idem (t : list N) : rstrip' (rstrip' t) = rstrip' t.
Proof.
  induction t as [|c r IH]; [reflexivity|]. cbn [rstrip_text].
  destruct (rstrip' r) as [|d r'] eqn:E.
  - destruct (is_space c) eqn:Hc; [reflexivity|]. cbn [rstrip_text]. now rewrite Hc.
  - cbn [rstrip_text]. cbn [rstrip_text] in IH. now rewrite IH.
Qed.

Lemma lstrip_fixed (t : list N) : starts t = false -> lstrip' t = t.
Proof. destruct t as [|c r]; [reflexivity|]. cbn. now intros ->. Qed.

Lemma starts_lstrip (t : list N) : starts (lstrip' t) = false.
Proof.
  induction t as [|c r IH]; [reflexivity|]. cbn [lstrip_text].
  destruct (is_space c) eqn:Hc; [exact IH | cbn; exact Hc].
Qed.

Lemma starts_rstrip (t : list N) : starts t = false -> starts (rstrip' t) = false.
Proof.
  destruct t as [|c r]; [reflexivity|]. cbn [starts_with_space]. intros H.
  destruct (rstrip_head r H) as [r' ->]. exact H.
Qed.

Lemma strip_idem (t : list N) : strip' (strip' t) = strip' t.
Proof.
  unfold strip_text.
  rewrite (lstrip_fixed (rstrip' (lstrip' t))).
  - apply rstrip_idem.
  - apply starts_rstrip, starts_lstrip.
Qed.

Lemma strip_members (t : list N) (c : N) : In c (strip' t) -> In c t.
Proof.
  intros H. apply rstrip_members in H. destruct (lstrip_suffix t) as [p E].
  rewrite E. apply in_or_app. now right.
Qed.

Lemma clean_tidy (t : list N) : tidy is_word is_space (clean t).
Proof.
  unfold clean_text.
  set (u := squeeze (filter keep (squeeze_newlines t))).
  assert (Hmem : forall c, In c (strip' u) ->
                           c = blank \/ (keep c = true /\ is_space c = false)).
  { intros c H. apply strip_members in H. apply squeeze_members in H.
    destruct H as [E | [Hin Hs]]; [now left | right; split; [|exact Hs]].
    now apply filter_In in Hin. }
  split; [|split; [|split]].
  - apply Forall_forall. intros c H. destruct (Hmem c H) as [-> | [Hk _]]; [|exact Hk].
    now apply kept_space.
  - apply Forall_forall. intros c H Hs. destruct (Hmem c H) as [E | [_ Hn]];
      [exact E | congruence].
  - unfold strip_text. apply spaced_rstrip, spaced_lstrip, spaced_squeeze.
  - apply strip_idem.
Qed.

Lemma squeeze_newlines_none (t : list N) :
  Forall (fun c => c <> line_feed) t -> squeeze_newlines t = t.
Proof.
  induction 1 as [|c r Hc _ IH]; [reflexivity|]. cbn [squeeze_newlines].
  apply N.eqb_neq in Hc. now rewrite Hc, IH.
Qed.

Lemma filter_all {A : Type} (p : A -> bool) (l : list A) :
  Forall (fun a => p a = true) l -> filter p l = l.
Proof. induction 1 as [|a l Ha _ IH]; cbn; [reflexivity | now rewrite Ha, IH]. Qed.

Lemma squeeze_tidy (t : list N) :
  Forall (fun c => is_space c = true -> c = blank) t ->
  spaced t = true ->
  squeeze t = t.
Proof.
  induction 1 as [|c r Hc _ IH]; [reflexivity|]. intros Hs.
  pose proof (IH (spaced_tail _ _ Hs)) as Hr.
  destruct (is_space c) eqn:E.
  - rewrite squeeze_space by exact E. rewrite (Hc eq_refl) in *.
    cbn [single_spaced] in Hs. destruct r as [|d r']; [reflexivity|].
    apply andb_true_iff in Hs. destruct Hs as [Hs _]. rewrite blank_is_space in Hs.
    cbn [andb starts_with_space] in *. apply negb_true_iff in Hs. now rewrite Hs, Hr.
  - rewrite squeeze_other by exact E. now rewrite Hr.
Qed.

Lemma tidy_is_fixed (t : list N) : tidy is_word is_space t -> clean t = t.
Proof.
  intros (Hk & Hb & Hs & Hstrip). unfold clean_text.
  rewrite squeeze_newlines_none.
  - now rewrite (filter_all _ Hk), (squeeze_tidy Hb Hs).
  - apply Forall_forall. intros c Hin E. subst c.
    pose proof (proj1 (Forall_forall _ _) Hb _ Hin line_feed_is_space). discriminate.
Qed.

(** X19.  Whatever the input, the cleaned text consists of kept characters
    only, its only white space is the blank (no line feed or tab survives), no
    two blanks are adjacent, and it neither begins nor ends with one. *)
Theorem clean_text_is_tidy (t : list N) :
  tidy is_word is_space (clean_text is_word is_space t).
Proof. exact (clean_tidy t). Qed.

(** X20.  Cleaning is idempotent: a cleaned text is left as it is by a
    second cleaning. *)
Theorem clean_text_idempotent (t : list N) :
  clean_text is_word is_space (clean_text is_word is_space t)
  = clean_text is_word is_space t.
Proof. apply tidy_is_fixed, clean_tidy. Qed.

Lemma squeeze_after_newlines (t : list N) :
  starts (filter keep (squeeze_newlines t)) = starts (filter keep t)
  /\ squeeze (filter keep (squeeze_newlines t)) = squeeze (filter keep t).
Proof.
  assert (Hlf : keep line_feed = true) by (now apply kept_space).
  induction t as [|c r [IHs IHq]]; [now split|].
  cbn [squeeze_newlines].
  destruct (N.eqb_spec c line_feed) as [->|Hne].
  - destruct r as [|d r']; [now split|].
    destruct (N.eqb_spec d line_feed) as [->|Hd].
    + cbn [filter] in *. rewrite Hlf in *. split.
      * rewrite IHs. cbn. now rewrite line_feed_is_space.
      * rewrite IHq. rewrite (squeeze_space (line_feed :: filter keep r') line_feed_is_space).
        cbn [starts_with_space]. now rewrite line_feed_is_space.
    + cbn [filter]. rewrite Hlf. split; [reflexivity|].
      rewrite !squeeze_space by exact line_feed_is_space.
      cbn [filter] in IHs, IHq. now rewrite IHs, IHq.
  - cbn [filter]. destruct (keep c); [|now split]. split; [reflexivity|].
    destruct (is_space c) eqn:Hc.
    + rewrite !squeeze_space by exact Hc. now rewrite IHs, IHq.
    + rewrite !squeeze_other by exact Hc. now rewrite IHq.
Qed.

(** X21.  The first substitution (collapsing runs of line feeds) never
    changes the result: the cleaned text is what the other three steps give on
    the raw text. *)
Theorem newline_collapse_is_redundant (t : list N) :
  clean_text is_word is_space t
  = strip_text is_space (squeeze_spaces is_space (filter (kept is_word is_space) t)).
Proof.
  unfold clean_text. now rewrite (proj2 (squeeze_after_newlines t)).
Qed.

End CleanTextProperties.

(** ** The report of a search *)

Lemma report_entries_fail (results : list DocumentRecord) :
  Forall textual_category results ->
  Forall (fun d => textual (core_ideas d)) results ->
  Exists (fun d => core_ideas d = JArr []) results ->
  forall i, report_entries i results = Raise IndexError.
Proof.
  induction results as [|d rest IH]; intros Hc Ht Hex i; [inversion Hex|].
  inversion Hc as [|? ? (l1 & l2 & l3 & H1 & H2 & H3) Hc']; subst.
  inversion Ht as [|? ? Hd Ht']; subst.
  cbn [report_entries]. unfold report_entry.
  rewrite H1, H2, H3. cbn [rbind].
  unfold textual in Hd. destruct (texts (core_ideas d)) as [|s l] eqn:Htx.
  - rewrite Hd. reflexivity.
  - rewrite Hd. cbn [map py_getitem py_len].
    change (seq_index 0 (JStr s :: map JStr l)) with (Ok (JStr s)).
    cbn [rbind].
    rewrite IH; [reflexivity | exact Hc' | exact Ht' |].
    inversion Hex as [? ? E | ? ? Hrest]; subst; [|exact Hrest].
    rewrite E in Htx. discriminate.
Qed.

(** X22.  When the matches collected by a search all have string levels and
    at least one core idea, the search returns a report whose count is the
    number of matches and whose entries, numbered from 1 in match order, carry
    the file name, the path, the first core idea and, as the number of "more"
    ideas, the length of the whole list, the first idea included. *)
Theorem report_lists_every_match (query_type query_value : string) (st : Store)
  (kb : KnowledgeBase) (results : list DocumentRecord) :
  kb_json st = Holds kb ->
  search_loop query_type query_value (documents kb) [] = Ok (Some results) ->
  results <> [] ->
  Forall textual_category results ->
  Forall has_core_idea results ->
  exists entries,
    search_knowledge query_type query_value st
    = Ok (Found (List.length results) entries)
    /\ map entry_filename entries = map filename results
    /\ map entry_path entries = map path results
    /\ map entry_number entries = seq 1 (List.length results)
    /\ Forall2 (fun d e => py_getitem (core_ideas d) (JNum 0) = Ok (entry_first_idea e)
                           /\ py_len (core_ideas d) = Ok (entry_ideas e))
               results entries.
Proof.
  intros Hkb Hloop Hne Hc Hi.
  destruct (search_answer _ _ _ Hkb Hloop) as [_ Hsome].
  apply Hsome; [exact Hne|].
  apply Forall_forall. intros d Hd. split.
  - apply textual_category_levels. exact (proj1 (Forall_forall _ _) Hc d Hd).
  - exact (proj1 (Forall_forall _ _) Hi d Hd).
Qed.

(** X23.  When one of the matches collected by a search has an empty list of
    core ideas, the search does not return: formatting its entry raises
    [IndexError], whatever the other matches are. *)
Theorem report_fails_without_core_idea (query_type query_value : string) (st : Store)
  (kb : KnowledgeBase) (results : list DocumentRecord) :
  kb_json st = Holds kb ->
  search_loop query_type query_value (documents kb) [] = Ok (Some results) ->
  Forall textual_category results ->
  Forall (fun d => textual (core_ideas d)) results ->
  Exists (fun d => core_ideas d = JArr []) results ->
  search_knowledge query_type query_value st = Raise IndexError.
Proof.
  intros Hkb Hloop Hc Ht Hex. unfold search_knowledge. rewrite Hkb.
  cbn [reload_kb documents]. rewrite Hloop. cbn [rbind].
  destruct results as [|d rest]; [inversion Hex|].
  cbv beta iota. now rewrite (report_entries_fail Hc Ht Hex 1).
Qed.

(** ** Files the parser refuses *)

Lemma after_last_join (dir name : string) :
  slash_free name = true ->
  after_last "/" (path_join dir name) = Some name.
Proof.
  intros Hn.
  assert (Hnone : after_last "/" name = None).
  { induction name as [|c r IH]; [reflexivity|]. cbn [slash_free] in Hn.
    apply andb_true_iff in Hn. destruct Hn as [Hc Hr]. cbn [after_last].
    rewrite (IH Hr). apply negb_true_iff in Hc. now rewrite Hc. }
  unfold path_join. change ("/" ++ name)%string with (String "/" name).
  induction dir as [|a dir IH].
  - cbn [append after_last]. rewrite Hnone. reflexivity.
  - cbn [append after_last]. now rewrite IH.
Qed.

Lemma splitext_join (dir name : string) :
  slash_free name = true ->
  splitext_ext (path_join dir name) = splitext_ext name.
Proof.
  intros Hn. unfold splitext_ext. rewrite (@after_last_join dir name Hn).
  assert (Hnone : after_last "/" name = None).
  { clear dir. induction name as [|c r IH]; [reflexivity|]. cbn [slash_free] in Hn.
    apply andb_true_iff in Hn. destruct Hn as [Hc Hr]. cbn [after_last].
    rewrite (IH Hr). apply negb_true_iff in Hc. now rewrite Hc. }
  now rewrite Hnone.
Qed.

(** X24.  A listed file whose extension, lower-cased, is none of [.pdf],
    [.docx] and [.txt] is passed over: no record is added, the backend is not
    called and nothing is written. *)
Theorem unsupported_file_is_skipped (env : Env) (docs : list DocumentRecord)
  (name : string) (st : Store) :
  slash_free name = true ->
  ~ supported_extension (lower (splitext_ext name)) ->
  process_file env docs name st = (st, Ok docs).
Proof.
  intros Hn Hext. unfold process_file.
  destruct (existsb _ docs); [reflexivity|].
  unfold parse. rewrite (@splitext_join input_dir name Hn).
  destruct (String.eqb_spec (lower (splitext_ext name)) ".pdf") as [E|_];
    [exfalso; apply Hext; now left|].
  destruct (String.eqb_spec (lower (splitext_ext name)) ".docx") as [E|_];
    [exfalso; apply Hext; right; now left|].
  destruct (String.eqb_spec (lower (splitext_ext name)) ".txt") as [E|_];
    [exfalso; apply Hext; right; now right|].
  reflexivity.
Qed.

(** ** Files that were cut off *)

(** X25.  Once memory.json is cut off, a run stops where it opens the
    manager and changes nothing; once the knowledge-base file is cut off, a run
    stops where it reads it, before any file is processed, and every search
    raises. *)
Theorem cut_off_files_block (env : Env) (files : list string)
  (query_type query_value : string) (st : Store) :
  (memory_json st = CutOff ->
   process_documents env files st = (st, Raise JSONDecodeError))
  /\ (kb_json st = CutOff ->
      snd (process_documents env files st) = Raise JSONDecodeError
      /\ kb_json (fst (process_documents env files st)) = CutOff
      /\ generate_calls (fst (process_documents env files st)) = generate_calls st
      /\ dumps (fst (process_documents env files st)) = dumps st
      /\ search_knowledge query_type query_value st = Raise JSONDecodeError).
Proof.
  split.
  - intros Hcut. destruct (process_documents env files st) as [st' r] eqn:Hrun.
    apply process_documents_run in Hrun.
    destruct Hrun as [(_ & -> & ->) | (m & Hm & _)]; [reflexivity|].
    unfold load_memory in Hm. rewrite Hcut in Hm. discriminate.
  - intros Hcut.
    assert (Hs : search_knowledge query_type query_value st = Raise JSONDecodeError)
      by (unfold search_knowledge; now rewrite Hcut).
    destruct (process_documents env files st) as [st' r] eqn:Hrun. cbn [fst snd].
    apply process_documents_run in Hrun.
    destruct Hrun as [(_ & -> & ->) | (m & _ & Hrun)]; [now repeat split|].
    destruct Hrun as [(_ & -> & ->) | (kb_file & Hk & _)]; [now repeat split|].
    unfold load_knowledge_base in Hk. rewrite Hcut in Hk. discriminate.
Qed.

(** ** The further properties at concrete inputs *)

(** One run over a text file, a Markdown file and the text file again. *)
Lemma run_appends_witness :
  let files := ["a.txt"; "notes.md"; "a.txt"; "b.txt"] in
  let run := process_documents silent_backend files initial_store in
  run = (fst run, Ok tt)
  /\ accepted silent_backend files [] = ["a.txt"; "b.txt"]
  /\ exists news,
       stored_documents (fst run) = stored_documents initial_store ++ news
       /\ map filename news = accepted silent_backend files
                                (map filename (stored_documents initial_store))
       /\ Forall (fun d => path d = path_join input_dir (filename d)) news.
Proof.
  cbv zeta.
  set (run := process_documents silent_backend ["a.txt"; "notes.md"; "a.txt"; "b.txt"]
                initial_store).
  assert (Hrun : run = (fst run, Ok tt)) by (vm_compute; reflexivity).
  subst run. split; [exact Hrun|]. split; [vm_compute; reflexivity|].
  exact (@run_appends_accepted_files silent_backend _ initial_store _ Hrun).
Defined.

Lemma filenames_distinct_witness :
  let batches := [["a.txt"; "a.txt"]; ["b.txt"; "a.txt"]] in
  NoDup (map filename (stored_documents initial_store))
  /\ NoDup (map filename
              (stored_documents (ingestion_runs silent_backend batches initial_store))).
Proof.
  cbv zeta.
  assert (H : NoDup (map filename (stored_documents initial_store))) by constructor.
  split; [exact H|]. now apply filenames_stay_distinct.
Defined.

(** A second run over the same two files, with dumps that go through and
    with a dump that breaks off. *)
Lemma rerun_witness :
  let files := ["a.txt"; "notes.md"] in
  let run := process_documents helpful_backend files initial_store in
  let rerun := process_documents helpful_backend files (fst run) in
  run = (fst run, Ok tt)
  /\ snd rerun = Ok tt
  /\ map filename (stored_documents (fst rerun)) = ["a.txt"]
  /\ generate_calls (fst rerun) = generate_calls (fst run)
  /\ extract_calls (fst rerun) = extract_calls (fst run)
  /\ memory_json (fst rerun) = memory_json (fst run).
Proof.
  cbv zeta.
  set (run := process_documents helpful_backend ["a.txt"; "notes.md"] initial_store).
  assert (Hrun : run = (fst run, Ok tt)) by (vm_compute; reflexivity).
  subst run. split; [exact Hrun|].
  destruct (@rerun_adds_nothing helpful_backend _ initial_store _ Hrun)
    as (H1 & H2 & H3 & _).
  split; [vm_compute; reflexivity|]. split; [vm_compute; reflexivity|].
  split; [exact H1|]. split; [exact H2 | exact H3].
Defined.

(** An extraction reply without the expected keys ends the run and leaves
    the file as it was; a final dump that breaks off leaves it cut. *)
Lemma failed_run_witness :
  let env := scenario (nth_completion [None; Some "{}"]) three_draws in
  let run := process_documents env ["a.txt"; "b.txt"] sample_store in
  let broken := process_documents (breaking 1 silent_backend) ["a.txt"] sample_store in
  snd run = Raise KeyError
  /\ kb_json (fst run) = kb_json sample_store
  /\ snd broken = Raise UnicodeEncodeError
  /\ kb_json (fst broken) = CutOff.
Proof.
  cbv zeta.
  set (env := scenario _ _).
  assert (H : snd (process_documents env ["a.txt"; "b.txt"] sample_store) = Raise KeyError)
    by (vm_compute; reflexivity).
  assert (Hb : snd (process_documents (breaking 1 silent_backend) ["a.txt"] sample_store)
               = Raise UnicodeEncodeError) by (vm_compute; reflexivity).
  split; [exact H|]. split.
  - destruct (failed_run_writes_no_knowledge_base _ _ _ H) as [Hk | (C & _)];
      [exact Hk | discriminate].
  - split; [exact Hb|].
    destruct (failed_run_writes_no_knowledge_base _ _ _ Hb) as [Hk | (_ & Hk & _)];
      [|exact Hk].
    vm_compute in Hk. discriminate.
Defined.

Lemma session_counts_witness :
  let run := process_documents silent_backend ["a.txt"; "b.txt"; "notes.md"] sample_store in
  run = (fst run, Ok tt)
  /\ List.length (stored_documents (fst run)) = 5
  /\ exists m m',
       load_memory sample_store = Ok m
       /\ load_memory (fst run) = Ok m'
       /\ total_processed (session_status m')
          = (total_processed (session_status m) + 5 - 3)%Z.
Proof.
  cbv zeta.
  set (run := process_documents silent_backend ["a.txt"; "b.txt"; "notes.md"] sample_store).
  assert (Hrun : run = (fst run, Ok tt)) by (vm_compute; reflexivity).
  assert (Hlen : List.length (stored_documents (fst run)) = 5) by (vm_compute; reflexivity).
  subst run. split; [exact Hrun|]. split; [exact Hlen|].
  destruct (@session_counts_new_records silent_backend _ sample_store _ Hrun)
    as (m & m' & Hm & Hm' & Ht).
  exists m, m'. split; [exact Hm|]. split; [exact Hm'|].
  rewrite Ht, Hlen. reflexivity.
Defined.

(** A run whose classification registers a level3: memory.json then holds
    what the manager holds. *)
Lemma preference_store_witness :
  let st' := fst (process_documents helpful_backend ["a.txt"] initial_store) in
  load_memory initial_store = Ok default_memory
  /\ memory_json st' = Holds (memory st')
  /\ ((memory st' = default_memory /\ memory_json st' = memory_json initial_store)
      \/ memory_json st' = Holds (memory st')
      \/ memory_json st' = CutOff).
Proof.
  cbv zeta. split; [reflexivity|]. split; [vm_compute; reflexivity|].
  exact (proj1 (@preference_store_is_durable helpful_backend ["a.txt"] initial_store
                  default_memory eq_refl)).
Defined.

Lemma valid_first_attempt_witness :
  let c := JObj [("level1", JStr "Tech"); ("level2", JStr "AI"); ("level3", JStr "ML")] in
  let st := tick_generate initial_store in
  let x := {| ex_core_ideas := JArr [JStr "Models learn from data";
                                     JStr "Training needs examples"];
              ex_keywords := JArr [JStr "learning"; JStr "data"];
              ex_related_docs := JArr [] |} in
  extract helpful_backend "text" [] st = (fst (extract helpful_backend "text" [] st), Ok x)
  /\ needs_retry c x = Ok false
  /\ extract_calls (fst (extract helpful_backend "text" [] st)) = 1.
Proof.
  cbv zeta.
  set (st := tick_generate initial_store).
  set (x := {| ex_core_ideas := _; ex_keywords := _; ex_related_docs := _ |}).
  assert (Hx : extract helpful_backend "text" [] st
               = (fst (extract helpful_backend "text" [] st), Ok x))
    by (vm_compute; reflexivity).
  assert (Hv : needs_retry
                 (JObj [("level1", JStr "Tech"); ("level2", JStr "AI");
                        ("level3", JStr "ML")]) x = Ok false) by reflexivity.
  split; [exact Hx|]. split; [exact Hv|].
  exact (proj2 (valid_first_attempt_is_final helpful_backend "text" [] _ st Hx Hv)).
Defined.

Lemma silent_backend_witness :
  (forall k, completion silent_backend k = None)
  /\ Forall well_typed_doc (documents sample_kb)
  /\ ~ In "report.txt" (map filename (documents sample_kb))
  /\ parse silent_backend (path_join input_dir "report.txt")
     = Ok "Machine learning improves efficiency"
  /\ dump_breaks silent_backend (dumps sample_store) = false
  /\ exists st' record,
       process_file silent_backend (documents sample_kb) "report.txt" sample_store
       = (st', Ok (documents sample_kb ++ [record]))
       /\ category record = unclassified
       /\ core_ideas record = JArr [JStr no_core_ideas]
       /\ keywords record = JArr [JStr no_keywords]
       /\ related_docs record = JArr []
       /\ extract_calls st' = extract_calls sample_store + 3.
Proof.
  assert (H1 : forall k, completion silent_backend k = None) by reflexivity.
  assert (H2 : Forall well_typed_doc (documents sample_kb)) by (repeat constructor).
  assert (H3 : ~ In "report.txt" (map filename (documents sample_kb))).
  { cbn. intros [H|[H|[H|[]]]]; discriminate. }
  assert (H4 : parse silent_backend (path_join input_dir "report.txt")
               = Ok "Machine learning improves efficiency") by reflexivity.
  assert (H5 : dump_breaks silent_backend (dumps sample_store) = false) by reflexivity.
  split; [exact H1|]. split; [exact H2|]. split; [exact H3|]. split; [exact H4|].
  split; [exact H5|].
  destruct (silent_backend_stores_sentinels silent_backend "report.txt" sample_store
              H1 H2 H3 H4 H5) as (st' & record & E & _ & Hc & Hi & Hk & Hr & Hn).
  exists st', record. repeat split; assumption.
Defined.

Lemma recovered_category_witness :
  let s := ("Sure: " ++ category_text (q "Tech") (q "AI") (q "ML"))%string in
  let run := classify chatty_backend "text" "a.txt" initial_store in
  completion chatty_backend (generate_calls initial_store) = Some s
  /\ json_loads chatty_backend (clean_response s) = Raise JSONDecodeError
  /\ snd run = Ok (JObj [("level1", JStr "Tech"); ("level2", JStr "AI");
                         ("level3", JStr "ML")])
  /\ memory (fst run) = memory initial_store
  /\ memory_json (fst run) = memory_json initial_store.
Proof.
  cbv zeta.
  assert (H1 : completion chatty_backend (generate_calls initial_store)
               = Some ("Sure: " ++ category_text (q "Tech") (q "AI") (q "ML"))%string)
    by reflexivity.
  assert (H2 : json_loads chatty_backend
                 (clean_response ("Sure: " ++ category_text (q "Tech") (q "AI") (q "ML")))
               = Raise JSONDecodeError) by (vm_compute; reflexivity).
  split; [exact H1|]. split; [exact H2|]. split; [vm_compute; reflexivity|].
  destruct (recovered_category_is_not_registered chatty_backend "text" "a.txt" _ H1 H2)
    as (Hm & Hj & _).
  split; [exact Hm | exact Hj].
Defined.

Lemma extract_backend_calls_witness :
  let run := extract silent_backend "text" (documents sample_kb) initial_store in
  run = (fst run, Ok nothing_extracted)
  /\ generate_calls (fst run) = 2.
Proof.
  cbv zeta.
  set (run := extract silent_backend "text" (documents sample_kb) initial_store).
  assert (Hrun : run = (fst run, Ok nothing_extracted)) by (vm_compute; reflexivity).
  subst run. split; [exact Hrun|].
  exact (proj1 (@extract_backend_calls silent_backend "text" (documents sample_kb)
                  initial_store _ _ Hrun)).
Defined.

Lemma category_search_witness :
  kb_json sample_store = Holds sample_kb
  /\ Forall textual_category (documents sample_kb)
  /\ search_loop "category" "gram" (documents sample_kb) []
     = Ok (Some [ml_doc; notes_doc; tooling_doc])
  /\ (exists entries,
        search_knowledge "category" "gram" sample_store = Ok (Found 3 entries)
        /\ map entry_filename entries = ["ml.txt"; "notes.md"; "py.txt"])
  /\ search_knowledge "category" "Cooking" sample_store = Ok NoMatch.
Proof.
  assert (Hwt : Forall textual_category (documents sample_kb)).
  { repeat constructor; exists "Technology", "Programming", "General"; repeat split. }
  split; [reflexivity|]. split; [exact Hwt|].
  destruct (@category_search_results "gram" sample_store sample_kb eq_refl Hwt)
    as (Hloop & _ & _ & Hfound).
  split; [exact Hloop|]. split.
  - destruct Hfound as (entries & Hs & Hn & _).
    + discriminate.
    + repeat constructor; eexists; eexists; reflexivity.
    + exists entries. split; [exact Hs | exact Hn].
  - destruct (@category_search_results "Cooking" sample_store sample_kb eq_refl Hwt)
      as (_ & _ & Hnone & _).
    apply Hnone. reflexivity.
Defined.

Lemma related_search_witness :
  kb_json linked_store = Holds linked_kb
  /\ Forall (fun d => textual (related_docs d)) (documents linked_kb)
  /\ search_loop "related" "doc_00000001" (documents linked_kb) [] = Ok (Some [linked_doc])
  /\ (exists entries,
        search_knowledge "related" "doc_00000001" linked_store = Ok (Found 1 entries)
        /\ map entry_filename entries = ["py.txt"])
  /\ search_knowledge "related" "doc_0000000" linked_store = Ok NoMatch.
Proof.
  assert (Hwt : Forall (fun d => textual (related_docs d)) (documents linked_kb))
    by (repeat constructor).
  split; [reflexivity|]. split; [exact Hwt|].
  destruct (@related_search_results "doc_00000001" linked_store linked_kb eq_refl Hwt)
    as (Hloop & _ & _ & Hfound).
  split; [exact Hloop|]. split.
  - destruct Hfound as (entries & Hs & Hn & _).
    + discriminate.
    + repeat constructor;
        solve [ exists (JStr "Technology"), (JStr "Programming"), (JStr "General");
                repeat split
              | eexists; eexists; reflexivity ].
    + exists entries. split; [exact Hs | exact Hn].
  - destruct (@related_search_results "doc_0000000" linked_store linked_kb eq_refl Hwt)
      as (_ & _ & Hnone & _).
    apply Hnone. reflexivity.
Defined.

(** Cleaning an ASCII text with the ASCII tables. *)
Lemma clean_text_tidy_witness :
  let raw := code_points ("  Hello," ++ newline ++ newline ++ " wor<ld> !  ") in
  ascii_space blank = true
  /\ clean_text ascii_word ascii_space raw = code_points "Hello, world !"
  /\ tidy ascii_word ascii_space (clean_text ascii_word ascii_space raw).
Proof.
  cbv zeta. split; [reflexivity|]. split; [vm_compute; reflexivity|].
  apply clean_text_is_tidy. reflexivity.
Defined.

Lemma clean_text_idempotent_witness :
  let raw := code_points ("a" ++ newline ++ newline ++ "b  c|d") in
  ascii_space blank = true
  /\ ascii_space line_feed = true
  /\ clean_text ascii_word ascii_space (clean_text ascii_word ascii_space raw)
     = clean_text ascii_word ascii_space raw.
Proof.
  cbv zeta. split; [reflexivity|]. split; [reflexivity|].
  apply clean_text_idempotent; reflexivity.
Defined.

Lemma newline_collapse_witness :
  let raw := code_points ("a" ++ newline ++ newline ++ newline ++ "b") in
  ascii_space line_feed = true
  /\ clean_text ascii_word ascii_space raw = code_points "a b"
  /\ clean_text ascii_word ascii_space raw
     = strip_text ascii_space
         (squeeze_spaces ascii_space (filter (kept ascii_word ascii_space) raw)).
Proof.
  cbv zeta. split; [reflexivity|]. split; [vm_compute; reflexivity|].
  apply newline_collapse_is_redundant. reflexivity.
Defined.

Lemma report_witness :
  kb_json sample_store = Holds sample_kb
  /\ search_loop "category" "gram" (documents sample_kb) []
     = Ok (Some [ml_doc; notes_doc; tooling_doc])
  /\ Forall textual_category [ml_doc; notes_doc; tooling_doc]
  /\ Forall has_core_idea [ml_doc; notes_doc; tooling_doc]
  /\ exists entries,
       search_knowledge "category" "gram" sample_store = Ok (Found 3 entries)
       /\ map entry_number entries = [1; 2; 3]
       /\ map entry_filename entries = map filename [ml_doc; notes_doc; tooling_doc].
Proof.
  assert (Hs : search_loop "category" "gram" (documents sample_kb) []
               = Ok (Some [ml_doc; notes_doc; tooling_doc])) by (vm_compute; reflexivity).
  assert (Hne : [ml_doc; notes_doc; tooling_doc] <> []) by discriminate.
  assert (Hc : Forall textual_category [ml_doc; notes_doc; tooling_doc]).
  { repeat constructor; exists "Technology", "Programming", "General"; repeat split. }
  assert (Hi : Forall has_core_idea [ml_doc; notes_doc; tooling_doc]).
  { repeat constructor; eexists; eexists; reflexivity. }
  split; [reflexivity|]. split; [exact Hs|]. split; [exact Hc|]. split; [exact Hi|].
  destruct (@report_lists_every_match "category" "gram" sample_store sample_kb _
              eq_refl Hs Hne Hc Hi) as (es & E & Hn & _ & Hk & _).
  exists es. split; [exact E|]. split; [exact Hk | exact Hn].
Defined.

(** A backend that extracts empty lists: the record is stored without a
    retry, and a search that matches it cannot be reported. *)
Lemma report_failure_witness :
  let st := fst (process_documents terse_backend ["a.txt"] initial_store) in
  let results := stored_documents st in
  map filename results = ["a.txt"]
  /\ map core_ideas results = [JArr []]
  /\ extract_calls st = 1
  /\ search_loop "category" "Tech" results [] = Ok (Some results)
  /\ search_knowledge "category" "Tech" st = Raise IndexError.
Proof.
  cbv zeta.
  set (st := fst (process_documents terse_backend ["a.txt"] initial_store)).
  assert (Hkb : kb_json st
                = Holds {| documents := stored_documents st;
                           kb_user_preferences :=
                             match stored_preferences st with
                             | Some p => p
                             | None => user_preferences default_memory
                             end |}) by (vm_compute; reflexivity).
  assert (Hs : search_loop "category" "Tech" (stored_documents st) []
               = Ok (Some (stored_documents st))) by (vm_compute; reflexivity).
  assert (Hc : Forall textual_category (stored_documents st)).
  { vm_compute. repeat constructor. exists "Tech", "AI", "ML". repeat split. }
  assert (Ht : Forall (fun d => textual (core_ideas d)) (stored_documents st))
    by (vm_compute; repeat constructor).
  assert (Hex : Exists (fun d => core_ideas d = JArr []) (stored_documents st))
    by (vm_compute; constructor; reflexivity).
  split; [vm_compute; reflexivity|]. split; [vm_compute; reflexivity|].
  split; [vm_compute; reflexivity|]. split; [exact Hs|].
  exact (@report_fails_without_core_idea "category" "Tech" st _ _ Hkb Hs Hc Ht Hex).
Defined.

(** A Markdown file, and a file named by an extension alone. *)
Lemma unsupported_file_witness :
  slash_free "notes.md" = true
  /\ ~ supported_extension (lower (splitext_ext "notes.md"))
  /\ ~ supported_extension (lower (splitext_ext ".txt"))
  /\ process_file helpful_backend (documents sample_kb) "notes.md" sample_store
     = (sample_store, Ok (documents sample_kb))
  /\ process_file helpful_backend (documents sample_kb) ".txt" sample_store
     = (sample_store, Ok (documents sample_kb)).
Proof.
  assert (H1 : ~ supported_extension (lower (splitext_ext "notes.md")))
    by (intros [H|[H|H]]; vm_compute in H; discriminate H).
  assert (H2 : ~ supported_extension (lower (splitext_ext ".txt")))
    by (intros [H|[H|H]]; vm_compute in H; discriminate H).
  split; [reflexivity|]. split; [exact H1|]. split; [exact H2|]. split.
  - exact (@unsupported_file_is_skipped helpful_backend _ "notes.md" sample_store eq_refl H1).
  - exact (@unsupported_file_is_skipped helpful_backend _ ".txt" sample_store eq_refl H2).
Defined.

(** A save that breaks off while a.txt is processed cuts memory.json; the
    next run stops where it opens the manager. *)
Lemma cut_off_witness :
  let st := fst (process_documents (breaking 0 silent_backend) ["a.txt"] initial_store) in
  memory_json st = CutOff
  /\ kb_json st = Absent
  /\ process_documents silent_backend ["b.txt"] st = (st, Raise JSONDecodeError).
Proof.
  cbv zeta.
  set (st := fst (process_documents (breaking 0 silent_backend) ["a.txt"] initial_store)).
  assert (Hcut : memory_json st = CutOff) by (vm_compute; reflexivity).
  split; [exact Hcut|]. split; [vm_compute; reflexivity|].
  exact (proj1 (cut_off_files_block silent_backend ["b.txt"] "keyword" "x" st) Hcut).
Defined.
